(** * SkillSwap backend: HTTP handlers over an external store

    A shallow embedding of [skillswap/backend/server.js] (the four
    [/auth/...] handlers and [getBearerToken]) and of
    [skillswap/backend/controllers/userControllers.js] (the legacy
    [registerUser], [loginUser] and [getAllUsers] handlers).

    Handlers are programs in a small free monad: every call to the
    Supabase clients, to the [pg] pool, to [bcrypt], to [jwt] or to the
    clock is a [Call] node whose continuation receives the outcome of
    the call (a resolved value, or a rejection / thrown exception).
    [try { ... } catch] is the combinator [try_catch].  A handler is run
    against an arbitrary interpreter [exec] of the calls over an
    arbitrary world.  [Replay] plays a script of outcomes; the reference
    interpreters [MemStore] (the Supabase project) and [MemDb] (the
    [users] table, which reads the SQL text it is sent) give a state to
    the statements that are about stored data. *)

From Stdlib Require Import Ascii String.
From stdpp Require Import gmap strings list fin_maps pretty.

Set Default Proof Using "Type".
#[local] Set Warnings "-register-all,-clear-no-such-hyp".

(* ================================================================== *)
(** ** JavaScript values *)
(* ================================================================== *)

(** JSON-shaped JavaScript values.  Objects are finite maps from
    property names to values; a property holding [undefined] is a key
    mapped to [VUndef].  Numbers are integers: the handlers only ever
    test a number for truthiness. *)
Inductive value : Type :=
| VUndef
| VNull
| VBool (b : bool)
| VNum (n : Z)
| VStr (s : string)
| VArr (l : list value)
| VObj (o : gmap string value).

(** [!v] is [negb (truthy v)]. *)
Definition truthy (v : value) : bool :=
  match v with
  | VUndef | VNull => false
  | VBool b => b
  | VNum n => negb (n =? 0)%Z
  | VStr s => negb (String.eqb s "")
  | VArr _ | VObj _ => true
  end.

Definition nullish (v : value) : bool :=
  match v with
  | VUndef | VNull => true
  | _ => false
  end.

(** [a || b] *)
Definition js_or (a b : value) : value := if truthy a then a else b.

(** [v.k] on a value that is neither [undefined] nor [null].  The
    property names of the source are identifiers, never array indices;
    the length of a string is that of an ASCII string. *)
Definition get (v : value) (k : string) : value :=
  match v with
  | VObj o => default VUndef (o !! k)
  | VArr l => if String.eqb k "length" then VNum (Z.of_nat (length l)) else VUndef
  | VStr s => if String.eqb k "length" then VNum (Z.of_nat (String.length s)) else VUndef
  | _ => VUndef
  end.

(** [v?.k] *)
Definition get_opt (v : value) (k : string) : value :=
  if nullish v then VUndef else get v k.

(** The [TypeError] a property access on [undefined] or [null] throws
    (its message is engine specific and is left out). *)
Definition TypeError : value := VObj {[ "name" := VStr "TypeError" ]}.

(* ================================================================== *)
(** ** Programs: external calls, exceptions, try/catch *)
(* ================================================================== *)

(** The calls the handlers make to the outside world, with their
    arguments. *)
Inductive call : Type :=
| AdminCreateUser (attrs : value)      (* supabaseService.auth.admin.createUser(attrs) *)
| AdminDeleteUser (id : value)         (* supabaseService.auth.admin.deleteUser(id) *)
| SignInWithPassword (creds : value)   (* supabaseAnon.auth.signInWithPassword(creds) *)
| AuthGetUser (token : value)          (* supabaseService.auth.getUser(token) *)
| ProfilesInsert (rows : value)        (* .from('profiles').insert(rows) *)
| ProfilesSelectSingle (id : value)    (* .from('profiles').select('*').eq('id', id).single() *)
| ProfilesUpdate (updates id : value)  (* .from('profiles').update(updates).eq('id', id) *)
| DateNowISO                           (* new Date().toISOString() *)
| PoolQuery (sql : string) (params : list value)  (* pool.query(sql, params) *)
| BcryptCompare (data hash : value)    (* bcrypt.compare(data, hash) *)
| JwtSign (payload secret : value).    (* jwt.sign(payload, secret) *)

(** A call either yields a value (a promise that resolves, a function
    that returns) or an error (a promise that rejects, a function that
    throws). *)
Inductive outcome : Type :=
| Resolved (v : value)
| Rejected (e : value).

Inductive prog (A : Type) : Type :=
| Ret (a : A)
| Throw (e : value)
| Call (c : call) (k : outcome → prog A).
Arguments Ret {A} a.
Arguments Throw {A} e.
Arguments Call {A} c k.

Fixpoint bind {A B} (p : prog A) (f : A → prog B) : prog B :=
  match p with
  | Ret a => f a
  | Throw e => Throw e
  | Call c k => Call c (λ o, bind (k o) f)
  end.

(** [try { p } catch (err) { h err }] *)
Fixpoint try_catch {A} (p : prog A) (h : value → prog A) : prog A :=
  match p with
  | Ret a => Ret a
  | Throw e => h e
  | Call c k => Call c (λ o, try_catch (k o) h)
  end.

(** [await c], also used for the synchronous calls: a rejection is
    thrown at the call site. *)
Definition await (c : call) : prog value :=
  Call c (λ o, match o with Resolved v => Ret v | Rejected e => Throw e end).

(** [await c.catch(() => {})]: whatever the outcome, execution goes on
    and the value is not used. *)
Definition await_ignoring (c : call) : prog unit :=
  Call c (λ _, Ret tt).

(** [v.k] as a statement: throws on [undefined] and [null]. *)
Definition prop (v : value) (k : string) : prog value :=
  if nullish v then Throw TypeError else Ret (get v k).

(** [k in v]: throws unless [v] is an object.  On an object parsed from
    JSON only own keys count here: [Object.prototype] has none of the
    names the source asks for.  An array has [length] and its indices. *)
Definition in_op (k : string) (v : value) : prog bool :=
  match v with
  | VObj o => Ret (bool_decide (is_Some (o !! k)))
  | VArr _ => Ret (String.eqb k "length")
  | _ => Throw TypeError
  end.

Declare Scope prog_scope.
Delimit Scope prog_scope with prog.
Notation "'let*' x := p 'in' q" := (bind p (λ x, q))
  (at level 10, x name, p at level 100, q at level 200) : prog_scope.
Notation "'do' p 'in' q" := (bind p (λ _, q))
  (at level 10, p at level 100, q at level 200) : prog_scope.
Open Scope prog_scope.

(** How a handler ends: it has sent one response, or an exception left
    it uncaught. *)
Inductive completion (A : Type) : Type :=
| Returned (a : A)
| Uncaught (e : value).
Arguments Returned {A} a.
Arguments Uncaught {A} e.

Definition trace : Type := list (call * outcome).

Section Run.
Context {W : Type} (exec : call → W → outcome * W).

(** Runs a program from world [w]; returns how it ended, the final
    world and the calls made with their outcomes, oldest first. *)
Fixpoint run {A} (p : prog A) (w : W) : completion A * W * trace :=
  match p with
  | Ret a => (Returned a, w, [])
  | Throw e => (Uncaught e, w, [])
  | Call c k =>
      let '(o, w1) := exec c w in
      let '(r, w2, t) := run (k o) w1 in
      (r, w2, (c, o) :: t)
  end.
End Run.

(* ================================================================== *)
(** ** Requests and responses *)
(* ================================================================== *)

(** What the handlers read of a request: the [Authorization] header
    ([None] when the header is absent) and the parsed JSON body. *)
Record request : Type := Request {
  authorization : option string;
  body : value
}.

(** [res.status(s).json(b)]; every [res. ... .json(...)] of the source
    is the last statement executed on its path, so the response is the
    handler's result. *)
Record response : Type := Response {
  status : nat;
  payload : value
}.

(** [res.json(b)] without [status]: Express answers 200. *)
Definition json (b : value) : response := Response 200 b.

(** [{ error: msg }] *)
Definition error_body (msg : value) : value := VObj {[ "error" := msg ]}.

(** [x.error.message || x.error], for a truthy [err = x.error]. *)
Definition error_message (err : value) : prog value :=
  let* m := prop err "message" in Ret (js_or m err).

(* ================================================================== *)
(** ** server.js *)
(* ================================================================== *)

(** [String.prototype.split] on a one-character separator. *)
Fixpoint split (sep : Ascii.ascii) (s : string) : list string :=
  match s with
  | EmptyString => [EmptyString]
  | String c s' =>
      if Ascii.eqb c sep then EmptyString :: split sep s'
      else match split sep s' with
           | [] => [String c EmptyString]
           | p :: ps => String c p :: ps
           end
  end.

(** [getBearerToken(req)]; [None] is [null]. *)
Definition getBearerToken (req : request) : option string :=
  let h := default "" (authorization req) in
  let parts := split " "%char h in
  match parts with
  | [p0; p1] => if String.eqb p0 "Bearer" then Some p1 else None
  | _ => None
  end.

(** [{ error: 'internal server error' }] with status 500, the answer of
    every [catch] block of server.js. *)
Definition internal_error : response :=
  Response 500 (error_body (VStr "internal server error")).

(** The object handed to [auth.admin.createUser]. *)
Definition create_attrs (email password full_name : value) : value :=
  VObj {[ "email" := email;
          "password" := password;
          "email_confirm" := VBool true;
          "user_metadata" := VObj {[ "full_name" := full_name ]} ]}.

(** The one-element array handed to [.insert]. *)
Definition profile_rows (userId username full_name avatar_url : value) : value :=
  VArr [ VObj {[ "id" := userId;
                 "username" := username;
                 "full_name" := js_or full_name VNull;
                 "avatar_url" := js_or avatar_url VNull;
                 "role" := VStr "user" ]} ].

(** [{ email, password }] *)
Definition credentials (email password : value) : value :=
  VObj {[ "email" := email; "password" := password ]}.

(** [app.post('/auth/signup', ...)] *)
Definition auth_signup (req : request) : prog response :=
  try_catch
    (let* email := prop (body req) "email" in
     let password := get (body req) "password" in
     let username := get (body req) "username" in
     let full_name := get (body req) "full_name" in
     let avatar_url := get (body req) "avatar_url" in
     if negb (truthy email) || negb (truthy password) || negb (truthy username) then
       Ret (Response 400
              (error_body (VStr "email, password and username are required")))
     else
       (* 1) create user via admin API *)
       let* createResp := await (AdminCreateUser (create_attrs email password full_name)) in
       let* cerr := prop createResp "error" in
       if truthy cerr then
         let* m := error_message cerr in Ret (Response 400 (error_body m))
       else
         let user := get createResp "user" in
         let* userId := prop user "id" in
         (* 2) insert profile record *)
         let* insertResp :=
           await (ProfilesInsert (profile_rows userId username full_name avatar_url)) in
         let* ierr := prop insertResp "error" in
         if truthy ierr then
           (* rollback: delete user *)
           do await_ignoring (AdminDeleteUser userId) in
           let* m := error_message ierr in Ret (Response 400 (error_body m))
         else
           (* 3) sign in to get session tokens *)
           let* signInResp := await (SignInWithPassword (credentials email password)) in
           let* serr := prop signInResp "error" in
           if truthy serr then
             let* m := error_message serr in Ret (Response 400 (error_body m))
           else
             let* profileRow := await (ProfilesSelectSingle userId) in
             let uemail := get user "email" in
             let session := js_or (get_opt (get signInResp "data") "session") VNull in
             let* pdata := prop profileRow "data" in
             Ret (Response 201
                    (VObj {[ "message" := VStr "user created";
                             "user" := VObj {[ "id" := userId; "email" := uemail ]};
                             "session" := session;
                             "profile" := js_or pdata VNull ]})))
    (λ _, Ret internal_error).

(** [app.post('/auth/login', ...)] *)
Definition auth_login (req : request) : prog response :=
  try_catch
    (let* email := prop (body req) "email" in
     let password := get (body req) "password" in
     if negb (truthy email) || negb (truthy password) then
       Ret (Response 400 (error_body (VStr "email and password required")))
     else
       let* signInResp := await (SignInWithPassword (credentials email password)) in
       let* serr := prop signInResp "error" in
       if truthy serr then
         let* m := error_message serr in Ret (Response 401 (error_body m))
       else
         let session := get_opt (get signInResp "data") "session" in
         let user := get_opt (get signInResp "data") "user" in
         if negb (truthy user) || negb (truthy (get user "id")) then
           Ret (Response 500 (error_body (VStr "could not get user after sign-in")))
         else
           let* profileResp := await (ProfilesSelectSingle (get user "id")) in
           let* pdata := prop profileResp "data" in
           Ret (json (VObj {[ "session" := session;
                              "profile" := js_or pdata VNull ]})))
    (λ _, Ret internal_error).

(** [res.status(401).json({ error: 'missing access token in Authorization header' })] *)
Definition missing_token : response :=
  Response 401 (error_body (VStr "missing access token in Authorization header")).

(** The guard shared by the two protected handlers: lines 156-164 and
    189-196 of server.js, which are the same text.  [k] is the rest of
    the handler, given the resolved user. *)
Definition with_user (req : request) (k : value → prog response) : prog response :=
  let token := getBearerToken req in
  match token with
  | None => Ret missing_token
  | Some t =>
      if negb (truthy (VStr t)) then Ret missing_token
      else
        let* getUserResp := await (AuthGetUser (VStr t)) in
        let* gerr := prop getUserResp "error" in
        if truthy gerr then
          let* m := error_message gerr in Ret (Response 401 (error_body m))
        else
          let user := get_opt (get getUserResp "data") "user" in
          if negb (truthy user) then
            Ret (Response 401 (error_body (VStr "invalid token")))
          else k user
  end.

(** [app.get('/auth/profile', ...)] *)
Definition auth_get_profile (req : request) : prog response :=
  try_catch
    (with_user req (λ user,
       let* profileResp := await (ProfilesSelectSingle (get user "id")) in
       let* perr := prop profileResp "error" in
       if truthy perr then
         let* m := error_message perr in Ret (Response 404 (error_body m))
       else
         Ret (json (VObj {[ "profile" := get profileResp "data" ]}))))
    (λ _, Ret internal_error).

(** [const allowed = [...]] *)
Definition allowed : list string := ["username"; "full_name"; "avatar_url"; "role"].

(** [for (const k of allowed) { if (k in req.body) updates[k] = req.body[k]; }] *)
Fixpoint collect_updates (b : value) (ks : list string) (updates : gmap string value)
  : prog (gmap string value) :=
  match ks with
  | [] => Ret updates
  | k :: ks' =>
      let* present := in_op k b in
      collect_updates b ks' (if present then <[k := get b k]> updates else updates)
  end.

(** [app.put('/auth/profile', ...)] *)
Definition auth_put_profile (req : request) : prog response :=
  try_catch
    (with_user req (λ user,
       let* updates := collect_updates (body req) allowed ∅ in
       if (size updates =? 0)%nat then
         Ret (Response 400 (error_body (VStr "no updatable fields provided")))
       else
         (* set updated_at *)
         let* now := await DateNowISO in
         let updates := <["updated_at" := now]> updates in
         let* updateResp := await (ProfilesUpdate (VObj updates) (get user "id")) in
         let* uerr := prop updateResp "error" in
         if truthy uerr then
           let* m := error_message uerr in Ret (Response 400 (error_body m))
         else
           let* profileResp := await (ProfilesSelectSingle (get user "id")) in
           let* pdata := prop profileResp "data" in
           Ret (json (VObj {[ "profile" := pdata ]}))))
    (λ _, Ret internal_error).

(* ================================================================== *)
(** ** controllers/userControllers.js *)
(* ================================================================== *)

(** [v[i]] for a literal index [i]. *)
Definition get_index (v : value) (i : nat) : value :=
  match v with
  | VArr l => default VUndef (l !! i)
  | VObj o => default VUndef (o !! pretty i)
  | VStr s => from_option (λ c, VStr (String c EmptyString)) VUndef (String.get i s)
  | _ => VUndef
  end.

(** [v === 0] *)
Definition is_zero (v : value) : bool :=
  match v with
  | VNum n => (n =? 0)%Z
  | _ => false
  end.

Definition sql_user_by_email : string := "SELECT * FROM users WHERE email=$1".
Definition sql_list_users : string := "SELECT id, name, skills FROM users".

(** [{ message: msg }] *)
Definition message_body (msg : string) : value := VObj {[ "message" := VStr msg ]}.

(** [loginUser]; [jwt_secret] is [process.env.JWT_SECRET].  There is no
    [try] in this function. *)
Definition loginUser (jwt_secret : value) (req : request) : prog response :=
  let* email := prop (body req) "email" in
  let password := get (body req) "password" in
  let* user := await (PoolQuery sql_user_by_email [email]) in
  let* rows := prop user "rows" in
  let* len := prop rows "length" in
  if is_zero len then
    Ret (Response 400 (message_body "No such user"))
  else
    let* hash := prop (get_index rows 0) "password" in
    let* matched := await (BcryptCompare password hash) in
    if negb (truthy matched) then
      Ret (Response 400 (message_body "Wrong password"))
    else
      let* id := prop (get_index rows 0) "id" in
      let* token := await (JwtSign (VObj {[ "id" := id ]}) jwt_secret) in
      Ret (json (VObj {[ "token" := token; "user" := get_index rows 0 ]})).

(** [getAllUsers]; no [try] either. *)
Definition getAllUsers (req : request) : prog response :=
  let* result := await (PoolQuery sql_list_users []) in
  let* rows := prop result "rows" in
  Ret (json rows).

(* ================================================================== *)
(** ** Interpreters of the calls *)
(* ================================================================== *)

(** Replays a script of outcomes, one per call, whatever the call: any
    behaviour of the outside world on one run is such a script.  When
    the script is exhausted the call is rejected. *)
Module Replay.
Definition exec (c : call) (script : list outcome) : outcome * list outcome :=
  match script with
  | o :: rest => (o, rest)
  | [] => (Rejected (VStr "end of script"), [])
  end.
End Replay.

(** [{ data: d, error: null }] and [{ data: null, error: { message } }],
    the two shapes of a Supabase answer. *)
Definition answer_ok (d : value) : value :=
  VObj {[ "data" := d; "error" := VNull ]}.
Definition answer_error (msg : string) : value :=
  VObj {[ "data" := VNull; "error" := VObj {[ "message" := VStr msg ]} ]}.

(** Modelled from the spec: the Supabase project the two clients talk
    to, which is a service outside the repository.  The model has the
    data of the spec: identities [{id, email, password}] with unique
    emails, the rows of table [profiles] keyed by the identity id, the
    sessions issued, and a clock.  It fixes a contract for the calls:
    answers have the fields the handlers read, [.eq('id', id)] selects
    the rows whose [id] column is the string [id], [.single()] wants
    exactly one row, [.update(u)] overwrites the columns named in [u]
    and no other, and deleting an identity deletes its profile.
    [accepts] stands for the constraints of the table: a row that
    violates them makes the insert or update fail and changes nothing. *)
Module MemStore.
Record identity : Type := Identity {
  ident_id : string;
  ident_email : string;
  ident_password : string
}.

Record store : Type := Store {
  identities : list identity;
  profiles : list (gmap string value);
  sessions : gmap string string;   (* access token ↦ identity id *)
  next : nat;                      (* source of fresh ids and tokens *)
  clock : nat
}.

Definition empty : store := Store [] [] ∅ 0 0.

Definition user_object (i : identity) : value :=
  VObj {[ "id" := VStr (ident_id i); "email" := VStr (ident_email i) ]}.

(** The row's [id] column is the string [id]. *)
Definition has_id (id : value) (row : gmap string value) : bool :=
  match id, row !! "id" with
  | VStr a, Some (VStr b) => String.eqb a b
  | _, _ => false
  end.

Definition row_of (v : value) : option (gmap string value) :=
  match v with
  | VObj o => Some o
  | _ => None
  end.

(** [updates] laid over [row]: the columns of [updates] win. *)
Definition apply_update (id : value) (updates row : gmap string value)
  : gmap string value :=
  if has_id id row then updates ∪ row else row.

Definition iso (t : nat) : string := "T" +:+ pretty t.

Section WithConstraints.
Variable accepts : gmap string value → bool.

(** The answer carries the new user twice: in [user], where the signup
    handler reads it, and under [data], where the other answers of the
    auth client have it.  A store that answers with [data] alone never
    lets a signup past line 63. *)
Definition create_user (attrs : value) (st : store) : outcome * store :=
  match get attrs "email", get attrs "password" with
  | VStr e, VStr p =>
      if existsb (λ i, String.eqb (ident_email i) e) (identities st) then
        (Resolved
           (VObj {[ "user" := VNull; "data" := VObj {[ "user" := VNull ]};
                    "error" := VObj {[ "message" := VStr "email already registered" ]} ]}),
         st)
      else
        let i := Identity ("user-" +:+ pretty (next st)) e p in
        (Resolved
           (VObj {[ "user" := user_object i;
                    "data" := VObj {[ "user" := user_object i ]};
                    "error" := VNull ]}),
         Store (identities st ++ [i]) (profiles st) (sessions st)
               (S (next st)) (clock st))
  | _, _ =>
      (Resolved
         (VObj {[ "user" := VNull; "data" := VObj {[ "user" := VNull ]};
                  "error" := VObj {[ "message" := VStr "invalid email or password" ]} ]}),
       st)
  end.

(** Deleting an identity takes its profile row along. *)
Definition delete_user (id : value) (st : store) : outcome * store :=
  match id with
  | VStr a =>
      (Resolved (answer_ok (VObj {[ "user" := VObj ∅ ]})),
       Store (filter (λ i, ident_id i ≠ a) (identities st))
             (filter (λ r, has_id id r = false) (profiles st))
             (sessions st) (next st) (clock st))
  | _ => (Resolved (answer_error "invalid user id"), st)
  end.

Definition sign_in (creds : value) (st : store) : outcome * store :=
  match get creds "email", get creds "password" with
  | VStr e, VStr p =>
      match find (λ i, String.eqb (ident_email i) e && String.eqb (ident_password i) p)
                 (identities st) with
      | Some i =>
          let tok := "token-" +:+ pretty (next st) in
          (Resolved
             (answer_ok
                (VObj {[ "user" := user_object i;
                         "session" := VObj {[ "access_token" := VStr tok;
                                              "refresh_token" := VStr ("r" +:+ tok) ]} ]})),
           Store (identities st) (profiles st) (<[tok := ident_id i]> (sessions st))
                 (S (next st)) (clock st))
      | None =>
          (Resolved
             (VObj {[ "data" := VObj {[ "user" := VNull; "session" := VNull ]};
                      "error" := VObj {[ "message" := VStr "Invalid login credentials" ]} ]}),
           st)
      end
  | _, _ =>
      (Resolved
         (VObj {[ "data" := VObj {[ "user" := VNull; "session" := VNull ]};
                  "error" := VObj {[ "message" := VStr "Invalid login credentials" ]} ]}),
       st)
  end.

Definition get_user (token : value) (st : store) : outcome * store :=
  let invalid :=
    VObj {[ "data" := VObj {[ "user" := VNull ]};
            "error" := VObj {[ "message" := VStr "invalid JWT" ]} ]} in
  match token with
  | VStr t =>
      match sessions st !! t with
      | Some id =>
          match find (λ i, String.eqb (ident_id i) id) (identities st) with
          | Some i => (Resolved (answer_ok (VObj {[ "user" := user_object i ]})), st)
          | None => (Resolved invalid, st)
          end
      | None => (Resolved invalid, st)
      end
  | _ => (Resolved invalid, st)
  end.

(** Rows must be objects with a string [id] that is not taken, and
    satisfy the constraints. *)
Definition insertable (st : store) (v : value) : bool :=
  match v with
  | VObj row =>
      match row !! "id" with
      | Some (VStr a) =>
          accepts row && forallb (λ r, negb (has_id (VStr a) r)) (profiles st)
      | _ => false
      end
  | _ => false
  end.

Definition insert_profiles (rows : value) (st : store) : outcome * store :=
  match rows with
  | VArr [v] =>
      if insertable st v then
        (Resolved (answer_ok VNull),
         Store (identities st) (profiles st ++ omap row_of [v]) (sessions st)
               (next st) (clock st))
      else (Resolved (answer_error "insert violates a constraint"), st)
  | _ => (Resolved (answer_error "unsupported insert"), st)
  end.

Definition select_single (id : value) (st : store) : outcome * store :=
  match filter (λ r, has_id id r = true) (profiles st) with
  | [row] => (Resolved (answer_ok (VObj row)), st)
  | _ =>
      (Resolved (answer_error "JSON object requested, multiple (or no) rows returned"),
       st)
  end.

Definition update_profiles (updates id : value) (st : store) : outcome * store :=
  match updates with
  | VObj u =>
      let rows := apply_update id u <$> profiles st in
      if forallb accepts rows then
        (Resolved (answer_ok VNull),
         Store (identities st) rows (sessions st) (next st) (clock st))
      else (Resolved (answer_error "update violates a constraint"), st)
  | _ => (Resolved (answer_error "invalid update"), st)
  end.

Definition exec (c : call) (st : store) : outcome * store :=
  match c with
  | AdminCreateUser attrs => create_user attrs st
  | AdminDeleteUser id => delete_user id st
  | SignInWithPassword creds => sign_in creds st
  | AuthGetUser token => get_user token st
  | ProfilesInsert rows => insert_profiles rows st
  | ProfilesSelectSingle id => select_single id st
  | ProfilesUpdate updates id => update_profiles updates id st
  | DateNowISO =>
      (Resolved (VStr (iso (clock st))),
       Store (identities st) (profiles st) (sessions st) (next st) (S (clock st)))
  | PoolQuery _ _ | BcryptCompare _ _ | JwtSign _ _ =>
      (Rejected (VStr "not a call to the Supabase project"), st)
  end.
End WithConstraints.
End MemStore.

(** Modelled from the spec: the [pool] of db.js and its [users] table,
    which are not among the sources.  The model reads the text of the
    statement it is sent: [SELECT <columns> FROM users], with [*] or a
    list of column names separated by commas, and an optional
    [WHERE email=$1].  The answer has one object per selected row, in
    the order of the table, with all the columns of the row for [*] and
    exactly the named columns otherwise; any other text is a syntax
    error.  [bcrypt_compare] and [jwt_sign] stand for the two
    libraries. *)
Module MemDb.
(** The projection of a row on the columns [cols]; an absent column
    reads as SQL [NULL]. *)
Definition project (cols : list string) (row : gmap string value) : gmap string value :=
  list_to_map ((λ c, (c, default VNull (row !! c))) <$> cols).

(** [email = $1] on a text column. *)
Definition email_is (p : value) (row : gmap string value) : bool :=
  match p, row !! "email" with
  | VStr a, Some (VStr b) => String.eqb a b
  | _, _ => false
  end.

Definition result (rows : list (gmap string value)) : value :=
  VObj {[ "rows" := VArr (VObj <$> rows);
          "rowCount" := VNum (Z.of_nat (length rows)) ]}.

(** A parsed statement: the columns ([None] is [*]) and whether the
    rows are restricted by [email=$1]. *)
Record select : Type := Select {
  columns : option (list string);
  by_email : bool
}.

(** The words before the first [FROM], and the words from it on. *)
Fixpoint until_from (words : list string) : list string * list string :=
  match words with
  | [] => ([], [])
  | w :: ws =>
      if String.eqb w "FROM" then ([], w :: ws)
      else let '(before, rest) := until_from ws in (w :: before, rest)
  end.

(** The select list: [*], or names separated by commas (the spaces
    after the commas went with the split into words). *)
Definition parse_columns (words : list string) : option (option (list string)) :=
  if bool_decide (words = ["*"]) then Some None
  else
    let names := split ","%char (String.concat "" words) in
    if forallb (λ n, negb (String.eqb n "") && negb (String.eqb n "*")) names
    then Some (Some names) else None.

Definition parse (sql : string) : option select :=
  match split " "%char sql with
  | keyword :: rest =>
      if String.eqb keyword "SELECT" then
        let '(cols, tail) := until_from rest in
        match parse_columns cols with
        | Some c =>
            if bool_decide (tail = ["FROM"; "users"]) then Some (Select c false)
            else if bool_decide (tail = ["FROM"; "users"; "WHERE"; "email=$1"])
                 then Some (Select c true)
                 else None
        | None => None
        end
      else None
  | [] => None
  end.

(** The rows a statement selects, shaped by its select list. *)
Definition shaped (s : select) (rows : list (gmap string value))
  : list (gmap string value) :=
  match columns s with
  | Some cols => project cols <$> rows
  | None => rows
  end.

Section WithLibraries.
Variables bcrypt_compare jwt_sign : value → value → outcome.

Definition query (sql : string) (params : list value)
           (users : list (gmap string value)) : outcome :=
  match parse sql with
  | Some s =>
      match by_email s, params with
      | true, [p] => Resolved (result (shaped s (filter (λ r, email_is p r = true) users)))
      | false, [] => Resolved (result (shaped s users))
      | _, _ =>
          Rejected (VObj {[ "message" :=
            VStr "bind message supplies the wrong number of parameters" ]})
      end
  | None => Rejected (VObj {[ "message" := VStr "syntax error" ]})
  end.

Definition exec (c : call) (users : list (gmap string value))
  : outcome * list (gmap string value) :=
  match c with
  | PoolQuery sql params => (query sql params users, users)
  | BcryptCompare d h => (bcrypt_compare d h, users)
  | JwtSign p s => (jwt_sign p s, users)
  | _ => (Rejected (VStr "not a call of userControllers.js"), users)
  end.
End WithLibraries.
End MemDb.

(* ================================================================== *)
(** ** Vocabulary of the statements *)
(* ================================================================== *)

(** Gluing the parts back with the separator gives the string. *)
Fixpoint join (sep : Ascii.ascii) (parts : list string) : string :=
  match parts with
  | [] => ""
  | [p] => p
  | p :: ps => p +:+ String sep (join sep ps)
  end.

(** No part contains the separator. *)
Fixpoint contains (sep : Ascii.ascii) (s : string) : bool :=
  match s with
  | EmptyString => false
  | String c s' => Ascii.eqb c sep || contains sep s'
  end.

(** The three calls of the signup handler, as functions of the request. *)
Definition signup_create (req : request) : call :=
  AdminCreateUser
    (create_attrs (get (body req) "email") (get (body req) "password")
                  (get (body req) "full_name")).

Definition signup_insert (req : request) (userId : value) : call :=
  ProfilesInsert
    (profile_rows userId (get (body req) "username") (get (body req) "full_name")
                  (get (body req) "avatar_url")).

Definition sign_in_call (req : request) : call :=
  SignInWithPassword (credentials (get (body req) "email") (get (body req) "password")).

(** The value a call came back with. *)
Definition answer_of (o : outcome) : value :=
  match o with
  | Resolved v => v
  | Rejected e => e
  end.

(** The response, the final world and the calls of a run. *)
Definition answered {W : Type} (x : completion response * W * trace) : option response :=
  match x.1.1 with
  | Returned r => Some r
  | Uncaught _ => None
  end.

Definition world_after {W : Type} (x : completion response * W * trace) : W := x.1.2.

Definition calls_of {W : Type} (x : completion response * W * trace) : list call := x.2.*1.

(** The contract of [.eq('id', id).single()] the signup handler relies
    on: a row that comes back has the id that was asked for. *)
Definition select_by_id_contract {W : Type} (exec : call → W → outcome * W) : Prop :=
  ∀ (id : value) (w w' : W) (pr : value),
    exec (ProfilesSelectSingle id) w = (Resolved pr, w') →
    truthy (get pr "data") = true →
    get (get pr "data") "id" = id.

(** The body of the 201 answer. *)
Definition created_body (user session profile : value) : value :=
  VObj {[ "message" := VStr "user created";
          "user" := VObj {[ "id" := get user "id"; "email" := get user "email" ]};
          "session" := session;
          "profile" := profile ]}.

(** [signInResp.data?.user] and [signInResp.data?.session] *)
Definition signed_in_user (sr : value) : value := get_opt (get sr "data") "user".

Definition signed_in_session (sr : value) : value := get_opt (get sr "data") "session".

(** [getUserResp.data?.user] *)
Definition token_user (gr : value) : value := get_opt (get gr "data") "user".

Definition listed_columns : list string := ["id"; "name"; "skills"].

(** The part of the body the allow-list lets through. *)
Definition allowed_updates (b : gmap string value) : gmap string value :=
  filter (λ kv, kv.1 ∈ allowed) b.

(** Columns outside the allow-list other than [updated_at]. *)
Definition protected_column (col : string) : Prop :=
  (col ∉ allowed) ∧ (col ≠ "updated_at").

(** The object the handler hands to [.update]. *)
Definition stamped_updates (now : value) (b : gmap string value) : gmap string value :=
  <["updated_at" := now]> (allowed_updates b).

(* ================================================================== *)
(** ** Sample requests, answers and stores *)
(* ================================================================== *)

(** A concrete run for C1: the insert is refused and the compensating
    delete itself is rejected. *)
Definition alice_signup : request :=
  Request None
    (VObj {[ "email" := VStr "a@x.com"; "password" := VStr "pw123456";
             "username" := VStr "alice" ]}).

Definition alice_created : value :=
  VObj {[ "user" := VObj {[ "id" := VStr "user-0"; "email" := VStr "a@x.com" ]};
          "error" := VNull ]}.

Definition insert_refused : value :=
  VObj {[ "error" := VObj {[ "message" := VStr "duplicate key value" ]} ]}.

(** A concrete login: the store signs the user in and finds the profile. *)
Definition alice_login : request :=
  Request None (VObj {[ "email" := VStr "a@x.com"; "password" := VStr "pw123456" ]}).

Definition alice_signed_in : value :=
  answer_ok (VObj {[ "user" := VObj {[ "id" := VStr "user-0"; "email" := VStr "a@x.com" ]};
                     "session" := VObj {[ "access_token" := VStr "token-1" ]} ]}).

Definition alice_profile : value :=
  answer_ok (VObj {[ "id" := VStr "user-0"; "username" := VStr "alice" ]}).

(** The sign-in answers without error and with a user object, but the
    user object carries no id. *)
Definition signed_in_without_id : value :=
  answer_ok (VObj {[ "user" := VObj {[ "email" := VStr "a@x.com" ]};
                     "session" := VObj {[ "access_token" := VStr "token-1" ]} ]}).

(** A concrete authenticated read. *)
Definition alice_read : request := Request (Some "Bearer token-1") VUndef.

Definition alice_resolved : value :=
  answer_ok (VObj {[ "user" := VObj {[ "id" := VStr "user-0"; "email" := VStr "a@x.com" ]} ]}).

(** Passwords with a [bcrypt] hash of theirs (version 2b, cost 10). *)
Definition alice_hash : string :=
  "$2b$10$abcdefghijklmnopqrstuuYiEHyrUihcbYcZMr77.BjH2UYyc5xSa".
Definition bob_hash : string :=
  "$2b$10$BobSaltBobSaltBobSaltuxCkVL.0zn0xLHtqFdWGiGf4hu..CQJa".
Definition mallory_hash : string :=
  "$2b$10$MallorySaltMallorySalugDmCq26R0BMLpodgMG5vYxnXvSZ25RO".
Definition carol_hash : string :=
  "$2b$10$CarolSaltCarolSaltCaru9ZXb5bKs3rrQoqeDeMLmfTCbNV4ORIu".

Definition hashed_passwords : list (string * string) :=
  [ ("pw123456", alice_hash); ("hunter22", bob_hash); ("letmein1", mallory_hash);
    ("pw123456", carol_hash) ].

(** [bcrypt.compare] on those pairs: [true] on a password and a hash of
    it, [false] on any other two strings. *)
Definition bcrypt_fixture (d h : value) : outcome :=
  match d, h with
  | VStr a, VStr b =>
      Resolved (VBool (existsb (λ ph, String.eqb a ph.1 && String.eqb b ph.2)
                               hashed_passwords))
  | _, _ => Rejected (VStr "data and hash arguments required")
  end.

Definition jwt_fixture (payload secret : value) : outcome :=
  if truthy secret then Resolved (VStr "header.payload.signature")
  else Rejected (VStr "secretOrPrivateKey must have a value").

Definition alice_row : gmap string value :=
  {[ "id" := VNum 1; "name" := VStr "Alice"; "email" := VStr "a@x.com";
     "password" := VStr alice_hash; "skills" := VStr "rocq" ]}.

Definition bob_row : gmap string value :=
  {[ "id" := VNum 2; "name" := VStr "Bob"; "email" := VStr "b@x.com";
     "password" := VStr bob_hash; "skills" := VStr "js" ]}.

(** A store with one identity, its profile and one session. *)
Definition alice_stored_profile : gmap string value :=
  {[ "id" := VStr "user-0"; "username" := VStr "alice"; "full_name" := VNull;
     "avatar_url" := VNull; "role" := VStr "user" ]}.

Definition alice_store : MemStore.store :=
  MemStore.Store [MemStore.Identity "user-0" "a@x.com" "pw123456"]
                 [alice_stored_profile] {[ "token-1" := "user-0" ]} 2 0.

(** An update that names one allow-listed field and one that is not. *)
Definition alice_update_body : gmap string value :=
  {[ "full_name" := VStr "Alice A"; "email" := VStr "other@x.com" ]}.

Definition alice_update : request :=
  Request (Some "Bearer token-1") (VObj alice_update_body).

Definition alice_store_updated (t : nat) : MemStore.store :=
  MemStore.Store [MemStore.Identity "user-0" "a@x.com" "pw123456"]
                 [ <["full_name" := VStr "Alice A"]>
                     (<["updated_at" := VStr (MemStore.iso t)]> alice_stored_profile) ]
                 {[ "token-1" := "user-0" ]} 2 (S t).

(** The flow of the spec on the reference store: signup, login, then a
    read and an update with the token of the login. *)
Definition e2e_signup : completion response * MemStore.store * trace :=
  run (MemStore.exec (λ _, true)) (auth_signup alice_signup) MemStore.empty.

Definition e2e_login : completion response * MemStore.store * trace :=
  run (MemStore.exec (λ _, true)) (auth_login alice_login) (world_after e2e_signup).

Definition e2e_read : completion response * MemStore.store * trace :=
  run (MemStore.exec (λ _, true))
      (auth_get_profile (Request (Some "Bearer token-2") (VObj ∅)))
      (world_after e2e_login).

Definition e2e_update : completion response * MemStore.store * trace :=
  run (MemStore.exec (λ _, true))
      (auth_put_profile
         (Request (Some "Bearer token-2") (VObj {[ "full_name" := VStr "Alice A" ]})))
      (world_after e2e_read).

(* ================================================================== *)
(** ** userControllers.js: registerUser *)
(* ================================================================== *)

(** [registerUser] calls [bcrypt.hash], which is not among the calls of
    the handlers above, and answers with the message of whatever error
    it catches; its programs are a type of their own, over its two
    calls.  [type_error_message v k] is the message the engine gives to
    the [TypeError] thrown on reading property [k] of [v], for [v]
    undefined or null. *)
Module Register.
Inductive call : Type :=
| Hash (data rounds : value)                  (* bcrypt.hash(data, rounds) *)
| Query (sql : string) (params : list value). (* pool.query(sql, params) *)

Inductive prog (A : Type) : Type :=
| Ret (a : A)
| Throw (e : value)
| Call (c : call) (k : outcome → prog A).
Arguments Ret {A} a.
Arguments Throw {A} e.
Arguments Call {A} c k.

Fixpoint bind {A B} (p : prog A) (f : A → prog B) : prog B :=
  match p with
  | Ret a => f a
  | Throw e => Throw e
  | Call c k => Call c (λ o, bind (k o) f)
  end.

(** [try { p } catch (err) { h err }] *)
Fixpoint try_catch {A} (p : prog A) (h : value → prog A) : prog A :=
  match p with
  | Ret a => Ret a
  | Throw e => h e
  | Call c k => Call c (λ o, try_catch (k o) h)
  end.

(** [await c] *)
Definition await (c : call) : prog value :=
  Call c (λ o, match o with Resolved v => Ret v | Rejected e => Throw e end).

Declare Scope register_scope.
Delimit Scope register_scope with register.
Notation "'let*' x := p 'in' q" := (bind p (λ x, q))
  (at level 10, x name, p at level 100, q at level 200) : register_scope.
Local Open Scope register_scope.

Section Run.
Context {W : Type} (exec : call → W → outcome * W).

Fixpoint run {A} (p : prog A) (w : W) : completion A * W * list (call * outcome) :=
  match p with
  | Ret a => (Returned a, w, [])
  | Throw e => (Uncaught e, w, [])
  | Call c k =>
      let '(o, w1) := exec c w in
      let '(r, w2, t) := run (k o) w1 in
      (r, w2, (c, o) :: t)
  end.
End Run.

Definition sql_insert_user : string :=
  "INSERT INTO users (name, email, password, skills) VALUES ($1,$2,$3,$4) RETURNING *".

Section WithEngine.
Variable type_error_message : value → string → string.

Definition type_error (v : value) (k : string) : value :=
  VObj {[ "name" := VStr "TypeError"; "message" := VStr (type_error_message v k) ]}.

(** [v.k] as a statement. *)
Definition prop (v : value) (k : string) : prog value :=
  if nullish v then Throw (type_error v k) else Ret (get v k).

(** [v[i]] as a statement. *)
Definition index (v : value) (i : nat) : prog value :=
  if nullish v then Throw (type_error v (pretty i)) else Ret (get_index v i).

(** [registerUser]: the destructuring of [req.body] is outside [try]. *)
Definition registerUser (req : request) : prog response :=
  let* name := prop (body req) "name" in
  let email := get (body req) "email" in
  let password := get (body req) "password" in
  let skills := get (body req) "skills" in
  try_catch
    (let* hashedPassword := await (Hash password (VNum 10)) in
     let* result :=
       await (Query sql_insert_user [name; email; hashedPassword; skills]) in
     let* rows := prop result "rows" in
     let* row := index rows 0 in
     Ret (json row))
    (λ err, let* m := prop err "message" in Ret (Response 500 (error_body m))).
End WithEngine.
End Register.

(* ================================================================== *)
(** ** Properties of program trees *)
(* ================================================================== *)

(** Every call the program can make, whatever the outcomes of the calls
    before it, satisfies [P]. *)
Fixpoint calls_within {A} (P : call → Prop) (p : prog A) : Prop :=
  match p with
  | Call c k => P c ∧ ∀ o, calls_within P (k o)
  | _ => True
  end.

(** Whatever the outcomes of its calls, the program ends with [Ret] on a
    value that satisfies [P]: no exception leaves it. *)
Fixpoint answers_within {A} (P : A → Prop) (p : prog A) : Prop :=
  match p with
  | Ret a => P a
  | Throw _ => False
  | Call c k => ∀ o, answers_within P (k o)
  end.

(** A rejection of any call outside [ignored] ends the program at once
    with the answer [r0]. *)
Fixpoint rejections_answered {A} (ignored : call → Prop) (r0 : A) (p : prog A) : Prop :=
  match p with
  | Call c k =>
      (ignored c ∨ ∀ e, k (Rejected e) = Ret r0) ∧
      ∀ o, rejections_answered ignored r0 (k o)
  | _ => True
  end.

(** The calls each handler of server.js is written to make. *)
Definition signup_call (c : call) : Prop :=
  match c with
  | AdminCreateUser _ | ProfilesInsert _ | AdminDeleteUser _
  | SignInWithPassword _ | ProfilesSelectSingle _ => True
  | _ => False
  end.

Definition login_call (c : call) : Prop :=
  match c with
  | SignInWithPassword _ | ProfilesSelectSingle _ => True
  | _ => False
  end.

Definition get_profile_call (c : call) : Prop :=
  match c with
  | AuthGetUser _ | ProfilesSelectSingle _ => True
  | _ => False
  end.

Definition put_profile_call (c : call) : Prop :=
  match c with
  | AuthGetUser _ | DateNowISO | ProfilesUpdate _ _ | ProfilesSelectSingle _ => True
  | _ => False
  end.

(** [supabaseService.auth.admin.deleteUser(..)], the one call whose
    rejection is swallowed. *)
Definition is_delete (c : call) : Prop :=
  match c with
  | AdminDeleteUser _ => True
  | _ => False
  end.

(** The answer has status [ok], or one of the statuses [errors] with a
    body [{ error: ... }]. *)
Definition answer_shape (ok : nat) (errors : list nat) (r : response) : Prop :=
  status r = ok ∨ (status r ∈ errors ∧ ∃ m, payload r = error_body m).

(** The first call satisfies [P0] and, whatever its outcome [o], every
    call after it satisfies [Q o]. *)
Definition first_call_then {A} (P0 : call → Prop) (Q : outcome → call → Prop)
    (p : prog A) : Prop :=
  match p with
  | Call c k => P0 c ∧ ∀ o, calls_within (Q o) (k o)
  | _ => True
  end.

Definition is_create (c : call) : Prop :=
  match c with
  | AdminCreateUser _ => True
  | _ => False
  end.

(** The argument of a signup insert, given the outcome of the
    [createUser] call before it: one row, with the id of the user
    created, three fields of the body, and the role ['user']. *)
Definition signup_row (req : request) (created : outcome) (c : call) : Prop :=
  match c with
  | ProfilesInsert rows =>
      ∃ cr, created = Resolved cr ∧
            rows = VArr [ VObj {[ "id" := get (get cr "user") "id";
                                  "username" := get (body req) "username";
                                  "full_name" := js_or (get (body req) "full_name") VNull;
                                  "avatar_url" := js_or (get (body req) "avatar_url") VNull;
                                  "role" := VStr "user" ]} ]
  | _ => True
  end.

(** The answer of the reference store to a signup with a taken email. *)
Definition email_taken : value :=
  VObj {[ "user" := VNull; "data" := VObj {[ "user" := VNull ]};
          "error" := VObj {[ "message" := VStr "email already registered" ]} ]}.

(** A stored user with the email of alice and another hash. *)
Definition mallory_row : gmap string value :=
  {[ "id" := VNum 3; "name" := VStr "Mallory"; "email" := VStr "a@x.com";
     "password" := VStr mallory_hash; "skills" := VStr "ocaml" ]}.

(** A login with the email and the password of mallory. *)
Definition mallory_login : request :=
  Request None (VObj {[ "email" := VStr "a@x.com"; "password" := VStr "letmein1" ]}).

(** The two calls of [registerUser], as functions of the request and of
    the hash. *)
Definition register_hash (req : request) : Register.call :=
  Register.Hash (get (body req) "password") (VNum 10).

Definition register_insert (req : request) (h : value) : Register.call :=
  Register.Query Register.sql_insert_user
    [get (body req) "name"; get (body req) "email"; h; get (body req) "skills"].

(** Replays a script of outcomes for the calls of [registerUser]. *)
Definition register_replay (c : Register.call) (script : list outcome)
  : outcome * list outcome :=
  match script with
  | o :: rest => (o, rest)
  | [] => (Rejected (VStr "end of script"), [])
  end.

(** A registration, a message function for the [TypeError]s, and the
    row the database returns. *)
Definition carol_register : request :=
  Request None
    (VObj {[ "name" := VStr "Carol"; "email" := VStr "c@x.com";
             "password" := VStr "pw123456"; "skills" := VStr "go" ]}).

Definition sample_message (v : value) (k : string) : string :=
  "Cannot read properties of undefined (reading '" +:+ k +:+ "')".


Definition duplicate_email_error : value :=
  VObj {[ "message" := VStr "duplicate key value violates unique constraint" ]}.

(** The invariant of the spec on the reference store: every profile row
    carries the id of an identity of the store. *)
Definition profiles_owned (st : MemStore.store) : Prop :=
  ∀ row, row ∈ MemStore.profiles st →
    ∃ i, i ∈ MemStore.identities st ∧ row !! "id" = Some (VStr (MemStore.ident_id i)).

(** The row belongs to the identity the request's bearer token is a
    session of. *)
Definition row_of_token_user (req : request) (st : MemStore.store)
    (row : gmap string value) : Prop :=
  ∃ (t : string) (i : MemStore.identity),
    getBearerToken req = Some t ∧
    MemStore.sessions st !! t = Some (MemStore.ident_id i) ∧
    i ∈ MemStore.identities st ∧
    row !! "id" = Some (VStr (MemStore.ident_id i)).

(** Names for what the calls of a signup do to the reference store:
    the identity [create_user] adds and its answer, the row
    [profile_rows] holds, the stores after each step, the session
    [sign_in] issues and its answer. *)
Definition new_identity (st : MemStore.store) (e p : string) : MemStore.identity :=
  MemStore.Identity ("user-" +:+ pretty (MemStore.next st)) e p.

Definition created_answer (i : MemStore.identity) : value :=
  VObj {[ "user" := MemStore.user_object i;
          "data" := VObj {[ "user" := MemStore.user_object i ]};
          "error" := VNull ]}.

Definition signup_profile (userId username full_name avatar_url : value)
  : gmap string value :=
  {[ "id" := userId; "username" := username; "full_name" := js_or full_name VNull;
     "avatar_url" := js_or avatar_url VNull; "role" := VStr "user" ]}.

Definition with_identity (st : MemStore.store) (i : MemStore.identity) : MemStore.store :=
  MemStore.Store (MemStore.identities st ++ [i]) (MemStore.profiles st)
                 (MemStore.sessions st) (S (MemStore.next st)) (MemStore.clock st).

Definition with_profile (st : MemStore.store) (row : gmap string value) : MemStore.store :=
  MemStore.Store (MemStore.identities st) (MemStore.profiles st ++ [row])
                 (MemStore.sessions st) (MemStore.next st) (MemStore.clock st).

Definition without_identity (st : MemStore.store) (a : string) : MemStore.store :=
  MemStore.Store (filter (λ i, MemStore.ident_id i ≠ a) (MemStore.identities st))
                 (filter (λ r, MemStore.has_id (VStr a) r = false) (MemStore.profiles st))
                 (MemStore.sessions st) (MemStore.next st) (MemStore.clock st).

Definition new_token (st : MemStore.store) : string :=
  "token-" +:+ pretty (MemStore.next st).

Definition with_session (st : MemStore.store) (i : MemStore.identity) : MemStore.store :=
  MemStore.Store (MemStore.identities st) (MemStore.profiles st)
                 (<[new_token st := MemStore.ident_id i]> (MemStore.sessions st))
                 (S (MemStore.next st)) (MemStore.clock st).

Definition session_answer (st : MemStore.store) (i : MemStore.identity) : value :=
  answer_ok
    (VObj {[ "user" := MemStore.user_object i;
             "session" := VObj {[ "access_token" := VStr (new_token st);
                                  "refresh_token" := VStr ("r" +:+ new_token st) ]} ]}).

(* ================================================================== *)
(** * Properties *)
(* ================================================================== *)

Arguments get : simpl never.
Arguments truthy : simpl never.
Arguments js_or : simpl never.
Arguments create_attrs : simpl never.
Arguments profile_rows : simpl never.
Arguments credentials : simpl never.
Arguments error_body : simpl never.
Arguments message_body : simpl never.

Arguments collect_updates : simpl never.
Arguments signup_create : simpl never.
Arguments signup_insert : simpl never.
Arguments sign_in_call : simpl never.
Arguments MemStore.select_single : simpl never.
Arguments MemStore.get_user : simpl never.

(** Evaluates a handler up to its next call. *)
Ltac step := cbn -[auth_signup auth_login auth_get_profile auth_put_profile].

(** ** Values and programs *)

Lemma truthy_not_nullish v : truthy v = true → nullish v = false.
Proof. by destruct v. Qed.

Lemma get_nullish v k : nullish v = true → get v k = VUndef.
Proof. by destruct v. Qed.

Lemma truthy_get_not_nullish v k : truthy (get v k) = true → nullish v = false.
Proof. by destruct v. Qed.

Lemma not_nullish_get v k : nullish (get v k) = false → nullish v = false.
Proof. by destruct v. Qed.

Lemma truthy_get_opt v k : truthy (get_opt v k) = true → get_opt v k = get v k.
Proof. unfold get_opt. by destruct (nullish v). Qed.

Lemma truthy_get_opt_get v j k : truthy (get_opt (get v j) k) = true → nullish v = false.
Proof.
  intros H. destruct (nullish v) eqn:E; [|done].
  by rewrite (get_nullish v j E) in H.
Qed.

Lemma prop_ok v k : nullish v = false → prop v k = Ret (get v k).
Proof. unfold prop. by intros ->. Qed.

Lemma error_message_ok err :
  truthy err = true → error_message err = Ret (js_or (get err "message") err).
Proof.
  intros H. unfold error_message.
  by rewrite prop_ok by by apply truthy_not_nullish.
Qed.

Lemma truthy_VStr t : truthy (VStr t) = true ↔ t ≠ "".
Proof.
  unfold truthy. destruct (String.eqb_spec t ""); split; try done.
Qed.

(** Resolves [v.k] when a hypothesis shows that [v] is an object. *)
Ltac prop_step v :=
  rewrite (prop_ok v) by
    first [ done
          | by eapply truthy_get_not_nullish
          | by eapply not_nullish_get
          | by eapply truthy_get_opt_get ].

(** A body of a [try] whose [catch] answers without throwing never lets
    an exception out. *)
Lemma run_try_catch_returns {W A} (exec : call → W → outcome * W)
    (p : prog A) (a0 : A) (w : W) :
  ∃ a, (run exec (try_catch p (λ _, Ret a0)) w).1.1 = Returned a.
Proof.
  revert w. induction p as [a|e|c k IH]; intros w; simpl; eauto.
  destruct (exec c w) as [o w1].
  destruct (IH o w1) as [a Ha].
  destruct (run exec (try_catch (k o) (λ _, Ret a0)) w1) as [[r w2] t].
  simpl in *. eauto.
Qed.

(** ** [split] *)

Lemma split_nonempty sep s : split sep s ≠ [].
Proof.
  destruct s as [|c s]; simpl; [done|].
  destruct (Ascii.eqb c sep); [done|]. by destruct (split sep s).
Qed.

Lemma join_split sep s : join sep (split sep s) = s.
Proof.
  induction s as [|c s IH]; [done|]. simpl.
  destruct (Ascii.eqb_spec c sep) as [->|Hne].
  - pose proof (split_nonempty sep s) as Hs.
    destruct (split sep s) as [|p ps]; [done|].
    simpl in *. by rewrite IH.
  - pose proof (split_nonempty sep s) as Hs.
    destruct (split sep s) as [|p ps]; [done|].
    destruct ps; simpl in *; by rewrite <- IH.
Qed.

Lemma split_parts_clean sep s : Forall (λ p, contains sep p = false) (split sep s).
Proof.
  induction s as [|c s IH]; simpl; [by repeat constructor|].
  destruct (Ascii.eqb c sep) eqn:E; [by constructor|].
  pose proof (split_nonempty sep s) as Hs.
  destruct (split sep s) as [|p ps]; [done|].
  inversion IH; subst. constructor; [|done]. simpl. by rewrite E.
Qed.

(** X1: [getBearerToken] yields a token exactly when the Authorization
    header (the empty string when absent) is [Bearer <token>] with a
    token free of spaces, and then it yields that token. *)
Lemma getBearerToken_Some req t :
  getBearerToken req = Some t ↔
  default "" (authorization req) = "Bearer " +:+ t ∧ contains " " t = false.
Proof.
  unfold getBearerToken. set (h := default "" (authorization req)).
  pose proof (join_split " " h) as Hj.
  pose proof (split_parts_clean " " h) as Hc.
  split.
  - destruct (split " " h) as [|p0 [|p1 [|? ?]]]; try done.
    destruct (String.eqb_spec p0 "Bearer") as [->|]; [|done].
    intros [= <-]. split; [by rewrite <- Hj|].
    by inversion Hc as [|? ? _ Hc']; inversion Hc'.
  - intros [Hh Ht]. clear Hj Hc. rewrite Hh. simpl.
    change ("" +:+ t) with t.
    assert (split " " t = [t]) as ->; [|done].
    clear Hh. induction t as [|c t IH]; [done|].
    simpl in *. apply orb_false_iff in Ht as [-> Ht]. by rewrite IH.
Qed.

(** ** The bearer-token guard *)

Section Guard.
Context {W : Type} (exec : call → W → outcome * W).

Lemma run_with_user_no_token req k h w :
  getBearerToken req = None ∨ getBearerToken req = Some "" →
  run exec (try_catch (with_user req k) h) w = (Returned missing_token, w, []).
Proof. unfold with_user. by intros [-> | ->]. Qed.

Lemma run_with_user_error req k h w t gr w1 :
  getBearerToken req = Some t → t ≠ "" →
  exec (AuthGetUser (VStr t)) w = (Resolved gr, w1) →
  truthy (get gr "error") = true →
  run exec (try_catch (with_user req k) h) w =
    (Returned (Response 401
                 (error_body (js_or (get (get gr "error") "message") (get gr "error")))),
     w1, [(AuthGetUser (VStr t), Resolved gr)]).
Proof.
  intros Ht Hne He Herr. unfold with_user. rewrite Ht.
  apply truthy_VStr in Hne. rewrite Hne. step. rewrite He. step.
  prop_step gr. step. rewrite Herr. by rewrite error_message_ok.
Qed.

Lemma run_with_user_no_user req k h w t gr w1 :
  getBearerToken req = Some t → t ≠ "" →
  exec (AuthGetUser (VStr t)) w = (Resolved gr, w1) →
  nullish gr = false →
  truthy (get gr "error") = false →
  truthy (get_opt (get gr "data") "user") = false →
  run exec (try_catch (with_user req k) h) w =
    (Returned (Response 401 (error_body (VStr "invalid token"))),
     w1, [(AuthGetUser (VStr t), Resolved gr)]).
Proof.
  intros Ht Hne He Hgr Herr Hu. unfold with_user. rewrite Ht.
  apply truthy_VStr in Hne. rewrite Hne. step. rewrite He. step.
  prop_step gr. step. by rewrite Herr, Hu.
Qed.

Lemma run_with_user_ok req k h w t gr w1 :
  getBearerToken req = Some t → t ≠ "" →
  exec (AuthGetUser (VStr t)) w = (Resolved gr, w1) →
  truthy (get gr "error") = false →
  truthy (get_opt (get gr "data") "user") = true →
  run exec (try_catch (with_user req k) h) w =
    let '(r, w2, tr) :=
      run exec (try_catch (k (get_opt (get gr "data") "user")) h) w1 in
    (r, w2, (AuthGetUser (VStr t), Resolved gr) :: tr).
Proof.
  intros Ht Hne He Herr Hu. unfold with_user. rewrite Ht.
  apply truthy_VStr in Hne. rewrite Hne. step. rewrite He. step.
  prop_step gr. step. by rewrite Herr, Hu.
Qed.

(** A token resolution that throws, or answers [null], ends in the
    [catch] block. *)
Lemma run_with_user_failed req k w t o w1 :
  getBearerToken req = Some t → t ≠ "" →
  exec (AuthGetUser (VStr t)) w = (o, w1) →
  (∃ e, o = Rejected e) ∨ (∃ gr, o = Resolved gr ∧ nullish gr = true) →
  run exec (try_catch (with_user req k) (λ _, Ret internal_error)) w =
    (Returned internal_error, w1, [(AuthGetUser (VStr t), o)]).
Proof.
  intros Ht Hne He Ho. unfold with_user. rewrite Ht.
  apply truthy_VStr in Hne. rewrite Hne. step. rewrite He.
  destruct Ho as [[e ->] | (gr & -> & Hgr)]; step; [done|].
  unfold prop. by rewrite Hgr.
Qed.
End Guard.

(** C10: an [Authorization] header that does not split on single spaces
    into exactly two parts of which the first is [Bearer] gives no
    token, and both protected handlers answer 401, with the body
    [{ error: 'missing access token in Authorization header' }],
    without any call to the credential store (the trace of calls is
    empty). *)
Theorem malformed_authorization_is_unauthorized (req : request) :
  ¬ (length (split " " (default "" (authorization req))) = 2 ∧
     split " " (default "" (authorization req)) !! 0 = Some "Bearer") →
  getBearerToken req = None ∧
  ∀ (W : Type) (exec : call → W → outcome * W) (w : W),
    run exec (auth_get_profile req) w =
      (Returned (Response 401
                   (VObj {[ "error" :=
                              VStr "missing access token in Authorization header" ]})),
       w, []) ∧
    run exec (auth_put_profile req) w =
      (Returned (Response 401
                   (VObj {[ "error" :=
                              VStr "missing access token in Authorization header" ]})),
       w, []).
Proof.
  intros Hshape.
  assert (getBearerToken req = None) as Hnone.
  { unfold getBearerToken.
    destruct (split " " (default "" (authorization req))) as [|p0 [|p1 [|? ?]]];
      try done.
    destruct (String.eqb_spec p0 "Bearer") as [->|]; [|done].
    by destruct Hshape. }
  split; [done|]. intros W exec w.
  split.
  - apply (run_with_user_no_token exec req). by left.
  - apply (run_with_user_no_token exec req). by left.
Qed.

Lemma malformed_authorization_is_unauthorized_witness :
  getBearerToken (Request (Some "bearer abc") (VObj ∅)) = None ∧
  ∀ (W : Type) (exec : call → W → outcome * W) (w : W),
    run exec (auth_get_profile (Request (Some "bearer abc") (VObj ∅))) w =
      (Returned (Response 401
                   (VObj {[ "error" :=
                              VStr "missing access token in Authorization header" ]})),
       w, []) ∧
    run exec (auth_put_profile (Request (Some "bearer abc") (VObj ∅))) w =
      (Returned (Response 401
                   (VObj {[ "error" :=
                              VStr "missing access token in Authorization header" ]})),
       w, []).
Proof.
  apply (malformed_authorization_is_unauthorized (Request (Some "bearer abc") (VObj ∅))).
  vm_compute. intros [_ H]. discriminate H.
Defined.

(** The three shapes named in the claim, and a well-formed header. *)
Example getBearerToken_lowercase_scheme :
  getBearerToken (Request (Some "bearer abc") VUndef) = None.
Proof. reflexivity. Qed.

Example getBearerToken_bare_scheme :
  getBearerToken (Request (Some "Bearer") VUndef) = None.
Proof. reflexivity. Qed.

Example getBearerToken_token_with_space :
  getBearerToken (Request (Some "Bearer abc def") VUndef) = None.
Proof. reflexivity. Qed.

Example getBearerToken_absent_header :
  getBearerToken (Request None VUndef) = None.
Proof. reflexivity. Qed.

Example getBearerToken_well_formed :
  getBearerToken (Request (Some "Bearer abc.def") VUndef) = Some "abc.def".
Proof. reflexivity. Qed.

(** ** Signup *)

(** C1, as the code has it: when identity creation was answered without
    error and with the new user in the [user] field of the answer
    (where line 62 reads it), and the profile insert is answered with
    an error, the handler calls [deleteUser] on the id just created;
    whatever that call does ([del] is any outcome, resolved or
    rejected), the handler answers 400 with the profile-insert error.
    When the insert call throws instead of answering, the [catch] block
    answers 500 and no [deleteUser] is issued. *)
Theorem signup_insert_failure_rolls_back
    {W : Type} (exec : call → W → outcome * W) (req : request)
    (w0 w1 : W) (cr : value) :
  truthy (get (body req) "email") = true →
  truthy (get (body req) "password") = true →
  truthy (get (body req) "username") = true →
  exec (signup_create req) w0 = (Resolved cr, w1) →
  truthy (get cr "error") = false →
  nullish (get cr "user") = false →
  (∀ (ir : value) (w2 : W) (del : outcome) (w3 : W),
     exec (signup_insert req (get (get cr "user") "id")) w1 = (Resolved ir, w2) →
     truthy (get ir "error") = true →
     exec (AdminDeleteUser (get (get cr "user") "id")) w2 = (del, w3) →
     run exec (auth_signup req) w0 =
       (Returned (Response 400
                    (VObj {[ "error" :=
                               js_or (get (get ir "error") "message") (get ir "error") ]})),
        w3,
        [ (signup_create req, Resolved cr);
          (signup_insert req (get (get cr "user") "id"), Resolved ir);
          (AdminDeleteUser (get (get cr "user") "id"), del) ])) ∧
  (∀ (e : value) (w2 : W),
     exec (signup_insert req (get (get cr "user") "id")) w1 = (Rejected e, w2) →
     run exec (auth_signup req) w0 =
       (Returned (Response 500 (VObj {[ "error" := VStr "internal server error" ]})),
        w2,
        [ (signup_create req, Resolved cr);
          (signup_insert req (get (get cr "user") "id"), Rejected e) ])).
Proof.
  unfold signup_create, signup_insert.
  intros H1 H2 H3 Hc Hce Hu.
  split.
  - intros ir w2 del w3 Hi Hie Hd. unfold auth_signup. prop_step (body req).
    step. rewrite H1, H2, H3. step. rewrite Hc. step.
    prop_step cr. step. rewrite Hce. rewrite (prop_ok _ _ Hu). step.
    rewrite Hi. step. prop_step ir. step. rewrite Hie. step. rewrite Hd.
    by rewrite error_message_ok.
  - intros e w2 Hi. unfold auth_signup. prop_step (body req).
    step. rewrite H1, H2, H3. step. rewrite Hc. step.
    prop_step cr. step. rewrite Hce. rewrite (prop_ok _ _ Hu). step.
    by rewrite Hi.
Qed.

Lemma signup_insert_failure_rolls_back_witness :
  run Replay.exec (auth_signup alice_signup)
      [Resolved alice_created; Resolved insert_refused; Rejected (VStr "fetch failed")] =
    (Returned (Response 400
                 (VObj {[ "error" :=
                            js_or (get (get insert_refused "error") "message")
                                  (get insert_refused "error") ]})),
     [],
     [ (signup_create alice_signup, Resolved alice_created);
       (signup_insert alice_signup (get (get alice_created "user") "id"),
        Resolved insert_refused);
       (AdminDeleteUser (get (get alice_created "user") "id"),
        Rejected (VStr "fetch failed")) ]).
Proof.
  destruct (signup_insert_failure_rolls_back Replay.exec alice_signup
              [Resolved alice_created; Resolved insert_refused;
               Rejected (VStr "fetch failed")]
              [Resolved insert_refused; Rejected (VStr "fetch failed")]
              alice_created eq_refl eq_refl eq_refl eq_refl eq_refl eq_refl) as [H _].
  exact (H insert_refused [Rejected (VStr "fetch failed")]
           (Rejected (VStr "fetch failed")) [] eq_refl eq_refl eq_refl).
Defined.

(** C1 as stated fails here: the identity was created and the profile
    insert failed (the call threw), so the claim promises a
    compensating delete and 400; the trace has no [deleteUser] and the
    answer is 500. *)
Lemma signup_rejected_insert_is_not_rolled_back :
  truthy (get (get alice_created "user") "id") = true ∧
  truthy (get alice_created "error") = false ∧
  run Replay.exec (auth_signup alice_signup)
      [Resolved alice_created; Rejected (VStr "fetch failed")] =
    (Returned (Response 500 (VObj {[ "error" := VStr "internal server error" ]})),
     [],
     [ (signup_create alice_signup, Resolved alice_created);
       (signup_insert alice_signup (VStr "user-0"), Rejected (VStr "fetch failed")) ]).
Proof. repeat split; reflexivity. Qed.

(** C2 fails on the answers of the client.  Every other answer of the
    auth client is read under [data] in this file ([signInResp.data?.user],
    [signInResp.data?.session], [getUserResp.data?.user]); line 62 reads
    [createResp.user].  When [createUser] succeeds and answers
    [{ data: { user }, error: null }], [user] is undefined, [user.id]
    throws and the [catch] block answers 500: no profile is inserted,
    and the identity just created is not deleted. *)
Theorem signup_reads_user_beside_data
    {W : Type} (exec : call → W → outcome * W) (req : request)
    (w0 w1 : W) (u : value) :
  truthy (get (body req) "email") = true →
  truthy (get (body req) "password") = true →
  truthy (get (body req) "username") = true →
  exec (signup_create req) w0 =
    (Resolved (VObj {[ "data" := VObj {[ "user" := u ]}; "error" := VNull ]}), w1) →
  run exec (auth_signup req) w0 =
    (Returned (Response 500 (VObj {[ "error" := VStr "internal server error" ]})),
     w1,
     [ (signup_create req,
        Resolved (VObj {[ "data" := VObj {[ "user" := u ]}; "error" := VNull ]})) ]).
Proof.
  unfold signup_create. intros H1 H2 H3 Hc.
  unfold auth_signup. prop_step (body req).
  step. rewrite H1, H2, H3. step. rewrite Hc. reflexivity.
Qed.

Lemma signup_reads_user_beside_data_witness :
  run Replay.exec (auth_signup alice_signup)
      [ Resolved (VObj {[ "data" :=
                            VObj {[ "user" := VObj {[ "id" := VStr "user-0";
                                                      "email" := VStr "a@x.com" ]} ]};
                          "error" := VNull ]}) ] =
    (Returned (Response 500 (VObj {[ "error" := VStr "internal server error" ]})),
     [],
     [ (signup_create alice_signup,
        Resolved (VObj {[ "data" :=
                            VObj {[ "user" := VObj {[ "id" := VStr "user-0";
                                                      "email" := VStr "a@x.com" ]} ]};
                          "error" := VNull ]})) ]).
Proof.
  apply (signup_reads_user_beside_data Replay.exec alice_signup
           [ Resolved (VObj {[ "data" :=
                                 VObj {[ "user" := VObj {[ "id" := VStr "user-0";
                                                           "email" := VStr "a@x.com" ]} ]};
                               "error" := VNull ]}) ] []
           (VObj {[ "id" := VStr "user-0"; "email" := VStr "a@x.com" ]}));
    reflexivity.
Defined.

(** On the reference store with a [profiles] table that refuses every
    row: the signup is answered 400 after a [deleteUser] call, the
    identity created on the way is gone, and a login with the same
    credentials is answered 401. *)
Example signup_rollback_on_reference_store :
  answered (run (MemStore.exec (λ _, false)) (auth_signup alice_signup) MemStore.empty)
    = Some (Response 400 (error_body (VStr "insert violates a constraint"))) ∧
  (calls_of (run (MemStore.exec (λ _, false)) (auth_signup alice_signup) MemStore.empty))
    !! 2 = Some (AdminDeleteUser (VStr "user-0")) ∧
  MemStore.identities
    (world_after (run (MemStore.exec (λ _, false)) (auth_signup alice_signup)
                      MemStore.empty)) = [] ∧
  status <$>
    answered (run (MemStore.exec (λ _, false)) (auth_login alice_login)
                  (world_after (run (MemStore.exec (λ _, false))
                                    (auth_signup alice_signup) MemStore.empty)))
    = Some 401.
Proof. repeat split; vm_compute; reflexivity. Qed.

Lemma created_body_profile user session profile :
  get (created_body user session profile) "profile" = profile.
Proof. reflexivity. Qed.

Lemma created_body_user_id user session profile :
  get (get (created_body user session profile) "user") "id" = get user "id".
Proof. reflexivity. Qed.

(** The path to 201.  On a store that answers [createUser] with the
    user in the [user] field of the answer, as the reference store
    does, and when the four calls answer without an error, the final
    select with a row, the handler answers 201 with
    [{message, user: {id, email}, session, profile}] and the id of the
    profile is the id of the user. *)
Theorem signup_success_profile_matches_user
    {W : Type} (exec : call → W → outcome * W) (req : request)
    (w0 w1 w2 w3 w4 : W) (cr ir sr pr : value) :
  select_by_id_contract exec →
  truthy (get (body req) "email") = true →
  truthy (get (body req) "password") = true →
  truthy (get (body req) "username") = true →
  exec (signup_create req) w0 = (Resolved cr, w1) →
  truthy (get cr "error") = false →
  nullish (get cr "user") = false →
  exec (signup_insert req (get (get cr "user") "id")) w1 = (Resolved ir, w2) →
  nullish ir = false →
  truthy (get ir "error") = false →
  exec (sign_in_call req) w2 = (Resolved sr, w3) →
  nullish sr = false →
  truthy (get sr "error") = false →
  exec (ProfilesSelectSingle (get (get cr "user") "id")) w3 = (Resolved pr, w4) →
  truthy (get pr "data") = true →
  ∃ r : response,
    run exec (auth_signup req) w0 =
      (Returned r, w4,
       [ (signup_create req, Resolved cr);
         (signup_insert req (get (get cr "user") "id"), Resolved ir);
         (sign_in_call req, Resolved sr);
         (ProfilesSelectSingle (get (get cr "user") "id"), Resolved pr) ]) ∧
    status r = 201 ∧
    payload r =
      created_body (get cr "user")
                   (js_or (get_opt (get sr "data") "session") VNull)
                   (get pr "data") ∧
    get (get (payload r) "profile") "id" = get (get (payload r) "user") "id".
Proof.
  unfold signup_create, signup_insert, sign_in_call.
  intros Hsel H1 H2 H3 Hc Hce Hu Hi Hir Hie Hs Hsr Hse Hp Hpd.
  assert (js_or (get pr "data") VNull = get pr "data") as Hor
    by (unfold js_or; by rewrite Hpd).
  eexists. split; [|split; [|split]].
  - unfold auth_signup. prop_step (body req).
    step. rewrite H1, H2, H3. step. rewrite Hc. step.
    prop_step cr. step. rewrite Hce. rewrite (prop_ok _ _ Hu). step.
    rewrite Hi. step. prop_step ir. step. rewrite Hie. step.
    rewrite Hs. step. prop_step sr. step. rewrite Hse. step.
    rewrite Hp. step. prop_step pr. step.
    reflexivity.
  - done.
  - cbn [payload]. by rewrite Hor.
  - cbn [payload]. rewrite Hor.
    change (VObj _) with
      (created_body (get cr "user") (js_or (get_opt (get sr "data") "session") VNull)
                    (get pr "data")).
    rewrite created_body_profile, created_body_user_id.
    by apply (Hsel _ _ _ _ Hp).
Qed.

(** The reference store honours the select contract. *)
Lemma MemStore_select_by_id accepts : select_by_id_contract (MemStore.exec accepts).
Proof.
  intros id w w' pr Hex Hdata. cbn in Hex. unfold MemStore.select_single in Hex.
  destruct (filter _ (MemStore.profiles w)) as [|row [|? ?]] eqn:Hf;
    inversion Hex; subst; clear Hex; try discriminate Hdata.
  assert (row ∈ [row]) as Hin by apply list_elem_of_here.
  rewrite <- Hf in Hin.
  apply list_elem_of_filter in Hin as [Hid _].
  unfold MemStore.has_id in Hid.
  destruct id; try discriminate Hid.
  change (get (get (answer_ok (VObj row)) "data") "id") with (default VUndef (row !! "id")).
  destruct (row !! "id") as [[]|]; try discriminate Hid.
  apply String.eqb_eq in Hid. by subst.
Qed.

Lemma signup_success_profile_matches_user_witness :
  ∃ r st tr,
    run (MemStore.exec (λ _, true)) (auth_signup alice_signup) MemStore.empty
      = (Returned r, st, tr) ∧
    status r = 201 ∧
    get (get (payload r) "profile") "id" = get (get (payload r) "user") "id".
Proof.
  pose (exec := MemStore.exec (λ _, true)).
  pose (s1 := exec (signup_create alice_signup) MemStore.empty).
  pose (uid := get (get (answer_of s1.1) "user") "id").
  pose (s2 := exec (signup_insert alice_signup uid) s1.2).
  pose (s3 := exec (sign_in_call alice_signup) s2.2).
  pose (s4 := exec (ProfilesSelectSingle uid) s3.2).
  destruct (signup_success_profile_matches_user
              exec alice_signup MemStore.empty s1.2 s2.2 s3.2 s4.2
              (answer_of s1.1) (answer_of s2.1) (answer_of s3.1) (answer_of s4.1))
    as (r & Hrun & Hstatus & _ & Hid);
    [apply MemStore_select_by_id | vm_compute; reflexivity ..|].
  exists r. do 2 eexists. split; [exact Hrun|]. split; [exact Hstatus|exact Hid].
Defined.

(** ** Login *)

(** C4, as the code has it.  A request without a parsed body is
    answered 500.  With a body: a missing (or empty) [email] or
    [password] is answered 400 before any call; a sign-in the store
    answers with an error, 401 with an [{error}] body that has no
    [session]; a sign-in answered without error but without a user
    object, or with a user whose id is missing or falsy, 500; otherwise,
    once the profile select has answered, 200 with [{session, profile}].
    A sign-in or a select that throws, or answers [null], is answered
    500 from the [catch] block. *)
Theorem login_outcomes {W : Type} (exec : call → W → outcome * W)
    (req : request) (w : W) :
  (nullish (body req) = true →
   run exec (auth_login req) w =
     (Returned (Response 500 (VObj {[ "error" := VStr "internal server error" ]})),
      w, [])) ∧
  (nullish (body req) = false →
   truthy (get (body req) "email") = false ∨ truthy (get (body req) "password") = false →
   run exec (auth_login req) w =
     (Returned (Response 400 (VObj {[ "error" := VStr "email and password required" ]})),
      w, [])) ∧
  (truthy (get (body req) "email") = true →
   truthy (get (body req) "password") = true →
   ∀ (o : outcome) (w1 : W),
     exec (sign_in_call req) w = (o, w1) →
     ((∃ e, o = Rejected e) ∨ (∃ sr, o = Resolved sr ∧ nullish sr = true) →
      run exec (auth_login req) w =
        (Returned (Response 500 (VObj {[ "error" := VStr "internal server error" ]})),
         w1, [(sign_in_call req, o)])) ∧
     ∀ sr : value, o = Resolved sr →
       (truthy (get sr "error") = true →
        ∃ r, run exec (auth_login req) w = (Returned r, w1, [(sign_in_call req, o)]) ∧
             status r = 401 ∧
             payload r =
               VObj {[ "error" :=
                         js_or (get (get sr "error") "message") (get sr "error") ]} ∧
             get (payload r) "session" = VUndef) ∧
       (nullish sr = false → truthy (get sr "error") = false →
        (truthy (signed_in_user sr) = false ∨
         truthy (get (signed_in_user sr) "id") = false →
         run exec (auth_login req) w =
           (Returned (Response 500
                        (VObj {[ "error" := VStr "could not get user after sign-in" ]})),
            w1, [(sign_in_call req, o)])) ∧
        (truthy (signed_in_user sr) = true →
         truthy (get (signed_in_user sr) "id") = true →
         ∀ (o2 : outcome) (w2 : W),
           exec (ProfilesSelectSingle (get (signed_in_user sr) "id")) w1 = (o2, w2) →
           ((∃ e, o2 = Rejected e) ∨ (∃ pr, o2 = Resolved pr ∧ nullish pr = true) →
            run exec (auth_login req) w =
              (Returned (Response 500
                           (VObj {[ "error" := VStr "internal server error" ]})),
               w2,
               [ (sign_in_call req, o);
                 (ProfilesSelectSingle (get (signed_in_user sr) "id"), o2) ])) ∧
           ∀ pr : value, o2 = Resolved pr → nullish pr = false →
             run exec (auth_login req) w =
               (Returned (Response 200
                            (VObj {[ "session" := signed_in_session sr;
                                     "profile" := js_or (get pr "data") VNull ]})),
                w2,
                [ (sign_in_call req, o);
                  (ProfilesSelectSingle (get (signed_in_user sr) "id"), o2) ])))).
Proof.
  unfold sign_in_call, signed_in_user, signed_in_session. split; [|split].
  - intros Hb. unfold auth_login, prop. by rewrite Hb.
  - intros Hb Hmiss. unfold auth_login. prop_step (body req). step.
    by destruct Hmiss as [-> | ->]; [|rewrite orb_true_r].
  - intros H1 H2 o w1 Hs.
    assert (∀ k : value → prog response,
              run exec (try_catch
                (let* email := prop (body req) "email" in
                 if negb (truthy email) || negb (truthy (get (body req) "password"))
                 then Ret (Response 400 (error_body (VStr "email and password required")))
                 else let* signInResp :=
                        await (SignInWithPassword
                                 (credentials email (get (body req) "password"))) in
                      k signInResp)
                (λ _, Ret internal_error)) w =
              let '(r, w2, t) :=
                run exec (try_catch
                            (let* signInResp :=
                               match o with Resolved v => Ret v | Rejected e => Throw e end in
                             k signInResp)
                            (λ _, Ret internal_error)) w1 in
              (r, w2,
               (SignInWithPassword
                  (credentials (get (body req) "email") (get (body req) "password")),
                o) :: t)) as Hprefix.
    { intros k. prop_step (body req). step. rewrite H1, H2. step. by rewrite Hs. }
    split.
    { intros [[e ->] | (sr & -> & Hsr)]; unfold auth_login; rewrite Hprefix; step;
        [done|]. unfold prop. by rewrite Hsr. }
    intros sr ->. split.
    + intros Herr. eexists. split.
      { unfold auth_login. rewrite Hprefix. step. prop_step sr. step. rewrite Herr.
        by rewrite error_message_ok. }
      by repeat split.
    + intros Hsr Herr. split.
      * intros Hno. unfold auth_login. rewrite Hprefix. step. prop_step sr. step.
        rewrite Herr.
        by destruct Hno as [-> | ->]; [|rewrite orb_true_r].
      * intros Hu Hid o2 w2 Hp. split.
        -- intros Ho2. unfold auth_login. rewrite Hprefix. step.
           prop_step sr. step. rewrite Herr, Hu, Hid. step. rewrite Hp.
           destruct Ho2 as [[e ->] | (pr & -> & Hpr)]; step; [done|].
           unfold prop. by rewrite Hpr.
        -- intros pr -> Hpr. unfold auth_login. rewrite Hprefix. step.
           prop_step sr. step. rewrite Herr, Hu, Hid. step. rewrite Hp. step.
           by prop_step pr.
Qed.

Lemma login_outcomes_witness :
  run Replay.exec (auth_login alice_login)
      [Resolved alice_signed_in; Resolved alice_profile] =
    (Returned (Response 200
                 (VObj {[ "session" := signed_in_session alice_signed_in;
                          "profile" := js_or (get alice_profile "data") VNull ]})),
     [],
     [ (sign_in_call alice_login, Resolved alice_signed_in);
       (ProfilesSelectSingle (get (signed_in_user alice_signed_in) "id"),
        Resolved alice_profile) ]).
Proof.
  destruct (login_outcomes Replay.exec alice_login
              [Resolved alice_signed_in; Resolved alice_profile]) as (_ & _ & H).
  destruct (H eq_refl eq_refl (Resolved alice_signed_in) [Resolved alice_profile] eq_refl)
    as [_ H1].
  destruct (H1 alice_signed_in eq_refl) as [_ H2].
  destruct (H2 eq_refl eq_refl) as [_ H3].
  destruct (H3 eq_refl eq_refl (Resolved alice_profile) [] eq_refl) as [_ H4].
  exact (H4 alice_profile eq_refl eq_refl).
Defined.

(** C4 as stated fails here: the credentials are present, the store
    accepts them and returns a user object, so the claim promises 200
    with [{session, profile}]; line 131 answers 500. *)
Lemma login_user_object_without_id :
  truthy (get (body alice_login) "email") = true ∧
  truthy (get (body alice_login) "password") = true ∧
  truthy (get signed_in_without_id "error") = false ∧
  signed_in_user signed_in_without_id = VObj {[ "email" := VStr "a@x.com" ]} ∧
  run Replay.exec (auth_login alice_login)
      [Resolved signed_in_without_id; Resolved alice_profile] =
    (Returned (Response 500 (error_body (VStr "could not get user after sign-in"))),
     [Resolved alice_profile],
     [(sign_in_call alice_login, Resolved signed_in_without_id)]).
Proof. repeat split; reflexivity. Qed.

(** ** Get profile *)

(** C5, as the code has it.  Without a bearer token (no header, a
    malformed one, or an empty token) the answer is 401 and the store
    is not called; a token the store answers with an error, or with no
    user, 401; a resolved user whose profile select answers with an
    error, 404; a token resolution or a select that throws, or answers
    [null], 500; otherwise 200 with [{profile}], the data selected for
    that user's id. *)
Theorem get_profile_outcomes {W : Type} (exec : call → W → outcome * W)
    (req : request) (w : W) :
  (getBearerToken req = None ∨ getBearerToken req = Some "" →
   run exec (auth_get_profile req) w =
     (Returned (Response 401
                  (VObj {[ "error" :=
                             VStr "missing access token in Authorization header" ]})),
      w, [])) ∧
  (∀ (t : string) (o : outcome) (w1 : W),
     getBearerToken req = Some t → t ≠ "" →
     exec (AuthGetUser (VStr t)) w = (o, w1) →
     ((∃ e, o = Rejected e) ∨ (∃ gr, o = Resolved gr ∧ nullish gr = true) →
      run exec (auth_get_profile req) w =
        (Returned (Response 500 (VObj {[ "error" := VStr "internal server error" ]})),
         w1, [(AuthGetUser (VStr t), o)])) ∧
     ∀ gr : value, o = Resolved gr →
       (truthy (get gr "error") = true →
        run exec (auth_get_profile req) w =
          (Returned (Response 401
                       (VObj {[ "error" :=
                                  js_or (get (get gr "error") "message") (get gr "error") ]})),
           w1, [(AuthGetUser (VStr t), o)])) ∧
       (nullish gr = false → truthy (get gr "error") = false →
        truthy (token_user gr) = false →
        run exec (auth_get_profile req) w =
          (Returned (Response 401 (VObj {[ "error" := VStr "invalid token" ]})),
           w1, [(AuthGetUser (VStr t), o)])) ∧
       (truthy (get gr "error") = false → truthy (token_user gr) = true →
        ∀ (o2 : outcome) (w2 : W),
          exec (ProfilesSelectSingle (get (token_user gr) "id")) w1 = (o2, w2) →
          ((∃ e, o2 = Rejected e) ∨ (∃ pr, o2 = Resolved pr ∧ nullish pr = true) →
           run exec (auth_get_profile req) w =
             (Returned (Response 500 (VObj {[ "error" := VStr "internal server error" ]})),
              w2,
              [ (AuthGetUser (VStr t), o);
                (ProfilesSelectSingle (get (token_user gr) "id"), o2) ])) ∧
          ∀ pr : value, o2 = Resolved pr →
            (truthy (get pr "error") = true →
             run exec (auth_get_profile req) w =
               (Returned (Response 404
                            (VObj {[ "error" :=
                                       js_or (get (get pr "error") "message")
                                             (get pr "error") ]})),
                w2,
                [ (AuthGetUser (VStr t), o);
                  (ProfilesSelectSingle (get (token_user gr) "id"), o2) ])) ∧
            (nullish pr = false → truthy (get pr "error") = false →
             run exec (auth_get_profile req) w =
               (Returned (Response 200 (VObj {[ "profile" := get pr "data" ]})),
                w2,
                [ (AuthGetUser (VStr t), o);
                  (ProfilesSelectSingle (get (token_user gr) "id"), o2) ])))).
Proof.
  unfold token_user. split.
  - apply (run_with_user_no_token exec req).
  - intros t o w1 Ht Hne Hg. split.
    { apply (run_with_user_failed exec req); done. }
    intros gr ->. split; [|split].
    + by apply (run_with_user_error exec req).
    + by apply (run_with_user_no_user exec req).
    + intros Herr Hu o2 w2 Hp. unfold auth_get_profile.
      rewrite (run_with_user_ok exec req _ _ w t gr w1) by done.
      step. rewrite Hp. split.
      * intros [[e ->] | (pr & -> & Hpr)]; step; [done|].
        unfold prop. by rewrite Hpr.
      * intros pr ->. step. split.
        -- intros Hperr. prop_step pr. step. rewrite Hperr.
           by rewrite error_message_ok.
        -- intros Hpr Hperr. prop_step pr. step. by rewrite Hperr.
Qed.

Lemma get_profile_outcomes_witness :
  run Replay.exec (auth_get_profile alice_read)
      [Resolved alice_resolved; Resolved alice_profile] =
    (Returned (Response 200 (VObj {[ "profile" := get alice_profile "data" ]})),
     [],
     [ (AuthGetUser (VStr "token-1"), Resolved alice_resolved);
       (ProfilesSelectSingle (get (token_user alice_resolved) "id"),
        Resolved alice_profile) ]).
Proof.
  destruct (get_profile_outcomes Replay.exec alice_read
              [Resolved alice_resolved; Resolved alice_profile]) as [_ H].
  destruct (H "token-1" (Resolved alice_resolved) [Resolved alice_profile] eq_refl
              ltac:(discriminate) eq_refl) as [_ H1].
  destruct (H1 alice_resolved eq_refl) as (_ & _ & H2).
  destruct (H2 eq_refl eq_refl (Resolved alice_profile) [] eq_refl) as [_ H3].
  destruct (H3 alice_profile eq_refl) as [_ H4].
  exact (H4 eq_refl eq_refl).
Defined.

(** C5 as stated fails here: the header carries a token, the credential
    store cannot resolve it (the call throws), and the answer is 500
    where the claim has 401. *)
Lemma get_profile_resolution_throws :
  getBearerToken alice_read = Some "token-1" ∧
  run Replay.exec (auth_get_profile alice_read) [Rejected (VStr "fetch failed")] =
    (Returned (Response 500 (VObj {[ "error" := VStr "internal server error" ]})),
     [], [(AuthGetUser (VStr "token-1"), Rejected (VStr "fetch failed"))]).
Proof. split; reflexivity. Qed.

(** ** Exceptions at the handler boundary *)

(** The four handlers of server.js wrap their whole body in [try]: they
    always end with a response, whatever the calls do. *)
Lemma server_handlers_always_respond {W : Type} (exec : call → W → outcome * W)
    (req : request) (w : W) :
  (∃ r, (run exec (auth_signup req) w).1.1 = Returned r) ∧
  (∃ r, (run exec (auth_login req) w).1.1 = Returned r) ∧
  (∃ r, (run exec (auth_get_profile req) w).1.1 = Returned r) ∧
  (∃ r, (run exec (auth_put_profile req) w).1.1 = Returned r).
Proof. repeat split; apply run_try_catch_returns. Qed.

(** A rejected sign-in inside [/auth/login] becomes the 500 answer. *)
Lemma login_rejection_is_caught {W : Type} (exec : call → W → outcome * W)
    (req : request) (w w1 : W) (e : value) :
  truthy (get (body req) "email") = true →
  truthy (get (body req) "password") = true →
  exec (sign_in_call req) w = (Rejected e, w1) →
  run exec (auth_login req) w =
    (Returned internal_error, w1, [(sign_in_call req, Rejected e)]).
Proof.
  unfold sign_in_call. intros H1 H2 Hs. unfold auth_login.
  prop_step (body req). step. rewrite H1, H2. step. by rewrite Hs.
Qed.

(** So does a rejected profile insert inside [/auth/signup]; the
    compensating delete belongs to the path on which the insert answers
    with an error, and is not reached from the [catch] block. *)
Lemma signup_insert_rejection_is_caught {W : Type} (exec : call → W → outcome * W)
    (req : request) (w0 w1 w2 : W) (cr e : value) :
  truthy (get (body req) "email") = true →
  truthy (get (body req) "password") = true →
  truthy (get (body req) "username") = true →
  exec (signup_create req) w0 = (Resolved cr, w1) →
  truthy (get cr "error") = false →
  nullish (get cr "user") = false →
  exec (signup_insert req (get (get cr "user") "id")) w1 = (Rejected e, w2) →
  run exec (auth_signup req) w0 =
    (Returned internal_error, w2,
     [ (signup_create req, Resolved cr);
       (signup_insert req (get (get cr "user") "id"), Rejected e) ]).
Proof.
  unfold signup_create, signup_insert.
  intros H1 H2 H3 Hc Hce Hu Hi.
  unfold auth_signup. prop_step (body req).
  step. rewrite H1, H2, H3. step. rewrite Hc. step.
  prop_step cr. step. rewrite Hce. rewrite (prop_ok _ _ Hu). step.
  by rewrite Hi.
Qed.

(** C6 fails on the legacy handlers: [getAllUsers] has no [try], so a
    rejected [pool.query] leaves the handler as an uncaught exception
    and no response is sent. *)
Theorem getAllUsers_rejection_escapes {W : Type} (exec : call → W → outcome * W)
    (req : request) (w w1 : W) (e : value) :
  exec (PoolQuery sql_list_users []) w = (Rejected e, w1) →
  run exec (getAllUsers req) w =
    (Uncaught e, w1, [(PoolQuery sql_list_users [], Rejected e)]).
Proof. intros Hq. unfold getAllUsers. step. by rewrite Hq. Qed.

Lemma getAllUsers_rejection_escapes_witness :
  run Replay.exec (getAllUsers (Request None (VObj ∅)))
      [Rejected (VStr "connect ECONNREFUSED")] =
    (Uncaught (VStr "connect ECONNREFUSED"), [],
     [(PoolQuery sql_list_users [], Rejected (VStr "connect ECONNREFUSED"))]).
Proof.
  apply (getAllUsers_rejection_escapes Replay.exec (Request None (VObj ∅))
           [Rejected (VStr "connect ECONNREFUSED")] []).
  reflexivity.
Defined.

(** The same for [loginUser]: a rejected query, a rejected
    [bcrypt.compare] (it rejects when the body has no password) or a
    throwing [jwt.sign] escapes. *)
Lemma loginUser_rejection_escapes {W : Type} (exec : call → W → outcome * W)
    (secret : value) (req : request) (w w1 : W) (e : value) :
  nullish (body req) = false →
  exec (PoolQuery sql_user_by_email [get (body req) "email"]) w = (Rejected e, w1) →
  run exec (loginUser secret req) w =
    (Uncaught e, w1, [(PoolQuery sql_user_by_email [get (body req) "email"], Rejected e)]).
Proof.
  intros Hb Hq. unfold loginUser. prop_step (body req). step. by rewrite Hq.
Qed.

Example loginUser_without_password_escapes :
  (run (MemDb.exec (λ d h, if nullish d then Rejected (VStr "data and hash arguments required")
                           else Resolved (VBool false))
                   (λ _ _, Resolved (VStr "jwt")))
       (loginUser (VStr "secret")
          (Request None (VObj {[ "email" := VStr "a@x.com" ]})))
       [ {[ "id" := VNum 1; "name" := VStr "Alice"; "email" := VStr "a@x.com";
            "password" := VStr alice_hash; "skills" := VStr "rocq" ]} ]).1.1
  = Uncaught (VStr "data and hash arguments required").
Proof. reflexivity. Qed.

(** ** The legacy listing and login *)

Arguments MemDb.parse : simpl never.
Arguments MemDb.query : simpl never.

(** The two statements the handlers send, as the reference table reads
    them. *)
Lemma MemDb_parse_list_users :
  MemDb.parse sql_list_users = Some (MemDb.Select (Some ["id"; "name"; "skills"]) false).
Proof. vm_compute. reflexivity. Qed.

Lemma MemDb_parse_user_by_email :
  MemDb.parse sql_user_by_email = Some (MemDb.Select None true).
Proof. vm_compute. reflexivity. Qed.

Lemma MemDb_query_list_users users :
  MemDb.query sql_list_users [] users =
    Resolved (MemDb.result (MemDb.project ["id"; "name"; "skills"] <$> users)).
Proof. unfold MemDb.query. by rewrite MemDb_parse_list_users. Qed.

Lemma MemDb_query_user_by_email p users :
  MemDb.query sql_user_by_email [p] users =
    Resolved (MemDb.result (filter (λ r, MemDb.email_is p r = true) users)).
Proof. unfold MemDb.query. by rewrite MemDb_parse_user_by_email. Qed.

Lemma MemDb_result_rows rows : get (MemDb.result rows) "rows" = VArr (VObj <$> rows).
Proof. reflexivity. Qed.

Lemma get_length_cons v l : is_zero (get (VArr (v :: l)) "length") = false.
Proof. reflexivity. Qed.

Lemma email_is_lookup e row :
  MemDb.email_is (VStr e) row = true ↔ row !! "email" = Some (VStr e).
Proof.
  unfold MemDb.email_is. destruct (row !! "email") as [[]|]; try by split.
  split; [by intros ->%String.eqb_eq|]. intros [= ->]. apply String.eqb_refl.
Qed.

(** The rows with a given email, when the first of them is known. *)
Lemma filter_email_first e (row : gmap string value) before after :
  Forall (λ r : gmap string value, r !! "email" ≠ Some (VStr e)) before →
  row !! "email" = Some (VStr e) →
  filter (λ r, MemDb.email_is (VStr e) r = true) (before ++ row :: after) =
    row :: filter (λ r, MemDb.email_is (VStr e) r = true) after.
Proof.
  intros Hbefore Hrow. rewrite filter_app.
  assert (filter (λ r, MemDb.email_is (VStr e) r = true) before = []) as ->.
  { induction Hbefore as [|r l Hr _ IH]; [done|].
    rewrite filter_cons_False; [done|]. by rewrite email_is_lookup. }
  by rewrite filter_cons_True by by apply email_is_lookup.
Qed.

(** C7: whatever the rows of [users], [getAllUsers] sends the statement
    [SELECT id, name, skills FROM users] and answers 200 with an array
    that has one object per row, in the order of the rows; each object
    has exactly the keys [id], [name] and [skills], holding the row's
    values, and so no [password] key. *)
Theorem getAllUsers_lists_public_columns
    (bcrypt_compare jwt_sign : value → value → outcome)
    (users : list (gmap string value)) (req : request) :
  ∃ listed : list (gmap string value),
    run (MemDb.exec bcrypt_compare jwt_sign) (getAllUsers req) users =
      (Returned (Response 200 (VArr (VObj <$> listed))), users,
       [(PoolQuery "SELECT id, name, skills FROM users" [],
         Resolved (MemDb.result listed))]) ∧
    Forall2 (λ (row o : gmap string value),
               dom o = ({[ "id"; "name"; "skills" ]} : gset string) ∧
               o !! "id" = Some (default VNull (row !! "id")) ∧
               o !! "name" = Some (default VNull (row !! "name")) ∧
               o !! "skills" = Some (default VNull (row !! "skills")) ∧
               o !! "password" = None)
            users listed.
Proof.
  exists (MemDb.project ["id"; "name"; "skills"] <$> users). split.
  - unfold getAllUsers. step. by rewrite MemDb_query_list_users.
  - apply Forall2_fmap_r, Forall_Forall2_diag, Forall_forall. intros row _.
    split; [|done].
    unfold MemDb.project. cbn [fmap list_fmap].
    rewrite dom_list_to_map_L. set_solver.
Qed.

(** C9, as the code has it: for a stored row that is the first of the
    table with its email, a login with that email whose password
    [bcrypt.compare] accepts against the row's hash, and for which
    [jwt.sign] returns, sends [SELECT * FROM users WHERE email=$1] and
    is answered 200 with [{token, user}] where [user] is the whole
    stored row: its [password] field is the stored hash. *)
Theorem loginUser_returns_stored_row
    (bcrypt_compare jwt_sign : value → value → outcome) (secret : value)
    (users before after : list (gmap string value)) (req : request) (e : string)
    (row : gmap string value) (matched token : value) :
  users = before ++ row :: after →
  Forall (λ r : gmap string value, r !! "email" ≠ Some (VStr e)) before →
  row !! "email" = Some (VStr e) →
  get (body req) "email" = VStr e →
  bcrypt_compare (get (body req) "password") (default VUndef (row !! "password"))
    = Resolved matched →
  truthy matched = true →
  jwt_sign (VObj {[ "id" := default VUndef (row !! "id") ]}) secret = Resolved token →
  ∃ r : response,
    run (MemDb.exec bcrypt_compare jwt_sign) (loginUser secret req) users =
      (Returned r, users,
       [ (PoolQuery "SELECT * FROM users WHERE email=$1" [VStr e],
          Resolved (MemDb.result
                      (row :: filter (λ r, MemDb.email_is (VStr e) r = true) after)));
         (BcryptCompare (get (body req) "password") (default VUndef (row !! "password")),
          Resolved matched);
         (JwtSign (VObj {[ "id" := default VUndef (row !! "id") ]}) secret,
          Resolved token) ]) ∧
    status r = 200 ∧
    payload r = VObj {[ "token" := token; "user" := VObj row ]} ∧
    get (get (payload r) "user") "password" = default VUndef (row !! "password").
Proof.
  intros -> Hbefore Hrow Hemail Hcmp Hm Hsign.
  eexists. split.
  { unfold loginUser. rewrite (prop_ok (body req)) by (by destruct (body req)).
    step. rewrite Hemail, MemDb_query_user_by_email.
    rewrite (filter_email_first e row before after Hbefore Hrow). step.
    rewrite MemDb_result_rows. rewrite (prop_ok (VArr _)) by done.
    cbn [fmap list_fmap]. step. rewrite get_length_cons. step.
    change (get (VObj row) "password") with (default VUndef (row !! "password")).
    rewrite Hcmp. step. rewrite Hm. step.
    change (get (VObj row) "id") with (default VUndef (row !! "id")).
    rewrite Hsign. reflexivity. }
  by repeat split.
Qed.

Lemma loginUser_returns_stored_row_witness :
  ∃ r : response,
    run (MemDb.exec bcrypt_fixture jwt_fixture)
        (loginUser (VStr "secret") alice_login) [bob_row; alice_row; mallory_row] =
      (Returned r, [bob_row; alice_row; mallory_row],
       [ (PoolQuery "SELECT * FROM users WHERE email=$1" [VStr "a@x.com"],
          Resolved (MemDb.result
                      (alice_row
                       :: filter (λ r, MemDb.email_is (VStr "a@x.com") r = true)
                                 [mallory_row])));
         (BcryptCompare (get (body alice_login) "password")
                        (default VUndef (alice_row !! "password")),
          Resolved (VBool true));
         (JwtSign (VObj {[ "id" := default VUndef (alice_row !! "id") ]}) (VStr "secret"),
          Resolved (VStr "header.payload.signature")) ]) ∧
    status r = 200 ∧
    payload r = VObj {[ "token" := VStr "header.payload.signature";
                        "user" := VObj alice_row ]} ∧
    get (get (payload r) "user") "password" = default VUndef (alice_row !! "password").
Proof.
  apply (loginUser_returns_stored_row bcrypt_fixture jwt_fixture (VStr "secret")
           [bob_row; alice_row; mallory_row] [bob_row] [mallory_row] alice_login
           "a@x.com" alice_row (VBool true) (VStr "header.payload.signature")).
  - reflexivity.
  - repeat constructor. vm_compute. discriminate.
  - reflexivity.
  - reflexivity.
  - reflexivity.
  - reflexivity.
  - reflexivity.
Defined.

(** C9 as stated fails here: mallory is a stored user, the request has
    her email and a password [bcrypt.compare] accepts against her hash,
    but her row is the second with that email.  The handler compares
    with the hash of the first row and answers 400. *)
Lemma loginUser_second_row_with_email :
  mallory_row ∈ [alice_row; mallory_row] ∧
  mallory_row !! "email" = Some (get (body mallory_login) "email") ∧
  bcrypt_fixture (get (body mallory_login) "password") (get (VObj mallory_row) "password")
    = Resolved (VBool true) ∧
  run (MemDb.exec bcrypt_fixture jwt_fixture)
      (loginUser (VStr "secret") mallory_login) [alice_row; mallory_row] =
    (Returned (Response 400 (VObj {[ "message" := VStr "Wrong password" ]})),
     [alice_row; mallory_row],
     [ (PoolQuery "SELECT * FROM users WHERE email=$1" [VStr "a@x.com"],
        Resolved (MemDb.result [alice_row; mallory_row]));
       (BcryptCompare (VStr "letmein1") (get (VObj alice_row) "password"),
        Resolved (VBool false)) ]).
Proof.
  split; [|split; [|split]].
  - apply list_elem_of_further, list_elem_of_here.
  - reflexivity.
  - reflexivity.
  - vm_compute. reflexivity.
Qed.

(** ** Update profile *)

Lemma collect_updates_lookup (b : gmap string value) ks (u : gmap string value) :
  ∃ u' : gmap string value,
    collect_updates (VObj b) ks u = Ret u' ∧
    ∀ k, u' !! k =
         if decide (k ∈ ks)
         then match b !! k with Some v => Some v | None => u !! k end
         else u !! k.
Proof.
  revert u. induction ks as [|k0 ks IH]; intros u.
  - exists u. split; [done|]. intros k. by rewrite decide_False by set_solver.
  - cbn [collect_updates in_op bind].
    destruct (IH (if bool_decide (is_Some (b !! k0))
                  then <[k0 := get (VObj b) k0]> u else u)) as (u' & Hrun & Hlook).
    exists u'. split; [done|]. intros k. rewrite Hlook. clear Hrun Hlook IH.
    unfold get.
    destruct (decide (k ∈ ks)) as [Hin|Hnin].
    + rewrite decide_True by set_solver.
      destruct (b !! k) as [v|] eqn:Hk; [done|].
      case_bool_decide as Hsome; [|done].
      destruct (decide (k0 = k)) as [->|Hne].
      * rewrite Hk in Hsome. by destruct Hsome.
      * by rewrite lookup_insert_ne.
    + destruct (decide (k0 = k)) as [->|Hne].
      * rewrite decide_True by set_solver.
        case_bool_decide as Hsome.
        -- destruct Hsome as [v Hv]. rewrite Hv. cbn. by rewrite lookup_insert_eq.
        -- destruct (b !! k) as [v|]; [|done]. destruct Hsome; eauto.
      * rewrite decide_False by set_solver.
        case_bool_decide; [|done]. by rewrite lookup_insert_ne.
Qed.

Lemma collect_updates_object (b : gmap string value) :
  collect_updates (VObj b) allowed ∅ = Ret (allowed_updates b).
Proof.
  destruct (collect_updates_lookup b allowed ∅) as (u' & -> & Hlook).
  f_equal. apply map_eq. intros k. rewrite Hlook. unfold allowed_updates.
  destruct (decide (k ∈ allowed)) as [Hin|Hnin].
  - destruct (b !! k) as [v|] eqn:Hk.
    + symmetry. by apply map_lookup_filter_Some.
    + rewrite lookup_empty. symmetry. apply map_lookup_filter_None. left. done.
  - rewrite lookup_empty. symmetry. apply map_lookup_filter_None. right.
    intros v _. done.
Qed.

(** A body that is not an object makes [in] throw; an array has none of
    the allow-listed names. *)
Lemma collect_updates_primitive v u :
  match v with VObj _ | VArr _ => False | _ => True end →
  collect_updates v allowed u = Throw TypeError.
Proof. by destruct v. Qed.

Lemma collect_updates_array l : collect_updates (VArr l) allowed ∅ = Ret ∅.
Proof. reflexivity. Qed.

Lemma updated_at_not_allowed : "updated_at" ∉ allowed.
Proof. unfold allowed. set_solver. Qed.

Lemma stamped_updates_protected now b col :
  protected_column col → stamped_updates now b !! col = None.
Proof.
  intros [Hna Hnu]. unfold stamped_updates.
  rewrite lookup_insert_ne by done.
  apply map_lookup_filter_None. right. intros v _. done.
Qed.

Lemma stamped_updates_allowed now b col :
  col ∈ allowed → stamped_updates now b !! col = b !! col.
Proof.
  intros Hin. unfold stamped_updates.
  rewrite lookup_insert_ne; [|intros <-; by apply updated_at_not_allowed].
  unfold allowed_updates. destruct (b !! col) as [v|] eqn:Hb.
  - by apply map_lookup_filter_Some.
  - apply map_lookup_filter_None. by left.
Qed.

Lemma apply_update_protected id u row col :
  u !! col = None → MemStore.apply_update id u row !! col = row !! col.
Proof.
  intros Hu. unfold MemStore.apply_update. destruct (MemStore.has_id id row); [|done].
  rewrite lookup_union, Hu. by destruct (row !! col).
Qed.

Lemma answer_ok_no_error d : truthy (get (answer_ok d) "error") = false.
Proof. reflexivity. Qed.

Lemma answer_error_error msg : truthy (get (answer_error msg) "error") = true.
Proof. reflexivity. Qed.

Lemma MemStore_get_user_pure accepts token st o st1 :
  MemStore.exec accepts (AuthGetUser token) st = (o, st1) → st1 = st.
Proof.
  cbn. unfold MemStore.get_user. intros H.
  destruct token; try by inversion H.
  destruct (MemStore.sessions st !! s); [|by inversion H].
  destruct (find _ _); by inversion H.
Qed.

Lemma MemStore_select_single_answer id st :
  ∃ pr, MemStore.select_single id st = (Resolved pr, st) ∧ nullish pr = false.
Proof.
  unfold MemStore.select_single.
  destruct (filter _ _) as [|row [|? ?]]; eauto.
Qed.

(** What the handler asks of any store, whatever the store does with it:
    nothing when the body has no allow-listed field, and otherwise one
    update made of the allow-listed fields and the time read. *)
Lemma put_profile_nothing_to_update {W : Type} (exec : call → W → outcome * W)
    (req : request) (b : gmap string value) (w w1 : W) (t : string) (gr : value) :
  body req = VObj b →
  getBearerToken req = Some t → t ≠ "" →
  exec (AuthGetUser (VStr t)) w = (Resolved gr, w1) →
  truthy (get gr "error") = false →
  truthy (token_user gr) = true →
  allowed_updates b = ∅ →
  run exec (auth_put_profile req) w =
    (Returned (Response 400 (error_body (VStr "no updatable fields provided"))),
     w1, [(AuthGetUser (VStr t), Resolved gr)]).
Proof.
  unfold token_user. intros Hbody Ht Hne Hg Herr Hu Hempty. unfold auth_put_profile.
  rewrite (run_with_user_ok _ req _ _ w t gr w1) by done.
  by rewrite Hbody, collect_updates_object, Hempty.
Qed.

Lemma put_profile_sends_stamped_updates {W : Type} (exec : call → W → outcome * W)
    (req : request) (b : gmap string value) (w w1 w2 : W) (t : string)
    (gr now : value) :
  body req = VObj b →
  getBearerToken req = Some t → t ≠ "" →
  exec (AuthGetUser (VStr t)) w = (Resolved gr, w1) →
  truthy (get gr "error") = false →
  truthy (token_user gr) = true →
  allowed_updates b ≠ ∅ →
  exec DateNowISO w1 = (Resolved now, w2) →
  ∃ (o : outcome) (tr : trace),
    (run exec (auth_put_profile req) w).2 =
      (AuthGetUser (VStr t), Resolved gr)
      :: (DateNowISO, Resolved now)
      :: (ProfilesUpdate (VObj (stamped_updates now b)) (get (token_user gr) "id"), o)
      :: tr.
Proof.
  unfold token_user. intros Hbody Ht Hne Hg Herr Hu Hnonempty Hnow.
  unfold auth_put_profile.
  rewrite (run_with_user_ok _ req _ _ w t gr w1) by done.
  rewrite Hbody, collect_updates_object. cbn [bind].
  assert ((size (allowed_updates b) =? 0)%nat = false) as ->.
  { apply Nat.eqb_neq. by rewrite map_size_empty_iff. }
  step. rewrite Hnow. step.
  fold (stamped_updates now b).
  destruct (exec (ProfilesUpdate _ _) w2) as [o w3].
  match goal with |- context [run exec ?p w3] => destruct (run exec p w3) as [[r w4] tr] end.
  by exists o, tr.
Qed.

Lemma allowed_updates_empty (b : gmap string value) :
  b !! "username" = None → b !! "full_name" = None →
  b !! "avatar_url" = None → b !! "role" = None →
  allowed_updates b = ∅.
Proof.
  intros H1 H2 H3 H4. apply map_empty. intros k.
  apply map_lookup_filter_None.
  destruct (decide (k ∈ allowed)) as [Hin|Hnin]; [left|right; by intros v _].
  unfold allowed in Hin.
  repeat (apply elem_of_cons in Hin as [->|Hin]; [done|]).
  by apply elem_of_nil in Hin.
Qed.

Lemma allowed_updates_nonempty (b : gmap string value) :
  is_Some (b !! "username") ∨ is_Some (b !! "full_name") ∨
  is_Some (b !! "avatar_url") ∨ is_Some (b !! "role") →
  allowed_updates b ≠ ∅.
Proof.
  intros Hsome Hempty.
  assert (∀ k, k ∈ allowed → b !! k = None) as Hnone.
  { intros k Hk. rewrite <- (stamped_updates_allowed VNull b k Hk).
    unfold stamped_updates. rewrite Hempty.
    rewrite lookup_insert_ne; [done|]. intros <-. by apply updated_at_not_allowed. }
  destruct Hsome as [[v Hv]|[[v Hv]|[[v Hv]|[v Hv]]]];
    rewrite Hnone in Hv; try done; unfold allowed; set_solver.
Qed.

Lemma outside_allow_list_protected col :
  col ∉ ["username"; "full_name"; "avatar_url"; "role"; "updated_at"] →
  protected_column col.
Proof. intros Hcol. split; [unfold allowed|]; set_solver. Qed.

(** C3, as the code has it, on the reference store, for a request whose
    bearer token the store resolves to a user.  A body that is neither
    an object nor an array (no parsed body, for one) makes [k in
    req.body] throw: 500, the store as it was.  An array, or an object
    with none of [username], [full_name], [avatar_url], [role]: 400 and
    the store as it was.  Otherwise the handler reads the clock and
    sends one update [u]: [u] has the four fields as the body has them,
    [updated_at] set to the time read, and no other key, so every other
    field of the body is dropped.  In the store no identity and no
    session changes, no row is added or removed, no column outside the
    four fields and [updated_at] changes in any row, the rows of other
    users stay as they are, and when the answer is 200 the rows of the
    user have the time read in [updated_at] and, in each of the four
    fields, the value of the body when the body has the field and
    their former value when it has not. *)
Theorem update_profile_changes_allowed_columns_only
    (accepts : gmap string value → bool) (req : request)
    (st st1 : MemStore.store) (t : string) (gr : value) :
  getBearerToken req = Some t → t ≠ "" →
  MemStore.exec accepts (AuthGetUser (VStr t)) st = (Resolved gr, st1) →
  truthy (get gr "error") = false →
  truthy (token_user gr) = true →
  ((∀ b, body req ≠ VObj b) → (∀ l, body req ≠ VArr l) →
   run (MemStore.exec accepts) (auth_put_profile req) st =
     (Returned (Response 500 (VObj {[ "error" := VStr "internal server error" ]})),
      st, [(AuthGetUser (VStr t), Resolved gr)])) ∧
  ((∃ l, body req = VArr l) ∨
   (∃ b, body req = VObj b ∧ b !! "username" = None ∧ b !! "full_name" = None ∧
         b !! "avatar_url" = None ∧ b !! "role" = None) →
   run (MemStore.exec accepts) (auth_put_profile req) st =
     (Returned (Response 400 (VObj {[ "error" := VStr "no updatable fields provided" ]})),
      st, [(AuthGetUser (VStr t), Resolved gr)])) ∧
  (∀ b : gmap string value,
     body req = VObj b →
     is_Some (b !! "username") ∨ is_Some (b !! "full_name") ∨
     is_Some (b !! "avatar_url") ∨ is_Some (b !! "role") →
     ∃ (r : response) (st' : MemStore.store) (u : gmap string value)
       (o : outcome) (tr : trace),
       run (MemStore.exec accepts) (auth_put_profile req) st =
         (Returned r, st',
          (AuthGetUser (VStr t), Resolved gr)
          :: (DateNowISO, Resolved (VStr (MemStore.iso (MemStore.clock st))))
          :: (ProfilesUpdate (VObj u) (get (token_user gr) "id"), o)
          :: tr) ∧
       Forall (λ co, co.1 = ProfilesSelectSingle (get (token_user gr) "id")) tr ∧
       u !! "username" = b !! "username" ∧
       u !! "full_name" = b !! "full_name" ∧
       u !! "avatar_url" = b !! "avatar_url" ∧
       u !! "role" = b !! "role" ∧
       u !! "updated_at" = Some (VStr (MemStore.iso (MemStore.clock st))) ∧
       (∀ col, col ∉ ["username"; "full_name"; "avatar_url"; "role"; "updated_at"] →
               u !! col = None) ∧
       MemStore.identities st' = MemStore.identities st ∧
       MemStore.sessions st' = MemStore.sessions st ∧
       Forall2 (λ row row' : gmap string value,
                  (∀ col,
                     col ∉ ["username"; "full_name"; "avatar_url"; "role"; "updated_at"] →
                     row' !! col = row !! col) ∧
                  (MemStore.has_id (get (token_user gr) "id") row = false → row' = row) ∧
                  (status r ≠ 200 → row' = row) ∧
                  (status r = 200 →
                   MemStore.has_id (get (token_user gr) "id") row = true →
                   row' !! "updated_at" = Some (VStr (MemStore.iso (MemStore.clock st))) ∧
                   ∀ col, col ∈ ["username"; "full_name"; "avatar_url"; "role"] →
                          row' !! col = match b !! col with
                                        | Some v => Some v
                                        | None => row !! col
                                        end))
               (MemStore.profiles st) (MemStore.profiles st')).
Proof.
  unfold token_user.
  intros Ht Hne Hg Herr Hu.
  pose proof (MemStore_get_user_pure _ _ _ _ _ Hg) as ->.
  split; [|split].
  - intros Hobj Harr. unfold auth_put_profile.
    rewrite (run_with_user_ok _ req _ _ st t gr st) by done.
    rewrite collect_updates_primitive; [done|].
    destruct (body req) as [| | | | |l|b]; try done.
    + by destruct (Harr l).
    + by destruct (Hobj b).
  - intros Hbody. unfold auth_put_profile.
    rewrite (run_with_user_ok _ req _ _ st t gr st) by done.
    destruct Hbody as [[l ->] | (b & -> & H1 & H2 & H3 & H4)].
    + by rewrite collect_updates_array.
    + by rewrite collect_updates_object, (allowed_updates_empty b H1 H2 H3 H4).
  - intros b Hbody Hsome. apply allowed_updates_nonempty in Hsome.
    unfold auth_put_profile.
    rewrite (run_with_user_ok _ req _ _ st t gr st) by done.
    rewrite Hbody, collect_updates_object.
    cbn [bind].
    assert ((size (allowed_updates b) =? 0)%nat = false) as ->.
    { apply Nat.eqb_neq. by rewrite map_size_empty_iff. }
    step. fold (stamped_updates (VStr (MemStore.iso (MemStore.clock st))) b).
    set (uid := get (get_opt (get gr "data") "user") "id").
    set (sent := stamped_updates (VStr (MemStore.iso (MemStore.clock st))) b).
    assert (∀ col, col ∈ ["username"; "full_name"; "avatar_url"; "role"] →
                   sent !! col = b !! col) as Hsent.
    { intros col Hcol. by apply stamped_updates_allowed. }
    assert (sent !! "updated_at" = Some (VStr (MemStore.iso (MemStore.clock st))))
      as Hstamp by apply lookup_insert_eq.
    assert (∀ col, col ∉ ["username"; "full_name"; "avatar_url"; "role"; "updated_at"] →
                   sent !! col = None) as Hdropped.
    { intros col Hcol. by apply stamped_updates_protected, outside_allow_list_protected. }
    destruct (forallb accepts (MemStore.apply_update uid sent <$> MemStore.profiles st)).
    + step. rewrite answer_ok_no_error. step.
      match goal with
      | |- context [MemStore.select_single uid ?s] =>
          destruct (MemStore_select_single_answer uid s) as (pr & -> & Hpr)
      end.
      step. prop_step pr. step.
      exists (Response 200 (VObj {[ "profile" := get pr "data" ]})).
      eexists. exists sent. do 2 eexists. split; [reflexivity|].
      cbn [MemStore.profiles MemStore.identities MemStore.sessions].
      split; [by repeat constructor|].
      do 4 (split; [apply Hsent; set_solver|]).
      split; [done|]. split; [done|]. split; [done|]. split; [done|].
      apply Forall2_fmap_r, Forall_Forall2_diag, Forall_forall. intros row _.
      unfold compose. split; [|split; [|split]].
      * intros col Hcol. apply apply_update_protected. by apply Hdropped.
      * intros Hid. unfold MemStore.apply_update. by rewrite Hid.
      * intros Hst. by destruct Hst.
      * intros _ Hid. unfold MemStore.apply_update. rewrite Hid. split.
        -- by apply lookup_union_Some_l.
        -- intros col Hcol. rewrite lookup_union, (Hsent col Hcol).
           by destruct (b !! col), (row !! col).
    + step. rewrite answer_error_error, error_message_ok by done. step.
      eexists. eexists. exists sent. do 2 eexists. split; [reflexivity|].
      cbn [MemStore.profiles MemStore.identities MemStore.sessions].
      split; [by constructor|].
      do 4 (split; [apply Hsent; set_solver|]).
      split; [done|]. split; [done|]. split; [done|]. split; [done|].
      apply Forall_Forall2_diag, Forall_forall. intros row _.
      split; [done|]. split; [done|]. split; [done|].
      intros Hst. discriminate Hst.
Qed.

(** What a 200 answer of the update handler says about the run on the
    reference store: the token resolved to a user, the body is an object
    with an allow-listed field, and the store applied the stamped
    update to the rows of that user. *)
Lemma put_profile_success_inv accepts req st r st' tr :
  run (MemStore.exec accepts) (auth_put_profile req) st = (Returned r, st', tr) →
  status r = 200 →
  ∃ (b : gmap string value) (t : string) (gr : value),
    body req = VObj b ∧
    getBearerToken req = Some t ∧
    MemStore.get_user (VStr t) st = (Resolved gr, st) ∧
    MemStore.profiles st' =
      MemStore.apply_update (get (token_user gr) "id")
        (stamped_updates (VStr (MemStore.iso (MemStore.clock st))) b)
      <$> MemStore.profiles st ∧
    MemStore.identities st' = MemStore.identities st ∧
    MemStore.sessions st' = MemStore.sessions st.
Proof.
  unfold auth_put_profile, with_user, token_user.
  destruct (getBearerToken req) as [t|]; [|by intros [= <- _ _]].
  destruct (truthy (VStr t)) eqn:Htok; [|by intros [= <- _ _]].
  step.
  assert (∃ gr, MemStore.get_user (VStr t) st = (Resolved gr, st) ∧ nullish gr = false)
    as (gr & Hg & Hgr).
  { unfold MemStore.get_user. destruct (MemStore.sessions st !! t); [|eauto].
    destruct (find _ _); eauto. }
  rewrite Hg. step. prop_step gr. step.
  destruct (truthy (get gr "error")) eqn:Herr.
  { rewrite error_message_ok by done. by intros [= <- _ _]. }
  destruct (truthy (get_opt (get gr "data") "user")) eqn:Hu; [|by intros [= <- _ _]].
  step.
  destruct (body req) as [| | | | |l|b] eqn:Hbody.
  1-5: by rewrite collect_updates_primitive by done; intros [= <- _ _].
  { rewrite collect_updates_array. by intros [= <- _ _]. }
  rewrite collect_updates_object. step.
  destruct (size (allowed_updates b) =? 0)%nat; [by intros [= <- _ _]|].
  step.
  fold (stamped_updates (VStr (MemStore.iso (MemStore.clock st))) b).
  set (uid := get (get_opt (get gr "data") "user") "id").
  set (sent := stamped_updates (VStr (MemStore.iso (MemStore.clock st))) b).
  destruct (forallb accepts (MemStore.apply_update uid sent <$> MemStore.profiles st)).
  - step. rewrite answer_ok_no_error. step.
    match goal with
    | |- context [MemStore.select_single uid ?s] =>
        destruct (MemStore_select_single_answer uid s) as (pr & -> & Hpr)
    end.
    step. prop_step pr. step.
    intros [= <- <- _] _. exists b, t, gr. by repeat split.
  - step. rewrite answer_error_error, error_message_ok by done.
    by intros [= <- _ _].
Qed.

Lemma MemStore_get_user_agrees token st st1 :
  MemStore.identities st1 = MemStore.identities st →
  MemStore.sessions st1 = MemStore.sessions st →
  (MemStore.get_user token st1).1 = (MemStore.get_user token st).1.
Proof.
  intros Hi Hs. unfold MemStore.get_user. rewrite Hi, Hs.
  destruct token; try done.
  destruct (MemStore.sessions st !! s); [|done].
  by destruct (find _ _).
Qed.

Lemma has_id_apply_update id id' u row :
  u !! "id" = None →
  MemStore.has_id id (MemStore.apply_update id' u row) = MemStore.has_id id row.
Proof.
  intros Hu. unfold MemStore.has_id.
  by rewrite apply_update_protected.
Qed.

(** C8 on the reference store: when the same update-profile request is
    answered 200 twice in a row, the rows stored after the second call
    agree with the rows stored after the first on every column except
    [updated_at]. *)
Theorem update_profile_twice_same_fields
    (accepts : gmap string value → bool) (req : request)
    (st st1 st2 : MemStore.store) (r1 r2 : response) (tr1 tr2 : trace) :
  run (MemStore.exec accepts) (auth_put_profile req) st = (Returned r1, st1, tr1) →
  status r1 = 200 →
  run (MemStore.exec accepts) (auth_put_profile req) st1 = (Returned r2, st2, tr2) →
  status r2 = 200 →
  Forall2 (λ row1 row2 : gmap string value,
             ∀ col, col ≠ "updated_at" → row2 !! col = row1 !! col)
          (MemStore.profiles st1) (MemStore.profiles st2).
Proof.
  intros Hrun1 Hok1 Hrun2 Hok2.
  destruct (put_profile_success_inv _ _ _ _ _ _ Hrun1 Hok1)
    as (b & t & gr & Hbody & Ht & Hg & Hp1 & Hi1 & Hs1).
  destruct (put_profile_success_inv _ _ _ _ _ _ Hrun2 Hok2)
    as (b' & t' & gr' & Hbody' & Ht' & Hg' & Hp2 & _ & _).
  rewrite Hbody in Hbody'. injection Hbody' as <-.
  rewrite Ht in Ht'. injection Ht' as <-.
  pose proof (MemStore_get_user_agrees (VStr t) st st1 Hi1 Hs1) as Hsame.
  rewrite Hg, Hg' in Hsame. cbn in Hsame. injection Hsame as ->.
  rewrite Hp2, Hp1. rewrite <- list_fmap_compose.
  apply Forall2_fmap, Forall_Forall2_diag, Forall_forall. intros row _ col Hcol.
  cbn.
  set (uid := get (token_user gr) "id").
  set (u1 := stamped_updates (VStr (MemStore.iso (MemStore.clock st))) b).
  set (u2 := stamped_updates (VStr (MemStore.iso (MemStore.clock st1))) b).
  assert (u2 !! col = u1 !! col) as Hagree
    by (unfold u1, u2, stamped_updates; by rewrite !lookup_insert_ne).
  unfold MemStore.apply_update at 1.
  rewrite has_id_apply_update
    by (apply stamped_updates_protected; split; [unfold allowed; set_solver|done]).
  unfold MemStore.apply_update.
  destruct (MemStore.has_id uid row); [|done].
  rewrite !lookup_union, Hagree.
  by destruct (u1 !! col), (row !! col).
Qed.

Lemma alice_update_not_empty : allowed_updates alice_update_body ≠ ∅.
Proof.
  intros Heq. apply (f_equal (λ m : gmap string value, m !! "full_name")) in Heq.
  vm_compute in Heq. discriminate Heq.
Qed.

Lemma update_profile_changes_allowed_columns_only_witness :
  ∃ (r : response) (st' : MemStore.store) (u : gmap string value)
    (o : outcome) (tr : trace),
    run (MemStore.exec (λ _, true)) (auth_put_profile alice_update) alice_store =
      (Returned r, st',
       (AuthGetUser (VStr "token-1"), Resolved alice_resolved)
       :: (DateNowISO, Resolved (VStr (MemStore.iso (MemStore.clock alice_store))))
       :: (ProfilesUpdate (VObj u) (get (token_user alice_resolved) "id"), o)
       :: tr) ∧
    Forall (λ co, co.1 = ProfilesSelectSingle (get (token_user alice_resolved) "id")) tr ∧
    u !! "username" = alice_update_body !! "username" ∧
    u !! "full_name" = alice_update_body !! "full_name" ∧
    u !! "avatar_url" = alice_update_body !! "avatar_url" ∧
    u !! "role" = alice_update_body !! "role" ∧
    u !! "updated_at" = Some (VStr (MemStore.iso (MemStore.clock alice_store))) ∧
    (∀ col, col ∉ ["username"; "full_name"; "avatar_url"; "role"; "updated_at"] →
            u !! col = None) ∧
    MemStore.identities st' = MemStore.identities alice_store ∧
    MemStore.sessions st' = MemStore.sessions alice_store ∧
    Forall2 (λ row row' : gmap string value,
               (∀ col,
                  col ∉ ["username"; "full_name"; "avatar_url"; "role"; "updated_at"] →
                  row' !! col = row !! col) ∧
               (MemStore.has_id (get (token_user alice_resolved) "id") row = false →
                row' = row) ∧
               (status r ≠ 200 → row' = row) ∧
               (status r = 200 →
                MemStore.has_id (get (token_user alice_resolved) "id") row = true →
                row' !! "updated_at"
                  = Some (VStr (MemStore.iso (MemStore.clock alice_store))) ∧
                ∀ col, col ∈ ["username"; "full_name"; "avatar_url"; "role"] →
                       row' !! col = match alice_update_body !! col with
                                     | Some v => Some v
                                     | None => row !! col
                                     end))
            (MemStore.profiles alice_store) (MemStore.profiles st').
Proof.
  destruct (update_profile_changes_allowed_columns_only
              (λ _, true) alice_update alice_store alice_store
              "token-1" alice_resolved
              eq_refl ltac:(discriminate) eq_refl eq_refl eq_refl) as (_ & _ & H).
  apply (H alice_update_body eq_refl).
  right. left. by eexists.
Defined.

(** C3 as stated fails here: the token is valid and the request has no
    allow-listed field (it has no parsed body at all), so the claim
    promises 400; [k in req.body] throws and the answer is 500. *)
Lemma update_profile_without_body :
  getBearerToken alice_read = Some "token-1" ∧
  MemStore.exec (λ _, true) (AuthGetUser (VStr "token-1")) alice_store
    = (Resolved alice_resolved, alice_store) ∧
  truthy (token_user alice_resolved) = true ∧
  body alice_read = VUndef ∧
  run (MemStore.exec (λ _, true)) (auth_put_profile alice_read) alice_store =
    (Returned (Response 500 (VObj {[ "error" := VStr "internal server error" ]})),
     alice_store, [(AuthGetUser (VStr "token-1"), Resolved alice_resolved)]).
Proof. repeat split; reflexivity. Qed.

Lemma update_profile_twice_same_fields_witness :
  Forall2 (λ row1 row2 : gmap string value,
             ∀ col, col ≠ "updated_at" → row2 !! col = row1 !! col)
          (MemStore.profiles (alice_store_updated 0))
          (MemStore.profiles (alice_store_updated 1)).
Proof.
  eapply (update_profile_twice_same_fields (λ _, true) alice_update
            alice_store (alice_store_updated 0) (alice_store_updated 1)).
  - reflexivity.
  - reflexivity.
  - reflexivity.
  - reflexivity.
Defined.

(** The two runs differ on [updated_at]. *)
Example update_profile_twice_restamps :
  alice_store_updated 0 ≠ alice_store_updated 1 ∧
  (run (MemStore.exec (λ _, true)) (auth_put_profile alice_update) alice_store).1.2
    = alice_store_updated 0 ∧
  (run (MemStore.exec (λ _, true)) (auth_put_profile alice_update)
       (alice_store_updated 0)).1.2
    = alice_store_updated 1.
Proof. split; [discriminate|]. split; reflexivity. Qed.

(** ** The flow of the spec, end to end, on the reference store *)

(** Signup of alice, then login, then a read and an update with the
    token of the login. *)
Example signup_login_read_update :
  status <$> answered e2e_signup = Some 201 ∧
  (λ r, get (get (payload r) "profile") "username") <$> answered e2e_signup
    = Some (VStr "alice") ∧
  status <$> answered e2e_login = Some 200 ∧
  (λ r, get (get (payload r) "profile") "id") <$> answered e2e_login
    = (λ r, get (get (payload r) "user") "id") <$> answered e2e_signup ∧
  (λ r, get (get (payload r) "session") "access_token") <$> answered e2e_login
    = Some (VStr "token-2") ∧
  status <$> answered e2e_read = Some 200 ∧
  (λ r, get (payload r) "profile") <$> answered e2e_read
    = (λ r, get (payload r) "profile") <$> answered e2e_login ∧
  status <$> answered e2e_update = Some 200 ∧
  (λ r, get (get (payload r) "profile") "full_name") <$> answered e2e_update
    = Some (VStr "Alice A") ∧
  (λ r, get (get (payload r) "profile") "updated_at") <$> answered e2e_read
    = Some VUndef ∧
  (λ r, get (get (payload r) "profile") "updated_at") <$> answered e2e_update
    = Some (VStr (MemStore.iso 0)).
Proof. repeat split; vm_compute; reflexivity. Qed.

(* ================================================================== *)
(** * Further properties of the handlers *)
(* ================================================================== *)

(** ** Program trees and runs *)

Section Trees.
Context {W : Type} (exec : call → W → outcome * W).

Lemma run_calls_within {A} (P : call → Prop) (p : prog A) (w : W) :
  calls_within P p → Forall (λ co, P co.1) (run exec p w).2.
Proof.
  revert w. induction p as [a|e|c k IH]; intros w Hp; cbn; [constructor..|].
  destruct Hp as [Hc Hk]. destruct (exec c w) as [o w1].
  specialize (IH o w1 (Hk o)).
  destruct (run exec (k o) w1) as [[r w2] t]. by constructor.
Qed.

Lemma run_answers_within {A} (P : A → Prop) (p : prog A) (w : W) :
  answers_within P p → ∃ a, (run exec p w).1.1 = Returned a ∧ P a.
Proof.
  revert w. induction p as [a|e|c k IH]; intros w Hp; cbn; [eauto|done|].
  destruct (exec c w) as [o w1].
  destruct (IH o w1 (Hp o)) as (a & Ha & HP).
  destruct (run exec (k o) w1) as [[r w2] t]. eauto.
Qed.

Lemma run_rejections_answered {A} (ignored : call → Prop) (r0 : A) (p : prog A)
    (w : W) (c : call) (e : value) :
  rejections_answered ignored r0 p →
  (c, Rejected e) ∈ (run exec p w).2 →
  ¬ ignored c →
  (run exec p w).1.1 = Returned r0.
Proof.
  revert w. induction p as [a|e'|c' k IH]; intros w Hp Hin Hc; cbn in *.
  - by apply elem_of_nil in Hin.
  - by apply elem_of_nil in Hin.
  - destruct Hp as [Hhere Hk]. destruct (exec c' w) as [o w1] eqn:Hex.
    specialize (IH o w1 (Hk o)).
    destruct (run exec (k o) w1) as [[r w2] t] eqn:Hrun. cbn in *.
    apply elem_of_cons in Hin as [[= <- <-]|Hin].
    + destruct Hhere as [Hign|Hret]; [done|].
      rewrite Hret in Hrun. by injection Hrun as <- _ _.
    + by apply IH.
Qed.

Lemma run_first_call_then {A}
    (P0 : call → Prop) (Q : outcome → call → Prop) (p : prog A) (w : W)
    (c0 : call) (o0 : outcome) (rest : trace) :
  first_call_then P0 Q p →
  (run exec p w).2 = (c0, o0) :: rest →
  P0 c0 ∧ Forall (λ co, Q o0 co.1) rest.
Proof.
  destruct p as [a|e|c k]; cbn; [done..|].
  intros [Hc Hk]. destruct (exec c w) as [o w1].
  pose proof (run_calls_within (Q o) (k o) w1 (Hk o)) as Hrest.
  destruct (run exec (k o) w1) as [[r w2] t]. cbn in *.
  by intros [= <- <- <-].
Qed.
End Trees.

Lemma collect_updates_no_call b ks u :
  (∃ u', collect_updates b ks u = Ret u') ∨ collect_updates b ks u = Throw TypeError.
Proof.
  revert u. induction ks as [|k ks IH]; intros u; [left; eauto|].
  destruct b; try by right.
  - apply IH.
  - apply IH.
Qed.

(** Walks a handler's tree: every branch of every test, every outcome
    of every call. *)
Ltac walk :=
  repeat first
    [ exact I
    | reflexivity
    | progress unfold prop, error_message, await, await_ignoring, json
    | progress cbn [calls_within answers_within rejections_answered try_catch bind]
    | match goal with
      | |- _ ∧ _ => split
      | |- is_delete _ ∨ _ => first [left; exact I | right; intro; reflexivity]
      | |- ∀ _, _ => intro
      | |- context [match ?o with Resolved _ => _ | Rejected _ => _ end] => destruct o
      | |- context [if ?b then _ else _] => destruct b
      | |- context [match getBearerToken ?r with _ => _ end] => destruct (getBearerToken r)
      end ].

Ltac walk_put_profile req :=
  unfold auth_put_profile, with_user; walk;
  try (destruct (collect_updates_no_call (body req) allowed ∅) as [[? ->]| ->]; walk).

Ltac shape :=
  unfold answer_shape, internal_error, missing_token; cbn [status payload];
  first [ by left | right; split; [set_solver | by eexists] ].

(** ** What every handler of server.js does *)

(** X2: whatever the request and whatever the store does, each of the
    four handlers ends with a response; signup answers 201, login and
    the two profile handlers 200, or else one of the listed error
    statuses with a body [{ error: ... }]. *)
Theorem server_handlers_answer_shapes {W : Type} (exec : call → W → outcome * W)
    (req : request) (w : W) :
  (∃ r, (run exec (auth_signup req) w).1.1 = Returned r ∧ answer_shape 201 [400; 500] r) ∧
  (∃ r, (run exec (auth_login req) w).1.1 = Returned r ∧
        answer_shape 200 [400; 401; 500] r) ∧
  (∃ r, (run exec (auth_get_profile req) w).1.1 = Returned r ∧
        answer_shape 200 [401; 404; 500] r) ∧
  (∃ r, (run exec (auth_put_profile req) w).1.1 = Returned r ∧
        answer_shape 200 [400; 401; 500] r).
Proof.
  repeat split; apply run_answers_within.
  - unfold auth_signup. walk; shape.
  - unfold auth_login. walk; shape.
  - unfold auth_get_profile, with_user. walk; shape.
  - walk_put_profile req; shape.
Qed.

(** X3: in the four handlers a rejected call, other than the
    compensating [deleteUser], always gives the answer 500
    [{ error: 'internal server error' }]: the reason of the rejection
    is not sent to the client. *)
Theorem server_handlers_rejections_are_500 {W : Type} (exec : call → W → outcome * W)
    (req : request) (w : W) (c : call) (e : value) :
  ¬ is_delete c →
  ((c, Rejected e) ∈ (run exec (auth_signup req) w).2 →
   (run exec (auth_signup req) w).1.1 =
     Returned (Response 500 (VObj {[ "error" := VStr "internal server error" ]}))) ∧
  ((c, Rejected e) ∈ (run exec (auth_login req) w).2 →
   (run exec (auth_login req) w).1.1 =
     Returned (Response 500 (VObj {[ "error" := VStr "internal server error" ]}))) ∧
  ((c, Rejected e) ∈ (run exec (auth_get_profile req) w).2 →
   (run exec (auth_get_profile req) w).1.1 =
     Returned (Response 500 (VObj {[ "error" := VStr "internal server error" ]}))) ∧
  ((c, Rejected e) ∈ (run exec (auth_put_profile req) w).2 →
   (run exec (auth_put_profile req) w).1.1 =
     Returned (Response 500 (VObj {[ "error" := VStr "internal server error" ]}))).
Proof.
  intros Hc.
  change (Response 500 (VObj {[ "error" := VStr "internal server error" ]}))
    with internal_error.
  repeat split; intros Hin;
    eapply (run_rejections_answered exec is_delete); try eassumption.
  - unfold auth_signup. walk.
  - unfold auth_login. walk.
  - unfold auth_get_profile, with_user. walk.
  - walk_put_profile req.
Qed.

Lemma server_handlers_rejections_are_500_witness :
  (run Replay.exec (auth_login alice_login) [Rejected (VStr "fetch failed")]).1.1
    = Returned (Response 500 (VObj {[ "error" := VStr "internal server error" ]})).
Proof.
  destruct (server_handlers_rejections_are_500 Replay.exec alice_login
              [Rejected (VStr "fetch failed")] (sign_in_call alice_login)
              (VStr "fetch failed")) as (_ & H & _).
  - intros [].
  - apply H. vm_compute. apply list_elem_of_here.
Defined.

(** X4: the calls each handler can make.  Login and get-profile only
    read; update-profile writes with [update] alone; signup never
    updates; none of the four queries the [users] table or calls
    [bcrypt] or [jwt]. *)
Theorem server_handlers_calls {W : Type} (exec : call → W → outcome * W)
    (req : request) (w : W) :
  Forall (λ co, signup_call co.1) (run exec (auth_signup req) w).2 ∧
  Forall (λ co, login_call co.1) (run exec (auth_login req) w).2 ∧
  Forall (λ co, get_profile_call co.1) (run exec (auth_get_profile req) w).2 ∧
  Forall (λ co, put_profile_call co.1) (run exec (auth_put_profile req) w).2.
Proof.
  repeat split; apply run_calls_within.
  - unfold auth_signup. walk.
  - unfold auth_login. walk.
  - unfold auth_get_profile, with_user. walk.
  - walk_put_profile req.
Qed.

(** X9: the first call of a signup is [createUser], and every insert
    that follows it carries exactly one row: its [id] is the id of the
    user that [createUser] answered with, [username] is the
    [username] of the body, [full_name] and [avatar_url] are those of
    the body or [null], and [role] is ['user'].  The row has no other
    column: a [role], a [password] or an [id] in the body never reaches
    the table. *)
Theorem signup_inserts_user_role_only {W : Type} (exec : call → W → outcome * W)
    (req : request) (w : W) (c0 : call) (o0 : outcome) (rest : trace) :
  (run exec (auth_signup req) w).2 = (c0, o0) :: rest →
  is_create c0 ∧ Forall (λ co, signup_row req o0 co.1) rest.
Proof.
  apply run_first_call_then.
  unfold auth_signup, prop. destruct (nullish (body req)); [exact I|].
  cbn [bind]. destruct (negb _ || _ || _); [exact I|].
  unfold await at 1. cbn [bind try_catch first_call_then]. split; [exact I|].
  intros o. walk.
  eexists. split; reflexivity.
Qed.

Lemma signup_inserts_user_role_only_witness :
  is_create (signup_create alice_signup) ∧
  Forall (λ co, signup_row alice_signup (Resolved alice_created) co.1)
         [ (signup_insert alice_signup (get (get alice_created "user") "id"),
            Resolved insert_refused);
           (AdminDeleteUser (get (get alice_created "user") "id"),
            Rejected (VStr "fetch failed")) ].
Proof.
  apply (signup_inserts_user_role_only Replay.exec alice_signup
           [Resolved alice_created; Resolved insert_refused;
            Rejected (VStr "fetch failed")]).
  reflexivity.
Defined.

(** ** Signup: the paths beside success and rollback *)

(** X5: a signup whose body lacks [email], [password] or [username]
    (absent, empty, or otherwise falsy) is answered 400 before any call
    is made. *)
Theorem signup_missing_field_is_400 {W : Type} (exec : call → W → outcome * W)
    (req : request) (w : W) :
  nullish (body req) = false →
  truthy (get (body req) "email") = false ∨
  truthy (get (body req) "password") = false ∨
  truthy (get (body req) "username") = false →
  run exec (auth_signup req) w =
    (Returned (Response 400
                 (error_body (VStr "email, password and username are required"))),
     w, []).
Proof.
  intros Hb Hmiss. unfold auth_signup. prop_step (body req). step.
  destruct Hmiss as [-> | [-> | ->]]; [done| |].
  - by rewrite orb_true_r.
  - by rewrite orb_true_r.
Qed.

Lemma signup_missing_field_is_400_witness :
  run Replay.exec
      (auth_signup (Request None (VObj {[ "email" := VStr "a@x.com";
                                          "password" := VStr "";
                                          "username" := VStr "alice" ]})))
      [] =
    (Returned (Response 400
                 (error_body (VStr "email, password and username are required"))),
     [], []).
Proof.
  apply (signup_missing_field_is_400 Replay.exec); [reflexivity|].
  right. left. reflexivity.
Defined.

(** X6: when [createUser] answers with an error (a duplicate email,
    say), signup answers 400 with the provider's message, or the error
    itself when it has none, and makes no further call: nothing is
    inserted and nobody is signed in. *)
Theorem signup_create_error_is_400 {W : Type} (exec : call → W → outcome * W)
    (req : request) (w0 w1 : W) (cr : value) :
  truthy (get (body req) "email") = true →
  truthy (get (body req) "password") = true →
  truthy (get (body req) "username") = true →
  exec (signup_create req) w0 = (Resolved cr, w1) →
  truthy (get cr "error") = true →
  run exec (auth_signup req) w0 =
    (Returned (Response 400
                 (error_body (js_or (get (get cr "error") "message") (get cr "error")))),
     w1, [(signup_create req, Resolved cr)]).
Proof.
  unfold signup_create. intros H1 H2 H3 Hc Hce.
  unfold auth_signup. prop_step (body req).
  step. rewrite H1, H2, H3. step. rewrite Hc. step.
  prop_step cr. step. rewrite Hce. by rewrite error_message_ok.
Qed.

Lemma signup_create_error_is_400_witness :
  run (MemStore.exec (λ _, true)) (auth_signup alice_signup) alice_store =
    (Returned (Response 400
                 (error_body (js_or (get (get email_taken "error") "message")
                                    (get email_taken "error")))),
     alice_store, [(signup_create alice_signup, Resolved email_taken)]).
Proof.
  apply (signup_create_error_is_400 (MemStore.exec (λ _, true)) alice_signup
           alice_store alice_store email_taken); reflexivity.
Defined.

(** X7: when the sign-in that follows a successful profile insert
    answers with an error, signup answers 400 with that error and stops
    there: no [deleteUser] is issued, so the identity and the profile
    just created stay in the store. *)
Theorem signup_sign_in_error_keeps_identity
    {W : Type} (exec : call → W → outcome * W) (req : request)
    (w0 w1 w2 w3 : W) (cr ir sr : value) :
  truthy (get (body req) "email") = true →
  truthy (get (body req) "password") = true →
  truthy (get (body req) "username") = true →
  exec (signup_create req) w0 = (Resolved cr, w1) →
  truthy (get cr "error") = false →
  nullish (get cr "user") = false →
  exec (signup_insert req (get (get cr "user") "id")) w1 = (Resolved ir, w2) →
  nullish ir = false →
  truthy (get ir "error") = false →
  exec (sign_in_call req) w2 = (Resolved sr, w3) →
  truthy (get sr "error") = true →
  run exec (auth_signup req) w0 =
    (Returned (Response 400
                 (error_body (js_or (get (get sr "error") "message") (get sr "error")))),
     w3,
     [ (signup_create req, Resolved cr);
       (signup_insert req (get (get cr "user") "id"), Resolved ir);
       (sign_in_call req, Resolved sr) ]).
Proof.
  unfold signup_create, signup_insert, sign_in_call.
  intros H1 H2 H3 Hc Hce Hu Hi Hir Hie Hs Hse.
  unfold auth_signup. prop_step (body req).
  step. rewrite H1, H2, H3. step. rewrite Hc. step.
  prop_step cr. step. rewrite Hce. rewrite (prop_ok _ _ Hu). step.
  rewrite Hi. step. prop_step ir. step. rewrite Hie. step.
  rewrite Hs. step. prop_step sr. step. rewrite Hse.
  by rewrite error_message_ok.
Qed.

Lemma signup_sign_in_error_keeps_identity_witness :
  run Replay.exec (auth_signup alice_signup)
      [Resolved alice_created; Resolved (answer_ok VNull);
       Resolved (answer_error "Email not confirmed")] =
    (Returned (Response 400
                 (error_body
                    (js_or (get (get (answer_error "Email not confirmed") "error") "message")
                           (get (answer_error "Email not confirmed") "error")))),
     [],
     [ (signup_create alice_signup, Resolved alice_created);
       (signup_insert alice_signup (get (get alice_created "user") "id"),
        Resolved (answer_ok VNull));
       (sign_in_call alice_signup, Resolved (answer_error "Email not confirmed")) ]).
Proof.
  apply (signup_sign_in_error_keeps_identity Replay.exec alice_signup
           [Resolved alice_created; Resolved (answer_ok VNull);
            Resolved (answer_error "Email not confirmed")]
           [Resolved (answer_ok VNull); Resolved (answer_error "Email not confirmed")]
           [Resolved (answer_error "Email not confirmed")] []
           alice_created (answer_ok VNull) (answer_error "Email not confirmed"));
    reflexivity.
Defined.

(** X8: the handler reads the new user at the top level of the
    [createUser] answer ([createResp.user]).  When the answer has no
    error but no [user] field there, [user.id] throws: signup answers
    500 [{ error: 'internal server error' }] and makes no further call,
    although the identity may have been created. *)
Theorem signup_create_without_user_is_500
    {W : Type} (exec : call → W → outcome * W) (req : request)
    (w0 w1 : W) (cr : value) :
  truthy (get (body req) "email") = true →
  truthy (get (body req) "password") = true →
  truthy (get (body req) "username") = true →
  exec (signup_create req) w0 = (Resolved cr, w1) →
  nullish cr = false →
  truthy (get cr "error") = false →
  nullish (get cr "user") = true →
  run exec (auth_signup req) w0 =
    (Returned (Response 500 (VObj {[ "error" := VStr "internal server error" ]})),
     w1, [(signup_create req, Resolved cr)]).
Proof.
  unfold signup_create. intros H1 H2 H3 Hc Hcr Hce Hu.
  unfold auth_signup. prop_step (body req).
  step. rewrite H1, H2, H3. step. rewrite Hc. step.
  prop_step cr. step. rewrite Hce. unfold prop. by rewrite Hu.
Qed.

Lemma signup_create_without_user_is_500_witness :
  run Replay.exec (auth_signup alice_signup)
      [Resolved (answer_ok (VObj {[ "user" := get alice_created "user" ]}))] =
    (Returned (Response 500 (VObj {[ "error" := VStr "internal server error" ]})),
     [],
     [(signup_create alice_signup,
       Resolved (answer_ok (VObj {[ "user" := get alice_created "user" ]})))]).
Proof.
  apply (signup_create_without_user_is_500 Replay.exec alice_signup
           [Resolved (answer_ok (VObj {[ "user" := get alice_created "user" ]}))] []);
    reflexivity.
Defined.

(** X10: the answer of the final profile select is not checked.  When
    the first three calls succeed and the select comes back without a
    row, signup still answers 201, with [profile: null]. *)
Theorem signup_without_profile_data_is_201
    {W : Type} (exec : call → W → outcome * W) (req : request)
    (w0 w1 w2 w3 w4 : W) (cr ir sr pr : value) :
  truthy (get (body req) "email") = true →
  truthy (get (body req) "password") = true →
  truthy (get (body req) "username") = true →
  exec (signup_create req) w0 = (Resolved cr, w1) →
  truthy (get cr "error") = false →
  nullish (get cr "user") = false →
  exec (signup_insert req (get (get cr "user") "id")) w1 = (Resolved ir, w2) →
  nullish ir = false →
  truthy (get ir "error") = false →
  exec (sign_in_call req) w2 = (Resolved sr, w3) →
  nullish sr = false →
  truthy (get sr "error") = false →
  exec (ProfilesSelectSingle (get (get cr "user") "id")) w3 = (Resolved pr, w4) →
  nullish pr = false →
  truthy (get pr "data") = false →
  run exec (auth_signup req) w0 =
    (Returned (Response 201
                 (created_body (get cr "user")
                               (js_or (signed_in_session sr) VNull) VNull)),
     w4,
     [ (signup_create req, Resolved cr);
       (signup_insert req (get (get cr "user") "id"), Resolved ir);
       (sign_in_call req, Resolved sr);
       (ProfilesSelectSingle (get (get cr "user") "id"), Resolved pr) ]).
Proof.
  unfold signup_create, signup_insert, sign_in_call, signed_in_session.
  intros H1 H2 H3 Hc Hce Hu Hi Hir Hie Hs Hsr Hse Hp Hpr Hpd.
  unfold auth_signup. prop_step (body req).
  step. rewrite H1, H2, H3. step. rewrite Hc. step.
  prop_step cr. step. rewrite Hce. rewrite (prop_ok _ _ Hu). step.
  rewrite Hi. step. prop_step ir. step. rewrite Hie. step.
  rewrite Hs. step. prop_step sr. step. rewrite Hse. step.
  rewrite Hp. step. prop_step pr. step.
  unfold js_or at 2. by rewrite Hpd.
Qed.

Lemma signup_without_profile_data_is_201_witness :
  run Replay.exec (auth_signup alice_signup)
      [Resolved alice_created; Resolved (answer_ok VNull); Resolved alice_signed_in;
       Resolved (answer_error "no rows")] =
    (Returned (Response 201
                 (created_body (get alice_created "user")
                               (js_or (signed_in_session alice_signed_in) VNull) VNull)),
     [],
     [ (signup_create alice_signup, Resolved alice_created);
       (signup_insert alice_signup (get (get alice_created "user") "id"),
        Resolved (answer_ok VNull));
       (sign_in_call alice_signup, Resolved alice_signed_in);
       (ProfilesSelectSingle (get (get alice_created "user") "id"),
        Resolved (answer_error "no rows")) ]).
Proof.
  apply (signup_without_profile_data_is_201 Replay.exec alice_signup
           [Resolved alice_created; Resolved (answer_ok VNull); Resolved alice_signed_in;
            Resolved (answer_error "no rows")]
           [Resolved (answer_ok VNull); Resolved alice_signed_in;
            Resolved (answer_error "no rows")]
           [Resolved alice_signed_in; Resolved (answer_error "no rows")]
           [Resolved (answer_error "no rows")] []
           alice_created (answer_ok VNull) alice_signed_in (answer_error "no rows"));
    reflexivity.
Defined.

(** ** Login and the protected handlers *)

(** X11: login answers 200 only when the body had both credentials,
    the store's sign-in answered without an error and with a user that
    has an id, and the profile select on that id answered; the calls
    are these two, and the body of the answer is the [session] the
    store issued and the data of the select, or [null].  No session is
    sent on any other path. *)
Theorem login_200_means_signed_in {W : Type} (exec : call → W → outcome * W)
    (req : request) (w w' : W) (r : response) (tr : trace) :
  run exec (auth_login req) w = (Returned r, w', tr) →
  status r = 200 →
  truthy (get (body req) "email") = true ∧
  truthy (get (body req) "password") = true ∧
  ∃ (sr pr : value) (w1 : W),
    exec (sign_in_call req) w = (Resolved sr, w1) ∧
    truthy (get sr "error") = false ∧
    truthy (get (signed_in_user sr) "id") = true ∧
    exec (ProfilesSelectSingle (get (signed_in_user sr) "id")) w1 = (Resolved pr, w') ∧
    payload r = VObj {[ "session" := signed_in_session sr;
                        "profile" := js_or (get pr "data") VNull ]} ∧
    tr = [ (sign_in_call req, Resolved sr);
           (ProfilesSelectSingle (get (signed_in_user sr) "id"), Resolved pr) ].
Proof.
  unfold auth_login, sign_in_call, signed_in_user, signed_in_session, prop.
  destruct (nullish (body req)); [by intros [= <- _ _]|]. step.
  destruct (truthy (get (body req) "email")); [|by intros [= <- _ _]].
  destruct (truthy (get (body req) "password")); [|by intros [= <- _ _]].
  step.
  destruct (exec (SignInWithPassword _) w) as [[sr|e] w1]; [|by intros [= <- _ _]].
  step. destruct (nullish sr); [by intros [= <- _ _]|]. step.
  destruct (truthy (get sr "error")) eqn:Herr.
  { rewrite error_message_ok by done. by intros [= <- _ _]. }
  destruct (truthy (get_opt (get sr "data") "user")); [|by intros [= <- _ _]].
  destruct (truthy (get (get_opt (get sr "data") "user") "id")) eqn:Hid;
    [|by intros [= <- _ _]].
  step.
  destruct (exec (ProfilesSelectSingle _) w1) as [[pr|e] w2] eqn:Hp;
    [|by intros [= <- _ _]].
  step. destruct (nullish pr); [by intros [= <- _ _]|]. step.
  intros [= <- <- <-] _. repeat split. by exists sr, pr, w1.
Qed.

Lemma login_200_means_signed_in_witness :
  truthy (get (body alice_login) "email") = true ∧
  truthy (get (body alice_login) "password") = true ∧
  ∃ (sr pr : value) (w1 : list outcome),
    Replay.exec (sign_in_call alice_login)
                [Resolved alice_signed_in; Resolved alice_profile] = (Resolved sr, w1) ∧
    truthy (get sr "error") = false ∧
    truthy (get (signed_in_user sr) "id") = true ∧
    Replay.exec (ProfilesSelectSingle (get (signed_in_user sr) "id")) w1
      = (Resolved pr, []) ∧
    payload (Response 200
               (VObj {[ "session" := signed_in_session alice_signed_in;
                        "profile" := js_or (get alice_profile "data") VNull ]}))
      = VObj {[ "session" := signed_in_session sr;
                "profile" := js_or (get pr "data") VNull ]} ∧
    [ (sign_in_call alice_login, Resolved alice_signed_in);
      (ProfilesSelectSingle (get (signed_in_user alice_signed_in) "id"),
       Resolved alice_profile) ]
      = [ (sign_in_call alice_login, Resolved sr);
          (ProfilesSelectSingle (get (signed_in_user sr) "id"), Resolved pr) ].
Proof.
  apply (login_200_means_signed_in Replay.exec alice_login
           [Resolved alice_signed_in; Resolved alice_profile] []
           (Response 200
              (VObj {[ "session" := signed_in_session alice_signed_in;
                       "profile" := js_or (get alice_profile "data") VNull ]}))
           [ (sign_in_call alice_login, Resolved alice_signed_in);
             (ProfilesSelectSingle (get (signed_in_user alice_signed_in) "id"),
              Resolved alice_profile) ]);
    reflexivity.
Defined.

(** X12: when the store answers the update with an error, update-profile
    answers 400 with the provider's message and does not go on to fetch
    the profile. *)
Theorem put_profile_update_error_is_400 {W : Type} (exec : call → W → outcome * W)
    (req : request) (b : gmap string value) (w w1 w2 w3 : W) (t : string)
    (gr now ur : value) :
  body req = VObj b →
  getBearerToken req = Some t → t ≠ "" →
  exec (AuthGetUser (VStr t)) w = (Resolved gr, w1) →
  truthy (get gr "error") = false →
  truthy (token_user gr) = true →
  allowed_updates b ≠ ∅ →
  exec DateNowISO w1 = (Resolved now, w2) →
  exec (ProfilesUpdate (VObj (stamped_updates now b)) (get (token_user gr) "id")) w2
    = (Resolved ur, w3) →
  truthy (get ur "error") = true →
  run exec (auth_put_profile req) w =
    (Returned (Response 400
                 (error_body (js_or (get (get ur "error") "message") (get ur "error")))),
     w3,
     [ (AuthGetUser (VStr t), Resolved gr);
       (DateNowISO, Resolved now);
       (ProfilesUpdate (VObj (stamped_updates now b)) (get (token_user gr) "id"),
        Resolved ur) ]).
Proof.
  unfold token_user. intros Hbody Ht Hne Hg Herr Hu Hnonempty Hnow Hup Hue.
  unfold auth_put_profile.
  rewrite (run_with_user_ok _ req _ _ w t gr w1) by done.
  rewrite Hbody, collect_updates_object. cbn [bind].
  assert ((size (allowed_updates b) =? 0)%nat = false) as ->.
  { apply Nat.eqb_neq. by rewrite map_size_empty_iff. }
  step. rewrite Hnow. step.
  fold (stamped_updates now b). rewrite Hup. step.
  prop_step ur. step. rewrite Hue. by rewrite error_message_ok.
Qed.

Lemma put_profile_update_error_is_400_witness :
  run (MemStore.exec (λ _, false)) (auth_put_profile alice_update) alice_store =
    (Returned (Response 400
                 (error_body
                    (js_or (get (get (answer_error "update violates a constraint") "error")
                                "message")
                           (get (answer_error "update violates a constraint") "error")))),
     (MemStore.exec (λ _, false) DateNowISO alice_store).2,
     [ (AuthGetUser (VStr "token-1"), Resolved alice_resolved);
       (DateNowISO, Resolved (VStr (MemStore.iso 0)));
       (ProfilesUpdate (VObj (stamped_updates (VStr (MemStore.iso 0)) alice_update_body))
                       (get (token_user alice_resolved) "id"),
        Resolved (answer_error "update violates a constraint")) ]).
Proof.
  apply (put_profile_update_error_is_400 (MemStore.exec (λ _, false)) alice_update
           alice_update_body alice_store alice_store
           (MemStore.exec (λ _, false) DateNowISO alice_store).2
           (MemStore.exec (λ _, false) DateNowISO alice_store).2
           "token-1" alice_resolved (VStr (MemStore.iso 0))
           (answer_error "update violates a constraint")).
  - reflexivity.
  - reflexivity.
  - discriminate.
  - reflexivity.
  - reflexivity.
  - reflexivity.
  - exact alice_update_not_empty.
  - reflexivity.
  - vm_compute. reflexivity.
  - reflexivity.
Defined.

(** X13: a request without a parsed body ([req.body] undefined or null)
    is answered 500 [{ error: 'internal server error' }], not 400:
    reading the credentials off it throws in signup and login before
    any call, and [k in req.body] throws in update-profile once the
    token is resolved. *)
Theorem missing_body_is_500 {W : Type} (exec : call → W → outcome * W)
    (req : request) (w : W) :
  nullish (body req) = true →
  run exec (auth_signup req) w =
    (Returned (Response 500 (VObj {[ "error" := VStr "internal server error" ]})),
     w, []) ∧
  run exec (auth_login req) w =
    (Returned (Response 500 (VObj {[ "error" := VStr "internal server error" ]})),
     w, []) ∧
  ∀ (t : string) (gr : value) (w1 : W),
    getBearerToken req = Some t → t ≠ "" →
    exec (AuthGetUser (VStr t)) w = (Resolved gr, w1) →
    truthy (get gr "error") = false →
    truthy (token_user gr) = true →
    run exec (auth_put_profile req) w =
      (Returned (Response 500 (VObj {[ "error" := VStr "internal server error" ]})),
       w1, [(AuthGetUser (VStr t), Resolved gr)]).
Proof.
  intros Hb. split; [|split].
  - unfold auth_signup, prop. by rewrite Hb.
  - unfold auth_login, prop. by rewrite Hb.
  - unfold token_user. intros t gr w1 Ht Hne Hg Herr Hu. unfold auth_put_profile.
    rewrite (run_with_user_ok _ req _ _ w t gr w1) by done.
    rewrite collect_updates_primitive; [done|]. by destruct (body req).
Qed.

Lemma missing_body_is_500_witness :
  run Replay.exec (auth_signup alice_read) [Resolved alice_resolved] =
    (Returned (Response 500 (VObj {[ "error" := VStr "internal server error" ]})),
     [Resolved alice_resolved], []) ∧
  run Replay.exec (auth_login alice_read) [Resolved alice_resolved] =
    (Returned (Response 500 (VObj {[ "error" := VStr "internal server error" ]})),
     [Resolved alice_resolved], []) ∧
  run Replay.exec (auth_put_profile alice_read) [Resolved alice_resolved] =
    (Returned (Response 500 (VObj {[ "error" := VStr "internal server error" ]})),
     [], [(AuthGetUser (VStr "token-1"), Resolved alice_resolved)]).
Proof.
  destruct (missing_body_is_500 Replay.exec alice_read [Resolved alice_resolved] eq_refl)
    as (H1 & H2 & H3).
  split; [exact H1|]. split; [exact H2|].
  exact (H3 "token-1" alice_resolved [] eq_refl ltac:(discriminate) eq_refl eq_refl
            eq_refl).
Defined.

(** X14: for a store that honours the select contract, a 200 answer of
    get-profile means that the header carried a token the store
    resolved to a user, and a profile in the answer is the row of that
    very user: its id is the id of the token's user, whatever else the
    request says. *)
Theorem get_profile_200_is_own_profile {W : Type} (exec : call → W → outcome * W)
    (req : request) (w w' : W) (r : response) (tr : trace) :
  select_by_id_contract exec →
  run exec (auth_get_profile req) w = (Returned r, w', tr) →
  status r = 200 →
  ∃ (t : string) (gr : value) (w1 : W),
    getBearerToken req = Some t ∧
    exec (AuthGetUser (VStr t)) w = (Resolved gr, w1) ∧
    truthy (get gr "error") = false ∧
    truthy (token_user gr) = true ∧
    (truthy (get (payload r) "profile") = true →
     get (get (payload r) "profile") "id" = get (token_user gr) "id").
Proof.
  intros Hsel. unfold auth_get_profile, with_user, token_user, prop.
  destruct (getBearerToken req) as [t|]; [|by intros [= <- _ _]].
  destruct (truthy (VStr t)); [|by intros [= <- _ _]].
  step.
  destruct (exec (AuthGetUser _) w) as [[gr|e] w1] eqn:Hg; [|by intros [= <- _ _]].
  step. destruct (nullish gr); [by intros [= <- _ _]|]. step.
  destruct (truthy (get gr "error")) eqn:Herr.
  { rewrite error_message_ok by done. by intros [= <- _ _]. }
  destruct (truthy (get_opt (get gr "data") "user")) eqn:Hu; [|by intros [= <- _ _]].
  step.
  destruct (exec (ProfilesSelectSingle _) w1) as [[pr|e] w2] eqn:Hp;
    [|by intros [= <- _ _]].
  step. destruct (nullish pr); [by intros [= <- _ _]|]. step.
  destruct (truthy (get pr "error")) eqn:Hperr.
  { rewrite error_message_ok by done. by intros [= <- _ _]. }
  intros [= <- _ _] _. exists t, gr, w1. repeat split; [done..|].
  cbn [payload]. change (get (VObj {[ "profile" := get pr "data" ]}) "profile")
    with (get pr "data").
  intros Hdata. by apply (Hsel _ _ _ _ Hp).
Qed.

Lemma get_profile_200_is_own_profile_witness :
  ∃ (t : string) (gr : value) (w1 : MemStore.store),
    getBearerToken alice_read = Some t ∧
    MemStore.exec (λ _, true) (AuthGetUser (VStr t)) alice_store = (Resolved gr, w1) ∧
    truthy (get gr "error") = false ∧
    truthy (token_user gr) = true ∧
    (truthy (get (payload (Response 200 (VObj {[ "profile" := VObj alice_stored_profile ]})))
                 "profile") = true →
     get (get (payload (Response 200 (VObj {[ "profile" := VObj alice_stored_profile ]})))
              "profile") "id" = get (token_user gr) "id").
Proof.
  apply (get_profile_200_is_own_profile (MemStore.exec (λ _, true)) alice_read
           alice_store alice_store
           (Response 200 (VObj {[ "profile" := VObj alice_stored_profile ]}))
           [ (AuthGetUser (VStr "token-1"), Resolved alice_resolved);
             (ProfilesSelectSingle (VStr "user-0"),
              Resolved (answer_ok (VObj alice_stored_profile))) ]).
  - apply MemStore_select_by_id.
  - vm_compute. reflexivity.
  - reflexivity.
Defined.

(** ** The legacy login *)

(** X15: when the query finds no row for the email, [loginUser] answers
    400 [{ message: 'No such user' }]; neither [bcrypt] nor [jwt] is
    called. *)
Theorem loginUser_unknown_email {W : Type} (exec : call → W → outcome * W)
    (secret : value) (req : request) (w w1 : W) (res : value) :
  nullish (body req) = false →
  exec (PoolQuery sql_user_by_email [get (body req) "email"]) w = (Resolved res, w1) →
  get res "rows" = VArr [] →
  run exec (loginUser secret req) w =
    (Returned (Response 400 (message_body "No such user")), w1,
     [(PoolQuery sql_user_by_email [get (body req) "email"], Resolved res)]).
Proof.
  intros Hb Hq Hrows. unfold loginUser. prop_step (body req). step.
  rewrite Hq. step.
  rewrite (prop_ok res) by (destruct res; done).
  step. rewrite Hrows. reflexivity.
Qed.

Lemma loginUser_unknown_email_witness :
  run (MemDb.exec bcrypt_fixture jwt_fixture) (loginUser (VStr "secret") alice_login)
      [bob_row] =
    (Returned (Response 400 (message_body "No such user")), [bob_row],
     [(PoolQuery sql_user_by_email [get (body alice_login) "email"],
       Resolved (MemDb.result []))]).
Proof.
  apply (loginUser_unknown_email (MemDb.exec bcrypt_fixture jwt_fixture)
           (VStr "secret") alice_login [bob_row] [bob_row] (MemDb.result []));
    reflexivity.
Defined.

(** X16: when [bcrypt.compare] resolves to a falsy value, [loginUser]
    answers 400 [{ message: 'Wrong password' }] and [jwt.sign] is not
    called: the answer carries no token and no row. *)
Theorem loginUser_wrong_password {W : Type} (exec : call → W → outcome * W)
    (secret : value) (req : request) (w w1 w2 : W)
    (res row matched : value) (others : list value) :
  nullish (body req) = false →
  exec (PoolQuery sql_user_by_email [get (body req) "email"]) w = (Resolved res, w1) →
  get res "rows" = VArr (row :: others) →
  nullish row = false →
  exec (BcryptCompare (get (body req) "password") (get row "password")) w1
    = (Resolved matched, w2) →
  truthy matched = false →
  run exec (loginUser secret req) w =
    (Returned (Response 400 (message_body "Wrong password")), w2,
     [ (PoolQuery sql_user_by_email [get (body req) "email"], Resolved res);
       (BcryptCompare (get (body req) "password") (get row "password"),
        Resolved matched) ]).
Proof.
  intros Hb Hq Hrows Hrow Hcmp Hm. unfold loginUser. prop_step (body req). step.
  rewrite Hq. step.
  rewrite (prop_ok res) by (destruct res; done).
  step. rewrite Hrows. step. rewrite get_length_cons. step.
  rewrite (prop_ok row) by done. step. rewrite Hcmp. step. by rewrite Hm.
Qed.

Lemma loginUser_wrong_password_witness :
  run (MemDb.exec bcrypt_fixture jwt_fixture) (loginUser (VStr "secret") alice_login)
      [bob_row; mallory_row] =
    (Returned (Response 400 (message_body "Wrong password")), [bob_row; mallory_row],
     [ (PoolQuery sql_user_by_email [get (body alice_login) "email"],
        Resolved (MemDb.result [mallory_row]));
       (BcryptCompare (get (body alice_login) "password")
                      (get (VObj mallory_row) "password"),
        Resolved (VBool false)) ]).
Proof.
  apply (loginUser_wrong_password (MemDb.exec bcrypt_fixture jwt_fixture)
           (VStr "secret") alice_login [bob_row; mallory_row] [bob_row; mallory_row]
           [bob_row; mallory_row] (MemDb.result [mallory_row]) (VObj mallory_row)
           (VBool false) []);
    reflexivity.
Defined.

(** X17: [loginUser] answers 200 only when [bcrypt.compare], called on
    the password of the body and the [password] of the first row the
    query returned, resolved to a truthy value; the token of the answer
    is then what [jwt.sign] returned for the payload [{ id }] of that
    row and the secret, and [user] is that row. *)
Theorem loginUser_200_means_password_matched
    {W : Type} (exec : call → W → outcome * W)
    (secret : value) (req : request) (w w' : W) (r : response) (tr : trace) :
  run exec (loginUser secret req) w = (Returned r, w', tr) →
  status r = 200 →
  ∃ (res matched token : value) (w1 w2 : W),
    exec (PoolQuery sql_user_by_email [get (body req) "email"]) w = (Resolved res, w1) ∧
    exec (BcryptCompare (get (body req) "password")
                        (get (get_index (get res "rows") 0) "password")) w1
      = (Resolved matched, w2) ∧
    truthy matched = true ∧
    exec (JwtSign (VObj {[ "id" := get (get_index (get res "rows") 0) "id" ]}) secret) w2
      = (Resolved token, w') ∧
    payload r = VObj {[ "token" := token; "user" := get_index (get res "rows") 0 ]}.
Proof.
  unfold loginUser, prop.
  destruct (nullish (body req)); [by intros [= ]|]. step.
  destruct (exec (PoolQuery _ _) w) as [[res|e] w1] eqn:Hq; [|by intros [= ]].
  step. destruct (nullish res); [by intros [= ]|]. step.
  destruct (nullish (get res "rows")); [by intros [= ]|]. step.
  destruct (is_zero (get (get res "rows") "length")); [by intros [= <- _ _]|].
  destruct (nullish (get_index (get res "rows") 0)); [by intros [= ]|]. step.
  destruct (exec (BcryptCompare _ _) w1) as [[matched|e] w2] eqn:Hcmp;
    [|by intros [= ]].
  step. destruct (truthy matched) eqn:Hm; [|by intros [= <- _ _]]. step.
  destruct (exec (JwtSign _ _) w2) as [[token|e] w3] eqn:Hsign; [|by intros [= ]].
  step. intros [= <- <- _] _. by exists res, matched, token, w1, w2.
Qed.

Lemma loginUser_200_means_password_matched_witness :
  ∃ (res matched token : value) (w1 w2 : list (gmap string value)),
    MemDb.exec bcrypt_fixture jwt_fixture
      (PoolQuery sql_user_by_email [get (body alice_login) "email"]) [bob_row; alice_row]
      = (Resolved res, w1) ∧
    MemDb.exec bcrypt_fixture jwt_fixture
      (BcryptCompare (get (body alice_login) "password")
                     (get (get_index (get res "rows") 0) "password")) w1
      = (Resolved matched, w2) ∧
    truthy matched = true ∧
    MemDb.exec bcrypt_fixture jwt_fixture
      (JwtSign (VObj {[ "id" := get (get_index (get res "rows") 0) "id" ]})
               (VStr "secret")) w2
      = (Resolved token, [bob_row; alice_row]) ∧
    payload (Response 200 (VObj {[ "token" := VStr "header.payload.signature";
                                   "user" := VObj alice_row ]}))
      = VObj {[ "token" := token; "user" := get_index (get res "rows") 0 ]}.
Proof.
  apply (loginUser_200_means_password_matched (MemDb.exec bcrypt_fixture jwt_fixture)
           (VStr "secret") alice_login [bob_row; alice_row] [bob_row; alice_row]
           (Response 200 (VObj {[ "token" := VStr "header.payload.signature";
                                  "user" := VObj alice_row ]}))
           [ (PoolQuery sql_user_by_email [get (body alice_login) "email"],
              Resolved (MemDb.result [alice_row]));
             (BcryptCompare (get (body alice_login) "password")
                            (get (VObj alice_row) "password"), Resolved (VBool true));
             (JwtSign (VObj {[ "id" := get (VObj alice_row) "id" ]}) (VStr "secret"),
              Resolved (VStr "header.payload.signature")) ]).
  - vm_compute. reflexivity.
  - reflexivity.
Defined.

(** ** registerUser *)

Arguments register_hash : simpl never.
Arguments register_insert : simpl never.



(** X19: when [bcrypt.hash] or the INSERT rejects with an error object,
    [registerUser] answers 500 with the message of that error in
    [{ error }]; after a rejected hash no statement is sent. *)
Theorem registerUser_failure_is_500 {W : Type} (exec : Register.call → W → outcome * W)
    (type_error_message : value → string → string) (req : request) (w : W) :
  nullish (body req) = false →
  (∀ (e : value) (w1 : W),
     exec (register_hash req) w = (Rejected e, w1) →
     nullish e = false →
     Register.run exec (Register.registerUser type_error_message req) w =
       (Returned (Response 500 (error_body (get e "message"))), w1,
        [(register_hash req, Rejected e)])) ∧
  (∀ (h e : value) (w1 w2 : W),
     exec (register_hash req) w = (Resolved h, w1) →
     exec (register_insert req h) w1 = (Rejected e, w2) →
     nullish e = false →
     Register.run exec (Register.registerUser type_error_message req) w =
       (Returned (Response 500 (error_body (get e "message"))), w2,
        [ (register_hash req, Resolved h); (register_insert req h, Rejected e) ])).
Proof.
  unfold register_hash, register_insert. intros Hb. split.
  - intros e w1 Hh He.
    unfold Register.registerUser, Register.prop. rewrite Hb. cbn.
    rewrite Hh. cbn. by rewrite He.
  - intros h e w1 w2 Hh Hq He.
    unfold Register.registerUser, Register.prop. rewrite Hb. cbn.
    rewrite Hh. cbn. rewrite Hq. cbn. by rewrite He.
Qed.

Lemma registerUser_failure_is_500_witness :
  Register.run register_replay (Register.registerUser sample_message carol_register)
      [Resolved (VStr carol_hash); Rejected duplicate_email_error] =
    (Returned (Response 500 (error_body (get duplicate_email_error "message"))), [],
     [ (register_hash carol_register, Resolved (VStr carol_hash));
       (register_insert carol_register (VStr carol_hash),
        Rejected duplicate_email_error) ]).
Proof.
  destruct (registerUser_failure_is_500 register_replay sample_message carol_register
              [Resolved (VStr carol_hash); Rejected duplicate_email_error] eq_refl)
    as [_ H].
  exact (H (VStr carol_hash) duplicate_email_error
           [Rejected duplicate_email_error] [] eq_refl eq_refl eq_refl).
Defined.

(** X20: [registerUser] destructures [req.body] before its [try]: for a
    request without a parsed body the [TypeError] leaves the handler
    uncaught, no call is made and no response is sent. *)
Theorem registerUser_without_body_escapes
    {W : Type} (exec : Register.call → W → outcome * W)
    (type_error_message : value → string → string) (req : request) (w : W) :
  nullish (body req) = true →
  Register.run exec (Register.registerUser type_error_message req) w =
    (Uncaught (Register.type_error type_error_message (body req) "name"), w, []).
Proof.
  intros Hb. unfold Register.registerUser, Register.prop. by rewrite Hb.
Qed.

Lemma registerUser_without_body_escapes_witness :
  Register.run register_replay
      (Register.registerUser sample_message (Request None VUndef)) [] =
    (Uncaught (Register.type_error sample_message VUndef "name"), [], []).
Proof.
  apply (registerUser_without_body_escapes register_replay sample_message
           (Request None VUndef) []).
  reflexivity.
Defined.

(** ** The handlers on the reference store *)

Lemma has_id_lookup a row :
  MemStore.has_id (VStr a) row = true ↔ row !! "id" = Some (VStr a).
Proof.
  unfold MemStore.has_id. destruct (row !! "id") as [[]|]; try by split.
  split; [by intros ->%String.eqb_eq|]. intros [= ->]. apply String.eqb_refl.
Qed.

(** A token the reference store resolves is a session of an identity of
    the store, and the user it answers with has that identity's id. *)
Lemma MemStore_get_user_resolved t st gr :
  MemStore.get_user (VStr t) st = (Resolved gr, st) →
  truthy (token_user gr) = true →
  ∃ i, MemStore.sessions st !! t = Some (MemStore.ident_id i) ∧
       i ∈ MemStore.identities st ∧
       get (token_user gr) "id" = VStr (MemStore.ident_id i).
Proof.
  unfold MemStore.get_user.
  destruct (MemStore.sessions st !! t) as [id|]; [|by intros [= <-]].
  destruct (find _ _) as [i|] eqn:Hfind; [|by intros [= <-]].
  intros [= <-] _. apply find_some in Hfind as [Hin Hid].
  apply String.eqb_eq in Hid as <-. exists i.
  split; [done|]. split; [by apply list_elem_of_In|done].
Qed.

(** Every way the update handler can end on the reference store. *)
Lemma put_profile_store_effect accepts req st :
  MemStore.identities (world_after (run (MemStore.exec accepts) (auth_put_profile req) st))
    = MemStore.identities st ∧
  MemStore.sessions (world_after (run (MemStore.exec accepts) (auth_put_profile req) st))
    = MemStore.sessions st ∧
  (MemStore.profiles (world_after (run (MemStore.exec accepts) (auth_put_profile req) st))
     = MemStore.profiles st ∨
   ∃ (b : gmap string value) (t : string) (gr : value),
     body req = VObj b ∧
     getBearerToken req = Some t ∧
     MemStore.get_user (VStr t) st = (Resolved gr, st) ∧
     truthy (token_user gr) = true ∧
     MemStore.profiles
       (world_after (run (MemStore.exec accepts) (auth_put_profile req) st)) =
       MemStore.apply_update (get (token_user gr) "id")
         (stamped_updates (VStr (MemStore.iso (MemStore.clock st))) b)
       <$> MemStore.profiles st).
Proof.
  unfold world_after, auth_put_profile, with_user, token_user.
  destruct (getBearerToken req) as [t|]; [|by repeat split; left].
  destruct (truthy (VStr t)) eqn:Htok; [|by repeat split; left].
  step.
  assert (∃ gr, MemStore.get_user (VStr t) st = (Resolved gr, st) ∧ nullish gr = false)
    as (gr & Hg & Hgr).
  { unfold MemStore.get_user. destruct (MemStore.sessions st !! t); [|eauto].
    destruct (find _ _); eauto. }
  rewrite Hg. step. prop_step gr. step.
  destruct (truthy (get gr "error")) eqn:Herr.
  { rewrite error_message_ok by done. by repeat split; left. }
  destruct (truthy (get_opt (get gr "data") "user")) eqn:Hu; [|by repeat split; left].
  step.
  destruct (body req) as [| | | | |l|b] eqn:Hbody.
  1-5: by rewrite collect_updates_primitive by done; repeat split; left.
  { rewrite collect_updates_array. by repeat split; left. }
  rewrite collect_updates_object. step.
  destruct (size (allowed_updates b) =? 0)%nat; [by repeat split; left|].
  step.
  fold (stamped_updates (VStr (MemStore.iso (MemStore.clock st))) b).
  set (uid := get (get_opt (get gr "data") "user") "id").
  set (sent := stamped_updates (VStr (MemStore.iso (MemStore.clock st))) b).
  destruct (forallb accepts (MemStore.apply_update uid sent <$> MemStore.profiles st)).
  - step. rewrite answer_ok_no_error. step.
    match goal with
    | |- context [MemStore.select_single uid ?s] =>
        destruct (MemStore_select_single_answer uid s) as (pr & -> & Hpr)
    end.
    step. prop_step pr. step.
    repeat split. right. by exists b, t, gr.
  - step. rewrite answer_error_error, error_message_ok by done.
    by repeat split; left.
Qed.

(** X22: on the reference store, update-profile changes no identity and
    no session, and the only rows it can change are rows of the
    identity the bearer token is a session of: whatever the request
    says, the rows of other users stay as they are. *)
Theorem update_profile_touches_own_rows_only
    (accepts : gmap string value → bool) (req : request) (st : MemStore.store) :
  MemStore.identities (world_after (run (MemStore.exec accepts) (auth_put_profile req) st))
    = MemStore.identities st ∧
  MemStore.sessions (world_after (run (MemStore.exec accepts) (auth_put_profile req) st))
    = MemStore.sessions st ∧
  Forall2 (λ row row' : gmap string value, row' = row ∨ row_of_token_user req st row)
          (MemStore.profiles st)
          (MemStore.profiles
             (world_after (run (MemStore.exec accepts) (auth_put_profile req) st))).
Proof.
  destruct (put_profile_store_effect accepts req st)
    as (Hi & Hs & [-> | (b & t & gr & Hbody & Ht & Hg & Hu & ->)]).
  - repeat split; [done..|]. apply Forall_Forall2_diag, Forall_forall. by left.
  - repeat split; [done..|].
    apply Forall2_fmap_r, Forall_Forall2_diag, Forall_forall. intros row _.
    destruct (MemStore_get_user_resolved t st gr Hg Hu) as (i & Hsess & Hin & Hid).
    unfold compose, MemStore.apply_update. rewrite Hid.
    destruct (MemStore.has_id (VStr (MemStore.ident_id i)) row) eqn:Hrow; [|by left].
    right. exists t, i. repeat split; [done..|]. by apply has_id_lookup.
Qed.

(** ** Signup on the reference store *)

Arguments MemStore.create_user : simpl never.
Arguments MemStore.insert_profiles : simpl never.
Arguments MemStore.insertable : simpl never.
Arguments MemStore.delete_user : simpl never.
Arguments MemStore.sign_in : simpl never.
Arguments MemStore.user_object : simpl never.
Arguments created_answer : simpl never.
Arguments session_answer : simpl never.
Arguments signup_profile : simpl never.
Arguments with_identity : simpl never.
Arguments with_profile : simpl never.
Arguments with_session : simpl never.
Arguments without_identity : simpl never.

Ltac prop_refl := rewrite ?prop_ok by reflexivity.

Lemma create_attrs_email e p f : get (create_attrs e p f) "email" = e.
Proof. reflexivity. Qed.

Lemma create_attrs_password e p f : get (create_attrs e p f) "password" = p.
Proof. reflexivity. Qed.

Lemma credentials_email e p : get (credentials e p) "email" = e.
Proof. reflexivity. Qed.

Lemma credentials_password e p : get (credentials e p) "password" = p.
Proof. reflexivity. Qed.

Lemma created_answer_error i : truthy (get (created_answer i) "error") = false.
Proof. reflexivity. Qed.

Lemma created_answer_user i : get (created_answer i) "user" = MemStore.user_object i.
Proof. reflexivity. Qed.

Lemma user_object_id i : get (MemStore.user_object i) "id" = VStr (MemStore.ident_id i).
Proof. reflexivity. Qed.

Lemma session_answer_error st i : truthy (get (session_answer st i) "error") = false.
Proof. reflexivity. Qed.

Lemma session_answer_user st i :
  get_opt (get (session_answer st i) "data") "user" = MemStore.user_object i.
Proof. reflexivity. Qed.

(** [create_user] either answers with an error and leaves the store, or
    adds a new identity for a string email that was not taken. *)
Lemma create_user_cases attrs st :
  (∃ a, MemStore.create_user attrs st = (Resolved a, st) ∧
        truthy (get a "error") = true) ∨
  (∃ e p, get attrs "email" = VStr e ∧ get attrs "password" = VStr p ∧
          existsb (λ i, String.eqb (MemStore.ident_email i) e) (MemStore.identities st)
            = false ∧
          MemStore.create_user attrs st =
            (Resolved (created_answer (new_identity st e p)),
             with_identity st (new_identity st e p))).
Proof.
  unfold MemStore.create_user.
  destruct (get attrs "email") as [| | | |e| |];
    try (left; eexists; split; [reflexivity|done]).
  destruct (get attrs "password") as [| | | |p| |];
    try (left; eexists; split; [reflexivity|done]).
  destruct (existsb _ _) eqn:Hex; [left; eexists; split; [reflexivity|done]|].
  right. by exists e, p.
Qed.

Lemma insert_profiles_cases accepts uid u f a st :
  MemStore.insert_profiles accepts (profile_rows uid u f a) st =
    if MemStore.insertable accepts st (VObj (signup_profile uid u f a))
    then (Resolved (answer_ok VNull), with_profile st (signup_profile uid u f a))
    else (Resolved (answer_error "insert violates a constraint"), st).
Proof. reflexivity. Qed.

Lemma insertable_signup_profile accepts id u f a st :
  MemStore.insertable accepts st (VObj (signup_profile (VStr id) u f a)) = true →
  forallb (λ r, negb (MemStore.has_id (VStr id) r)) (MemStore.profiles st) = true.
Proof.
  unfold MemStore.insertable.
  change (signup_profile (VStr id) u f a !! "id") with (Some (VStr id)).
  by intros [_ H]%andb_true_iff.
Qed.

Lemma find_new_identity st e p :
  existsb (λ i, String.eqb (MemStore.ident_email i) e) (MemStore.identities st) = false →
  find (λ i, String.eqb (MemStore.ident_email i) e
             && String.eqb (MemStore.ident_password i) p)
       (MemStore.identities st ++ [new_identity st e p]) = Some (new_identity st e p).
Proof.
  intros Hex. induction (MemStore.identities st) as [|i l IH]; cbn in *.
  - by rewrite !String.eqb_refl.
  - apply orb_false_iff in Hex as [-> Hex]. cbn. by apply IH.
Qed.

Lemma sign_in_found st e p i :
  find (λ i, String.eqb (MemStore.ident_email i) e
             && String.eqb (MemStore.ident_password i) p)
       (MemStore.identities st) = Some i →
  MemStore.sign_in (credentials (VStr e) (VStr p)) st =
    (Resolved (session_answer st i), with_session st i).
Proof.
  intros Hfind. unfold MemStore.sign_in.
  rewrite credentials_email, credentials_password, Hfind. reflexivity.
Qed.

Lemma filter_new_row id row (rows : list (gmap string value)) :
  forallb (λ r, negb (MemStore.has_id (VStr id) r)) rows = true →
  row !! "id" = Some (VStr id) →
  filter (λ r, MemStore.has_id (VStr id) r = true) (rows ++ [row]) = [row].
Proof.
  intros Hnone Hrow. rewrite filter_app.
  assert (filter (λ r, MemStore.has_id (VStr id) r = true) rows = []) as ->.
  { induction rows as [|r l IH]; [done|].
    cbn [forallb] in Hnone. apply andb_true_iff in Hnone as [Hr Hl].
    rewrite filter_cons_False; [by apply IH|].
    intros Heq. by rewrite Heq in Hr. }
  rewrite filter_cons_True by by apply has_id_lookup. done.
Qed.

Lemma select_single_new_row id row st st' :
  forallb (λ r, negb (MemStore.has_id (VStr id) r)) (MemStore.profiles st) = true →
  row !! "id" = Some (VStr id) →
  MemStore.profiles st' = MemStore.profiles st ++ [row] →
  MemStore.select_single (VStr id) st' = (Resolved (answer_ok (VObj row)), st').
Proof.
  intros Hnone Hrow Hst'. unfold MemStore.select_single.
  by rewrite Hst', (filter_new_row id row _ Hnone Hrow).
Qed.

(** Every way the signup handler can end on the reference store: the
    store is as it was; or an identity was added and, the insert having
    been refused, deleted again; or identity, profile and session were
    added and the answer is 201 with that profile. *)
Lemma signup_store_effect accepts req st :
  (world_after (run (MemStore.exec accepts) (auth_signup req) st) = st ∧
   ∀ r, answered (run (MemStore.exec accepts) (auth_signup req) st) = Some r →
        status r ≠ 201) ∨
  ∃ e p,
    get (body req) "email" = VStr e ∧
    get (body req) "password" = VStr p ∧
    truthy (VStr e) = true ∧
    truthy (VStr p) = true ∧
    existsb (λ i, String.eqb (MemStore.ident_email i) e) (MemStore.identities st)
      = false ∧
    ((world_after (run (MemStore.exec accepts) (auth_signup req) st)
        = without_identity (with_identity st (new_identity st e p))
                           (MemStore.ident_id (new_identity st e p)) ∧
      ∀ r, answered (run (MemStore.exec accepts) (auth_signup req) st) = Some r →
           status r ≠ 201) ∨
     ∃ row : gmap string value,
       row !! "id" = Some (VStr (MemStore.ident_id (new_identity st e p))) ∧
       forallb (λ r, negb (MemStore.has_id
                             (VStr (MemStore.ident_id (new_identity st e p))) r))
               (MemStore.profiles st) = true ∧
       world_after (run (MemStore.exec accepts) (auth_signup req) st)
         = with_session (with_profile (with_identity st (new_identity st e p)) row)
                        (new_identity st e p) ∧
       ∃ r, answered (run (MemStore.exec accepts) (auth_signup req) st) = Some r ∧
            status r = 201 ∧
            get (payload r) "profile" = VObj row ∧
            get (get (payload r) "user") "id"
              = VStr (MemStore.ident_id (new_identity st e p)) ∧
            get (get (payload r) "session") "access_token"
              = VStr (new_token
                        (with_profile (with_identity st (new_identity st e p)) row))).
Proof.
  unfold world_after, answered, auth_signup.
  destruct (nullish (body req)) eqn:Hb.
  { left. unfold prop. rewrite Hb. split; [done|]. by intros r [= <-]. }
  prop_step (body req). step.
  destruct (truthy (get (body req) "email")) eqn:H1;
    [|left; split; [done|]; by intros r [= <-]].
  destruct (truthy (get (body req) "password")) eqn:H2;
    [|left; split; [done|]; by intros r [= <-]].
  destruct (truthy (get (body req) "username")) eqn:H3;
    [|left; split; [done|]; by intros r [= <-]].
  step.
  destruct (create_user_cases
              (create_attrs (get (body req) "email") (get (body req) "password")
                            (get (body req) "full_name")) st)
    as [(a & -> & Ha) | (e & p & He & Hp & Hex & ->)].
  { left. step. prop_step a. step. rewrite Ha.
    rewrite error_message_ok by done. split; [done|]. by intros r [= <-]. }
  rewrite create_attrs_email in He. rewrite create_attrs_password in Hp.
  right. exists e, p.
  split; [done|]. split; [done|].
  split; [by rewrite <- He|]. split; [by rewrite <- Hp|]. split; [done|].
  set (i := new_identity st e p).
  step. prop_refl. step. rewrite created_answer_error, created_answer_user.
  prop_refl. step.
  rewrite user_object_id, insert_profiles_cases.
  destruct (MemStore.insertable _ _ _) eqn:Hins.
  - right. apply insertable_signup_profile in Hins.
    pose (row := signup_profile (VStr (MemStore.ident_id i)) (get (body req) "username")
                                (get (body req) "full_name") (get (body req) "avatar_url")).
    exists row. split; [reflexivity|]. split; [exact Hins|].
    step. prop_refl. step. rewrite answer_ok_no_error. step.
    rewrite He, Hp.
    rewrite (sign_in_found _ e p i) by apply (find_new_identity st e p Hex).
    step. prop_refl. step. rewrite session_answer_error. step.
    pose proof (select_single_new_row (MemStore.ident_id i) row (with_identity st i)
                  (with_session (with_profile (with_identity st i) row) i)
                  Hins eq_refl eq_refl) as Hsel.
    unfold row in Hsel.
    change (MemStore.ident_id i) with ("user-" +:+ pretty (MemStore.next st)) in Hsel.
    rewrite Hsel.
    step. split; [reflexivity|]. eexists. split; [reflexivity|].
    repeat split.
  - left. step. prop_refl. step. rewrite answer_error_error. step.
    rewrite error_message_ok by done. split; [reflexivity|]. by intros r [= <-].
Qed.

(** ** Invariants of the reference store *)

(** A property of the world that every call a program may make keeps is
    kept by the whole run. *)
Lemma run_keeps {A W : Type} (exec : call → W → outcome * W) (Inv : W → Prop)
    (P : call → Prop) (p : prog A) (w : W) :
  (∀ c w, P c → Inv w → Inv (exec c w).2) →
  calls_within P p → Inv w → Inv (run exec p w).1.2.
Proof.
  intros Hstep. revert w. induction p as [a|e|c k IH]; intros w Hp Hw; cbn; [done..|].
  destruct Hp as [Hc Hk]. specialize (Hstep c w Hc Hw).
  destruct (exec c w) as [o w1].
  specialize (IH o w1 (Hk o) Hstep).
  by destruct (run exec (k o) w1) as [[r w2] t].
Qed.

Lemma sign_in_keeps_rows creds st :
  MemStore.identities (MemStore.sign_in creds st).2 = MemStore.identities st ∧
  MemStore.profiles (MemStore.sign_in creds st).2 = MemStore.profiles st.
Proof.
  unfold MemStore.sign_in.
  destruct (get creds "email"); try done. destruct (get creds "password"); try done.
  by destruct (find _ _).
Qed.

Lemma get_user_keeps token st : (MemStore.get_user token st).2 = st.
Proof.
  unfold MemStore.get_user. destruct token; try done.
  destruct (_ !! _); [|done]. by destruct (find _ _).
Qed.

Lemma select_single_keeps id st : (MemStore.select_single id st).2 = st.
Proof.
  unfold MemStore.select_single.
  by destruct (filter _ _) as [|? [|? ?]].
Qed.

Lemma login_keeps_rows accepts req st :
  MemStore.identities (world_after (run (MemStore.exec accepts) (auth_login req) st))
    = MemStore.identities st ∧
  MemStore.profiles (world_after (run (MemStore.exec accepts) (auth_login req) st))
    = MemStore.profiles st.
Proof.
  apply (run_keeps (MemStore.exec accepts)
           (λ s, MemStore.identities s = MemStore.identities st ∧
                 MemStore.profiles s = MemStore.profiles st) login_call);
    [| unfold auth_login; walk | done].
  intros [] w Hc [Hi Hp]; try done; cbn [MemStore.exec].
  - destruct (sign_in_keeps_rows creds w) as [-> ->]. done.
  - by rewrite select_single_keeps.
Qed.

Lemma get_profile_keeps_store accepts req st :
  world_after (run (MemStore.exec accepts) (auth_get_profile req) st) = st.
Proof.
  apply (run_keeps (MemStore.exec accepts) (λ s, s = st) get_profile_call);
    [| unfold auth_get_profile, with_user; walk | done].
  intros [] w Hc ->; try done; cbn [MemStore.exec].
  - apply get_user_keeps.
  - apply select_single_keeps.
Qed.

Lemma id_protected : protected_column "id".
Proof. split; [|done]. unfold allowed. set_solver. Qed.

Lemma alice_store_owned : profiles_owned alice_store.
Proof.
  intros row ->%list_elem_of_singleton.
  exists (MemStore.Identity "user-0" "a@x.com" "pw123456").
  split; [apply list_elem_of_singleton; reflexivity | reflexivity].
Qed.

(** X23: on the reference store, each of the four handlers of server.js
    keeps the invariant that every profile row belongs to an identity:
    whatever the request and the table's constraints, signup (its
    rollback included), login, get-profile and update-profile leave no
    profile row whose [id] is not the id of an existing identity. *)
Theorem server_handlers_keep_profiles_owned
    (accepts : gmap string value → bool) (req : request) (st : MemStore.store) :
  profiles_owned st →
  profiles_owned (world_after (run (MemStore.exec accepts) (auth_signup req) st)) ∧
  profiles_owned (world_after (run (MemStore.exec accepts) (auth_login req) st)) ∧
  profiles_owned (world_after (run (MemStore.exec accepts) (auth_get_profile req) st)) ∧
  profiles_owned (world_after (run (MemStore.exec accepts) (auth_put_profile req) st)).
Proof.
  intros Hst. repeat split.
  - destruct (signup_store_effect accepts req st)
      as [[-> _] | (e & p & _ & _ & _ & _ & _ & [[-> _] | (row & Hid & _ & -> & _)])];
      [done| |].
    + intros row [Hrow Hin]%list_elem_of_filter.
      destruct (Hst row Hin) as (i & Hi & Hid). exists i. split; [|done].
      apply list_elem_of_filter. split; [|apply elem_of_app; by left].
      intros Heq. rewrite <- Heq in Hrow.
      apply has_id_lookup in Hid. by rewrite Hid in Hrow.
    + intros row' [Hin | ->%list_elem_of_singleton]%elem_of_app.
      * destruct (Hst row' Hin) as (i & Hi & Hid'). exists i. split; [|done].
        apply elem_of_app. by left.
      * eexists. split; [|exact Hid]. apply elem_of_app. right.
        by apply list_elem_of_singleton.
  - destruct (login_keeps_rows accepts req st) as [Hi Hp].
    intros row Hin. rewrite Hp in Hin. rewrite Hi. by apply Hst.
  - by rewrite get_profile_keeps_store.
  - destruct (put_profile_store_effect accepts req st)
      as (Hi & _ & [Hp | (b & t & gr & _ & _ & _ & _ & Hp)]);
      intros row Hin; rewrite Hp in Hin; rewrite Hi; [by apply Hst|].
    apply list_elem_of_fmap in Hin as (row0 & -> & Hin).
    rewrite apply_update_protected
      by (apply stamped_updates_protected, id_protected).
    by apply Hst.
Qed.

Lemma server_handlers_keep_profiles_owned_witness :
  profiles_owned
    (world_after (run (MemStore.exec (λ _, true)) (auth_signup alice_signup) alice_store)) ∧
  profiles_owned
    (world_after (run (MemStore.exec (λ _, true)) (auth_login alice_signup) alice_store)) ∧
  profiles_owned
    (world_after (run (MemStore.exec (λ _, true)) (auth_get_profile alice_signup)
                      alice_store)) ∧
  profiles_owned
    (world_after (run (MemStore.exec (λ _, true)) (auth_put_profile alice_signup)
                      alice_store)).
Proof.
  exact (server_handlers_keep_profiles_owned (λ _, true) alice_signup alice_store
           alice_store_owned).
Defined.

Lemma get_VStr_not_nullish v k s : get v k = VStr s → nullish v = false.
Proof. by destruct v. Qed.

Lemma user_object_truthy i : truthy (MemStore.user_object i) = true.
Proof. reflexivity. Qed.

Lemma new_identity_id_truthy st e p :
  truthy (VStr (MemStore.ident_id (new_identity st e p))) = true.
Proof. reflexivity. Qed.

(** ** Signup followed by another request *)

(** X24: on the reference store, after a signup answered 201, a login
    whose body has the same email and password is answered 200 with the
    profile the signup answered with. *)
Theorem login_after_signup
    (accepts : gmap string value → bool) (req req' : request) (st : MemStore.store)
    (r : response) :
  answered (run (MemStore.exec accepts) (auth_signup req) st) = Some r →
  status r = 201 →
  get (body req') "email" = get (body req) "email" →
  get (body req') "password" = get (body req) "password" →
  ∃ r', answered (run (MemStore.exec accepts) (auth_login req')
                    (world_after (run (MemStore.exec accepts) (auth_signup req) st)))
          = Some r' ∧
        status r' = 200 ∧
        get (payload r') "profile" = get (payload r) "profile".
Proof.
  intros Hr H201 Hemail Hpass.
  destruct (signup_store_effect accepts req st)
    as [[_ Hno] | (e & p & He & Hp & Hte & Htp & Hex &
                   [[_ Hno] | (row & Hid & Hnone & -> & r0 & Hr0 & _ & Hprof & _)])];
    [by destruct (Hno r Hr)..|].
  rewrite Hr in Hr0. injection Hr0 as <-. rewrite Hprof.
  rewrite He in Hemail. rewrite Hp in Hpass.
  set (i := new_identity st e p) in *.
  unfold answered, auth_login.
  rewrite (prop_ok (body req')) by by eapply get_VStr_not_nullish.
  rewrite Hemail, Hpass. step. rewrite Hte, Htp. step.
  rewrite (sign_in_found _ e p i) by apply (find_new_identity st e p Hex).
  step. prop_refl. step. rewrite session_answer_error. step.
  rewrite session_answer_user, user_object_truthy, user_object_id.
  unfold i at 1. rewrite new_identity_id_truthy. step.
  change (VStr ("user-" +:+ pretty (MemStore.next st)))
    with (VStr (MemStore.ident_id i)).
  rewrite (select_single_new_row (MemStore.ident_id i) row (with_identity st i)
             (with_session (with_session (with_profile (with_identity st i) row) i) i)
             Hnone Hid eq_refl).
  step. prop_refl. step. eexists. split; [reflexivity|]. split; reflexivity.
Qed.

Lemma login_after_signup_witness :
  ∃ r', answered (run (MemStore.exec (λ _, true)) (auth_login alice_login)
                    (world_after e2e_signup)) = Some r' ∧
        status r' = 200 ∧
        get (payload r') "profile"
          = get (payload (default internal_error (answered e2e_signup))) "profile".
Proof.
  apply (login_after_signup (λ _, true) alice_signup alice_login MemStore.empty
           (default internal_error (answered e2e_signup)));
    vm_compute; reflexivity.
Defined.

Lemma new_token_truthy st : truthy (VStr (new_token st)) = true.
Proof. reflexivity. Qed.

Lemma get_user_new_session st i :
  i ∈ MemStore.identities st →
  ∃ j, MemStore.get_user (VStr (new_token st)) (with_session st i)
         = (Resolved (answer_ok (VObj {[ "user" := MemStore.user_object j ]})),
            with_session st i) ∧
       MemStore.ident_id j = MemStore.ident_id i.
Proof.
  intros Hin. unfold MemStore.get_user.
  change (MemStore.sessions (with_session st i))
    with (<[new_token st := MemStore.ident_id i]> (MemStore.sessions st)).
  rewrite lookup_insert_eq.
  change (MemStore.identities (with_session st i)) with (MemStore.identities st).
  destruct (find _ _) as [j|] eqn:Hfind.
  - exists j. split; [done|]. apply find_some in Hfind as [_ Heq].
    by apply String.eqb_eq in Heq.
  - apply list_elem_of_In in Hin.
    apply (find_none _ _ Hfind) in Hin. by rewrite String.eqb_refl in Hin.
Qed.

(** X25: on the reference store, after a signup answered 201, a
    get-profile request whose bearer token is the access token of the
    signup's session is answered 200 with the profile the signup
    answered with. *)
Theorem get_profile_with_signup_token
    (accepts : gmap string value → bool) (req req' : request) (st : MemStore.store)
    (r : response) (t : string) :
  answered (run (MemStore.exec accepts) (auth_signup req) st) = Some r →
  status r = 201 →
  get (get (payload r) "session") "access_token" = VStr t →
  getBearerToken req' = Some t →
  ∃ r', answered (run (MemStore.exec accepts) (auth_get_profile req')
                    (world_after (run (MemStore.exec accepts) (auth_signup req) st)))
          = Some r' ∧
        status r' = 200 ∧
        get (payload r') "profile" = get (payload r) "profile".
Proof.
  intros Hr H201 Htok Hbearer.
  destruct (signup_store_effect accepts req st)
    as [[_ Hno] | (e & p & He & Hp & Hte & Htp & Hex &
                   [[_ Hno] | (row & Hid & Hnone & -> & r0 & Hr0 & _ & Hprof & _ & Hacc)])];
    [by destruct (Hno r Hr)..|].
  rewrite Hr in Hr0. injection Hr0 as <-. rewrite Hprof.
  rewrite Hacc in Htok. injection Htok as <-.
  set (i := new_identity st e p) in *.
  set (st2 := with_profile (with_identity st i) row) in *.
  destruct (get_user_new_session st2 i) as (j & Hget & Hj).
  { apply elem_of_app. right. by apply list_elem_of_singleton. }
  unfold answered, auth_get_profile, with_user.
  rewrite Hbearer, new_token_truthy. step. rewrite Hget.
  step. prop_refl. step. rewrite answer_ok_no_error. step.
  change (get_opt (get (answer_ok (VObj {["user" := MemStore.user_object j]})) "data")
            "user") with (MemStore.user_object j).
  rewrite user_object_truthy, user_object_id, Hj. step.
  change (VStr ("user-" +:+ pretty (MemStore.next st)))
    with (VStr (MemStore.ident_id i)).
  rewrite (select_single_new_row (MemStore.ident_id i) row (with_identity st i)
             (with_session st2 i) Hnone Hid eq_refl).
  step. prop_refl. step. rewrite answer_ok_no_error. step.
  eexists. split; [reflexivity|]. split; reflexivity.
Qed.

Lemma get_profile_with_signup_token_witness :
  ∃ r', answered (run (MemStore.exec (λ _, true)) (auth_get_profile alice_read)
                    (world_after e2e_signup)) = Some r' ∧
        status r' = 200 ∧
        get (payload r') "profile"
          = get (payload (default internal_error (answered e2e_signup))) "profile".
Proof.
  apply (get_profile_with_signup_token (λ _, true) alice_signup alice_read MemStore.empty
           (default internal_error (answered e2e_signup)) "token-1");
    vm_compute; reflexivity.
Defined.

Lemma existsb_new_identity st e p :
  existsb (λ i, String.eqb (MemStore.ident_email i) e)
          (MemStore.identities st ++ [new_identity st e p]) = true.
Proof.
  rewrite existsb_app. apply orb_true_iff. right. cbn. by rewrite String.eqb_refl.
Qed.

Lemma create_user_taken attrs st e :
  get attrs "email" = VStr e →
  existsb (λ i, String.eqb (MemStore.ident_email i) e) (MemStore.identities st) = true →
  ∃ a, MemStore.create_user attrs st = (Resolved a, st) ∧ truthy (get a "error") = true.
Proof.
  intros He Hex. unfold MemStore.create_user. rewrite He.
  destruct (get attrs "password"); try (eexists; split; [reflexivity|done]).
  rewrite Hex. eexists; split; [reflexivity|done].
Qed.

(** X26: on the reference store, after a signup answered 201, a second
    signup with the same email is answered 400 and leaves the store as
    the first signup left it. *)
Theorem signup_same_email_again_is_400
    (accepts : gmap string value → bool) (req req' : request) (st : MemStore.store)
    (r : response) :
  answered (run (MemStore.exec accepts) (auth_signup req) st) = Some r →
  status r = 201 →
  get (body req') "email" = get (body req) "email" →
  ∃ r', answered (run (MemStore.exec accepts) (auth_signup req')
                    (world_after (run (MemStore.exec accepts) (auth_signup req) st)))
          = Some r' ∧
        status r' = 400 ∧
        world_after (run (MemStore.exec accepts) (auth_signup req')
                       (world_after (run (MemStore.exec accepts) (auth_signup req) st)))
          = world_after (run (MemStore.exec accepts) (auth_signup req) st).
Proof.
  intros Hr H201 Hemail.
  destruct (signup_store_effect accepts req st)
    as [[_ Hno] | (e & p & He & Hp & Hte & Htp & Hex &
                   [[_ Hno] | (row & Hid & Hnone & -> & _)])];
    [by destruct (Hno r Hr)..|].
  rewrite He in Hemail.
  set (i := new_identity st e p) in *.
  set (st' := with_session (with_profile (with_identity st i) row) i).
  unfold answered, world_after, auth_signup.
  rewrite (prop_ok (body req')) by by eapply get_VStr_not_nullish.
  step.
  destruct (truthy (get (body req') "email")); [|by eexists].
  destruct (truthy (get (body req') "password")); [|by eexists].
  destruct (truthy (get (body req') "username")); [|by eexists].
  step.
  destruct (create_user_taken
              (create_attrs (get (body req') "email") (get (body req') "password")
                            (get (body req') "full_name")) st' e)
    as (a & -> & Ha).
  { by rewrite create_attrs_email. }
  { apply existsb_new_identity. }
  step. prop_step a. step. rewrite Ha. rewrite error_message_ok by done.
  by eexists.
Qed.

Lemma signup_same_email_again_is_400_witness :
  ∃ r', answered (run (MemStore.exec (λ _, true)) (auth_signup alice_signup)
                    (world_after e2e_signup)) = Some r' ∧
        status r' = 400 ∧
        world_after (run (MemStore.exec (λ _, true)) (auth_signup alice_signup)
                       (world_after e2e_signup))
          = world_after e2e_signup.
Proof.
  apply (signup_same_email_again_is_400 (λ _, true) alice_signup alice_signup
           MemStore.empty (default internal_error (answered e2e_signup)));
    vm_compute; reflexivity.
Defined.
